(** * Connectivity tester: log tailing, daily aggregation and the MQTT relay

    A shallow embedding of the incremental log engine of the connectivity
    tester: [src/app/webserver.py] ([reset_summary_cache],
    [_ensure_day_state], [_summaries_from_state], [read_recent_records],
    [read_records_for_day], [build_daily_summary_from_file], [read_config],
    [Handler.do_POST]), [src/app/mqtt_publisher.py]
    ([MqttPublisher._connect], [_ensure_client], [_publish], [run]) and, of
    the Home Assistant integration, [binary_sensor.py] ([is_on]) and
    [coordinator.py] ([latest_record], [most_recent_day],
    [async_post_config]).

    Conventions of the embedding.
    - Python objects coming out of [json.loads] are values of [pyval]; Python
      [int] is [Z], Python [float] is the kernel's binary64 [float].
    - A Python exception is a constructor of [pyexc]; code that may raise
      returns a [result].
    - The log file is text of 7-bit characters, so that the character offsets
      of a text-mode handle and the byte offsets of [os.stat] agree.  It is
      opened in text mode with the default [newline=None]: LF, CR and CR LF all
      end a line and are handed to the program as LF.  [config.env] and the
      fields of a request body are 7-bit text as well, and [config.env] can
      be written and removed.
    - [json.loads], [float] applied to a [str], [str]/[repr] of a non-string
      value, [json.dumps] and the clock belong to the Python runtime: they are
      variables of the section [Runtime] and arguments of the functions.
      [json.loads] gives [None] for [json.JSONDecodeError]; the exceptions of
      other classes it raises ([ValueError], [RecursionError]) are the
      variable [json_crash] of [read_recent_records].
    - A call of [build_daily_summary_from_file] sees one state of the log,
      from [os.stat] to the end of the read; [build_daily_summary_appended]
      is the same call with text appended to the log in between. *)

From Stdlib Require Import ZArith List String Ascii Bool Lia Floats.
From Stdlib Require Import Permutation Sorted DecimalString DecimalPos.
Import ListNotations.

Set Warnings "-inexact-float,-register-all".

Local Open Scope string_scope.
Local Open Scope Z_scope.

(** ** Python values, exceptions, results *)

Inductive pyval : Type :=
| PNone
| PBool (b : bool)
| PInt (z : Z)
| PFloat (f : float)
| PStr (s : string)
| PList (l : list pyval)
| PDict (kvs : list (string * pyval)).

Inductive pyexc : Type :=
| AttributeError
| TypeError
| ValueError
| OverflowError
| RecursionError
| OSError.

Inductive result (A : Type) : Type :=
| Ok (a : A)
| Raise (e : pyexc).

Arguments Ok {A} a.
Arguments Raise {A} e.

Definition bind {A B : Type} (r : result A) (k : A -> result B) : result B :=
  match r with
  | Ok a => k a
  | Raise e => Raise e
  end.

Notation "'do' x <- r ; k" := (bind r (fun x => k))
  (at level 10, x name, r at level 100, k at level 200).

Fixpoint mapM {A B : Type} (f : A -> result B) (l : list A) : result (list B) :=
  match l with
  | [] => Ok []
  | a :: l' => do b <- f a; do bs <- mapM f l'; Ok (b :: bs)
  end.

(** ** Numbers *)

(** [float(z)] for a Python int: the nearest binary64 value (ties to even), or
    [OverflowError] when that would be an infinity. *)
Definition float_of_int (z : Z) : result float :=
  match binary_normalize prec emax z 0 false with
  | S754_infinity _ => Raise OverflowError
  | sf => Ok (SF2Prim sf)
  end.

(** [int(f)] for a Python float: truncation towards zero; [ValueError] on a
    NaN, [OverflowError] on an infinity. *)
Definition int_of_float (f : float) : result Z :=
  match Prim2SF f with
  | S754_nan => Raise ValueError
  | S754_infinity _ => Raise OverflowError
  | S754_zero _ => Ok 0
  | S754_finite s m e =>
      let a := if 0 <=? e then Zpos m * 2 ^ e else Zpos m / 2 ^ (- e) in
      Ok (if s then - a else a)
  end.

Definition Z_of_bool (b : bool) : Z := if b then 1 else 0.

(** [isinstance(v, (int, float))]; [bool] is a subclass of [int]. *)
Definition is_number (v : pyval) : bool :=
  match v with
  | PBool _ | PInt _ | PFloat _ => true
  | _ => false
  end.

(** [int(v)] for a [v] that passed [isinstance(v, (int, float))]. *)
Definition py_int (v : pyval) : result Z :=
  match v with
  | PBool b => Ok (Z_of_bool b)
  | PInt z => Ok z
  | PFloat f => int_of_float f
  | _ => Raise TypeError
  end.

(** [v == k] for a number [v] and a small integer constant [k] (the code
    compares with 0 and with 100, both exact in binary64). *)
Definition num_eqb (v : pyval) (k : Z) : bool :=
  match v with
  | PBool b => Z_of_bool b =? k
  | PInt z => z =? k
  | PFloat f => PrimFloat.eqb f (SF2Prim (binary_normalize prec emax k 0 false))
  | _ => false
  end.

(** Truth value of an object ([if v:], [not v], [v or w]). *)
Definition truthy (v : pyval) : bool :=
  match v with
  | PNone => false
  | PBool b => b
  | PInt z => negb (z =? 0)
  | PFloat f => negb (PrimFloat.eqb f 0%float)
  | PStr s => negb (String.eqb s "")
  | PList l => match l with [] => false | _ => true end
  | PDict kvs => match kvs with [] => false | _ => true end
  end.

(** [a or b]. *)
Definition py_or (a b : pyval) : pyval := if truthy a then a else b.

(** ** Dictionaries decoded from JSON *)

Fixpoint assoc {A : Type} (k : string) (kvs : list (string * A)) : option A :=
  match kvs with
  | [] => None
  | (k', v) :: rest => if String.eqb k k' then Some v else assoc k rest
  end.

(** [rec.get(k)]: [None] for a missing key, [AttributeError] when [rec] is not
    a dict (lists, strings, numbers and [None] have no [get]). *)
Definition py_get (rec : pyval) (k : string) : result pyval :=
  match rec with
  | PDict kvs => Ok (match assoc k kvs with Some v => v | None => PNone end)
  | _ => Raise AttributeError
  end.

(** ** Text: line iteration, strip, split *)

Definition LF : ascii := "010"%char.
Definition CR : ascii := "013"%char.
Definition nl : string := String LF "".

(** [c.isspace()] on 7-bit characters: TAB, LF, VT, FF, CR, FS, GS, RS, US and
    the space. *)
Definition isspace (c : ascii) : bool :=
  let n := nat_of_ascii c in
  ((9 <=? n) && (n <=? 13) || (28 <=? n) && (n <=? 32))%nat.

Fixpoint lstrip (s : string) : string :=
  match s with
  | String c r => if isspace c then lstrip r else s
  | EmptyString => EmptyString
  end.

Fixpoint rstrip (s : string) : string :=
  match s with
  | EmptyString => EmptyString
  | String c r =>
      match rstrip r with
      | EmptyString => if isspace c then EmptyString else String c EmptyString
      | r' => String c r'
      end
  end.

(** [s.strip()]. *)
Definition strip (s : string) : string := rstrip (lstrip s).

(** [ts.split("T")[0]]: the text before the first T. *)
Fixpoint before_T (s : string) : string :=
  match s with
  | EmptyString => EmptyString
  | String c r => if Ascii.eqb c "T" then EmptyString else String c (before_T r)
  end.

Fixpoint drop (n : nat) (s : string) : string :=
  match n, s with
  | O, _ => s
  | S n', String _ r => drop n' r
  | S _, EmptyString => EmptyString
  end.

(** The lines a text-mode handle yields when iterated over the text [s] that
    starts at offset [pos], each with the offset just past it.  A line keeps
    its terminator, translated to LF; the last line has none when the text
    does not end in one. *)
Fixpoint readlines_from (pos : nat) (s : string) : list (string * nat) :=
  match s with
  | EmptyString => []
  | String c r =>
      if Ascii.eqb c LF then (nl, S pos) :: readlines_from (S pos) r
      else if Ascii.eqb c CR then
        match r with
        | String c' r' =>
            if Ascii.eqb c' LF
            then (nl, S (S pos)) :: readlines_from (S (S pos)) r'
            else (nl, S pos) :: readlines_from (S pos) r
        | EmptyString => [(nl, S pos)]
        end
      else
        match readlines_from (S pos) r with
        | [] => [(String c EmptyString, S pos)]
        | (l, p) :: ls => (String c l, p) :: ls
        end
  end.

(** [f.readlines()] / [for line in f] from the start of the file. *)
Definition readlines (s : string) : list string := map fst (readlines_from 0 s).

(** A text-mode handle ([io.TextIOWrapper], what [open(path, "r")] returns)
    as the program observes it between two lines: the offset reached, and
    the wrapper's [telling] flag.  [TextIOWrapper.__next__]
    clears the flag on every line it yields and restores it when the
    iteration is exhausted; [tell()] raises [OSError] (telling position
    disabled by next() call) while it is cleared. *)
Record TextIO : Type := mkTextIO { tell_offset : nat; telling : bool }.

Definition tell (h : TextIO) : result nat :=
  if telling h then Ok (tell_offset h) else Raise OSError.

(** The handle inside the body of [for line in handle], after the line that
    ends at offset [p] was yielded. *)
Definition handle_in_loop (p : nat) : TextIO := mkTextIO p false.

(** The handle after [seek(start)] and a [for] loop that ran to exhaustion over
    a file of [len] characters: the offset is the end of the file, or [start]
    itself when the seek went past the end. *)
Definition handle_after_loop (start len : nat) : TextIO :=
  mkTextIO (Nat.max start len) true.

(** ** Sets of strings and sorting *)

(** [s.add(x)] on a Python set of strings, kept as a duplicate-free list. *)
Definition set_add (x : string) (s : list string) : list string :=
  if existsb (String.eqb x) s then s else (s ++ [x])%list.

Fixpoint insert_by {A : Type} (key : A -> string) (x : A) (l : list A) : list A :=
  match l with
  | [] => [x]
  | y :: l' => if String.leb (key x) (key y) then x :: y :: l' else y :: insert_by key x l'
  end.

(** [sorted(l, key=key)] and [l.sort(key=key)]: a stable sort on string keys
    (strings compare by character code). *)
Fixpoint sort_by {A : Type} (key : A -> string) (l : list A) : list A :=
  match l with
  | [] => []
  | x :: l' => insert_by key x (sort_by key l')
  end.

Definition sorted (l : list string) : list string := sort_by (fun s => s) l.

(** ** The data model of [webserver.py] *)

(** One value of the [daily_state] dict: the running aggregate of a day. *)
Record DayState : Type := mkDayState {
  date : string;
  total_probes : Z;
  total_sent : Z;
  total_received : Z;
  loss_sum : float;
  loss_count : Z;
  good_probes : Z;
  degraded_probes : Z;
  down_probes : Z;
  rtt_sum : float;
  rtt_count : Z;
  rtt_min : option float;
  rtt_max : option float;
  targets : list string;
  public_ips : list string
}.

(** The [daily_state] dict, in insertion order. *)
Definition Daily : Type := list (string * DayState).

Module Summary.
(** One row of the list [_summaries_from_state] returns. *)
Record t : Type := mk {
  date : string;
  total_probes : Z;
  uptime_pct : float;
  avg_loss_pct : float;
  avg_rtt_ms : option float;
  min_rtt_ms : option float;
  max_rtt_ms : option float;
  good_probes : Z;
  degraded_probes : Z;
  down_probes : Z;
  targets : list string;
  public_ips : list string
}.
End Summary.

(** The module-level dict [SUMMARY_CACHE]. *)
Record Cache : Type := mkCache {
  daily_state : Daily;
  summary : list Summary.t;
  position : nat;
  inode : option Z;
  size : nat;
  build_ts : option float
}.

(** What [os.path.exists], [os.stat] and [open] see at [LOG_FILE]: the file's
    inode and its text; [None] when the path does not exist. *)
Record File : Type := mkFile { st_ino : Z; content : string }.

Definition st_size (f : File) : nat := String.length (content f).

(** [SUMMARY_CACHE] as the module creates it. *)
Definition empty_cache : Cache := mkCache [] [] 0%nat None 0%nat None.

(** [reset_summary_cache()]: every key is overwritten. *)
Definition reset_summary_cache (cache : Cache) : Cache :=
  mkCache [] [] 0%nat None 0%nat None.

Definition fresh_day (day : string) : DayState :=
  mkDayState day 0 0 0 0%float 0 0 0 0 0%float 0 None None [] [].

(** [_ensure_day_state(daily, day)]: the dict after the call (the day is
    appended when it is new). *)
Definition _ensure_day_state (daily : Daily) (day : string) : Daily :=
  match assoc day daily with
  | Some _ => daily
  | None => (daily ++ [(day, fresh_day day)])%list
  end.

(** [daily[day]] once the day is there. *)
Definition day_of (daily : Daily) (day : string) : DayState :=
  match assoc day daily with
  | Some d => d
  | None => fresh_day day
  end.

(** The dict after an in-place update of the object [daily[day]]. *)
Fixpoint store_day (daily : Daily) (day : string) (d : DayState) : Daily :=
  match daily with
  | [] => []
  | (k, v) :: rest =>
      if String.eqb day k then (k, d) :: rest else (k, v) :: store_day rest day d
  end.

(** Field updates of a [DayState] ([d[key] = v]). *)
Definition set_total_probes (v : Z) (d : DayState) : DayState :=
  mkDayState (date d) v (total_sent d) (total_received d) (loss_sum d)
    (loss_count d) (good_probes d) (degraded_probes d) (down_probes d)
    (rtt_sum d) (rtt_count d) (rtt_min d) (rtt_max d) (targets d) (public_ips d).

Definition set_total_sent (v : Z) (d : DayState) : DayState :=
  mkDayState (date d) (total_probes d) v (total_received d) (loss_sum d)
    (loss_count d) (good_probes d) (degraded_probes d) (down_probes d)
    (rtt_sum d) (rtt_count d) (rtt_min d) (rtt_max d) (targets d) (public_ips d).

Definition set_total_received (v : Z) (d : DayState) : DayState :=
  mkDayState (date d) (total_probes d) (total_sent d) v (loss_sum d)
    (loss_count d) (good_probes d) (degraded_probes d) (down_probes d)
    (rtt_sum d) (rtt_count d) (rtt_min d) (rtt_max d) (targets d) (public_ips d).

Definition set_loss_sum (v : float) (d : DayState) : DayState :=
  mkDayState (date d) (total_probes d) (total_sent d) (total_received d) v
    (loss_count d) (good_probes d) (degraded_probes d) (down_probes d)
    (rtt_sum d) (rtt_count d) (rtt_min d) (rtt_max d) (targets d) (public_ips d).

Definition set_loss_count (v : Z) (d : DayState) : DayState :=
  mkDayState (date d) (total_probes d) (total_sent d) (total_received d)
    (loss_sum d) v (good_probes d) (degraded_probes d) (down_probes d)
    (rtt_sum d) (rtt_count d) (rtt_min d) (rtt_max d) (targets d) (public_ips d).

Definition set_good_probes (v : Z) (d : DayState) : DayState :=
  mkDayState (date d) (total_probes d) (total_sent d) (total_received d)
    (loss_sum d) (loss_count d) v (degraded_probes d) (down_probes d)
    (rtt_sum d) (rtt_count d) (rtt_min d) (rtt_max d) (targets d) (public_ips d).

Definition set_degraded_probes (v : Z) (d : DayState) : DayState :=
  mkDayState (date d) (total_probes d) (total_sent d) (total_received d)
    (loss_sum d) (loss_count d) (good_probes d) v (down_probes d)
    (rtt_sum d) (rtt_count d) (rtt_min d) (rtt_max d) (targets d) (public_ips d).

Definition set_down_probes (v : Z) (d : DayState) : DayState :=
  mkDayState (date d) (total_probes d) (total_sent d) (total_received d)
    (loss_sum d) (loss_count d) (good_probes d) (degraded_probes d) v
    (rtt_sum d) (rtt_count d) (rtt_min d) (rtt_max d) (targets d) (public_ips d).

Definition set_rtt_sum (v : float) (d : DayState) : DayState :=
  mkDayState (date d) (total_probes d) (total_sent d) (total_received d)
    (loss_sum d) (loss_count d) (good_probes d) (degraded_probes d)
    (down_probes d) v (rtt_count d) (rtt_min d) (rtt_max d) (targets d)
    (public_ips d).

Definition set_rtt_count (v : Z) (d : DayState) : DayState :=
  mkDayState (date d) (total_probes d) (total_sent d) (total_received d)
    (loss_sum d) (loss_count d) (good_probes d) (degraded_probes d)
    (down_probes d) (rtt_sum d) v (rtt_min d) (rtt_max d) (targets d)
    (public_ips d).

Definition set_rtt_min (v : option float) (d : DayState) : DayState :=
  mkDayState (date d) (total_probes d) (total_sent d) (total_received d)
    (loss_sum d) (loss_count d) (good_probes d) (degraded_probes d)
    (down_probes d) (rtt_sum d) (rtt_count d) v (rtt_max d) (targets d)
    (public_ips d).

Definition set_rtt_max (v : option float) (d : DayState) : DayState :=
  mkDayState (date d) (total_probes d) (total_sent d) (total_received d)
    (loss_sum d) (loss_count d) (good_probes d) (degraded_probes d)
    (down_probes d) (rtt_sum d) (rtt_count d) (rtt_min d) v (targets d)
    (public_ips d).

Definition set_targets (v : list string) (d : DayState) : DayState :=
  mkDayState (date d) (total_probes d) (total_sent d) (total_received d)
    (loss_sum d) (loss_count d) (good_probes d) (degraded_probes d)
    (down_probes d) (rtt_sum d) (rtt_count d) (rtt_min d) (rtt_max d) v
    (public_ips d).

Definition set_public_ips (v : list string) (d : DayState) : DayState :=
  mkDayState (date d) (total_probes d) (total_sent d) (total_received d)
    (loss_sum d) (loss_count d) (good_probes d) (degraded_probes d)
    (down_probes d) (rtt_sum d) (rtt_count d) (rtt_min d) (rtt_max d)
    (targets d) v.

(** A block of statements that mutates one [DayState] and may raise: the
    object as the block leaves it, and the exception if one was raised. *)
Definition Update : Type := DayState -> DayState * option pyexc.

Definition done : Update := fun d => (d, None).

Definition assign (f : DayState -> DayState) : Update := fun d => (f d, None).

Definition raise (e : pyexc) : Update := fun d => (d, Some e).

Definition seq (a b : Update) : Update :=
  fun d => match a d with
           | (d1, None) => b d1
           | (d1, Some e) => (d1, Some e)
           end.

Notation "a ;; b" := (seq a b) (at level 61, right associativity).

(** [_summaries_from_state] for one item of the dict.  An int operand of a
    float operation is converted as by [float]. *)
Definition summarize_day (day : string) (d : DayState) : result Summary.t :=
  do uptime_pct <-
     (if 0 <? total_probes d then
        do up <- float_of_int (total_probes d - down_probes d);
        do n <- float_of_int (total_probes d);
        Ok (100 * up / n)%float
      else Ok 0%float);
  do avg_loss <-
     (if 0 <? loss_count d then
        do n <- float_of_int (loss_count d);
        Ok (loss_sum d / n)%float
      else Ok 0%float);
  do avg_rtt <-
     (if 0 <? rtt_count d then
        do n <- float_of_int (rtt_count d);
        Ok (Some (rtt_sum d / n)%float)
      else Ok None);
  Ok (Summary.mk day (total_probes d) uptime_pct avg_loss avg_rtt (rtt_min d)
        (rtt_max d) (good_probes d) (degraded_probes d) (down_probes d)
        (sorted (targets d)) (sorted (public_ips d))).

(** [_summaries_from_state(daily)]. *)
Definition _summaries_from_state (daily : Daily) : result (list Summary.t) :=
  do rows <- mapM (fun kv => summarize_day (fst kv) (snd kv)) daily;
  Ok (sort_by Summary.date rows).

Definition try_ {A : Type} (r : result A) (k : A -> Update) : Update :=
  fun d => match r with
           | Ok a => k a d
           | Raise e => (d, Some e)
           end.

(** [lines[start:]] for a possibly negative [start]. *)
Definition slice_from {A : Type} (start : Z) (l : list A) : list A :=
  let len := Z.of_nat (List.length l) in
  let i := if start <? 0 then Z.max 0 (start + len) else Z.min start len in
  skipn (Z.to_nat i) l.

Module Status.
(** The dict [run] hands to [json.dumps] for the status topic; [internet_up]
    is [Some true], [Some false] or Python's [None]. *)
Record t : Type := mk {
  timestamp : pyval;
  target : pyval;
  loss_pct : pyval;
  rtt_avg_ms : pyval;
  internet_up : option bool
}.
End Status.

(** ** The outcome of a call, and the state of the relay *)

(** What one call of [build_daily_summary_from_file] leaves behind. *)
Record Outcome : Type := mkOutcome {
  cache_after : Cache;
  returned : result (list Summary.t);
  opened : bool;
  consumed : list string
}.

(** The fields of [MqttSettings] the loop reads. *)
Record MqttSettings : Type := mkSettings { enabled : bool; topic_prefix : string }.

(** The transport during one poll: whether [paho.mqtt.client] can be
    imported, whether the broker accepts the connection, and whether
    [client.publish] raises for a given topic and payload. *)
Record Broker : Type := mkBroker {
  paho_installed : bool;
  accepts : bool;
  publish_raises : string -> string -> bool
}.

(** The attributes of an [MqttPublisher] the loop mutates. *)
Record MqttPublisher : Type := mkPublisher {
  client : bool;
  _last_size : nat;
  _last_inode : option Z;
  _warned_missing : bool
}.

(** What a poll does to the outside: messages handed to the broker, and the
    lines it prints. *)
Inductive Event : Type :=
| Published (topic payload : string)
| PublishFailed (topic payload : string)
| ConnectFailed
| PahoMissing.

(** ** The configuration of the web server *)

(** The module constants [ENV_TARGETS], [ENV_TARGET_HOST] and [ENV_INTERVAL],
    read from the environment when the module is loaded. *)
Record Env : Type := mkEnv {
  ENV_TARGETS : string;
  ENV_TARGET_HOST : string;
  ENV_INTERVAL : string
}.

(** What [do_POST] answers: the acknowledgement of a cache reset, the
    effective configuration, or a 404. *)
Inductive Response : Type :=
| Rebuilt
| Configured (targets_display interval_seconds : string)
| NotFound.

(** ** Sample log lines

    JSON text is written with ['] where the file has a double quote; [q]
    puts the double quotes back.  [sample_loads] is [json.loads] on the
    sample lines, and raises on every other text. *)

Definition dquote : ascii := "034"%char.

Fixpoint q (s : string) : string :=
  match s with
  | EmptyString => EmptyString
  | String c r => String (if Ascii.eqb c "'" then dquote else c) (q r)
  end.

Definition line_loss0 : string :=
  q "{'timestamp': '2024-06-01T00:00:00Z', 'target': 'GoogleDNS', 'loss_pct': 0, 'rtt_avg_ms': 12.5}".
Definition line_loss50 : string :=
  q "{'timestamp': '2024-06-01T00:05:00Z', 'target': 'GoogleDNS', 'loss_pct': 50}".
Definition line_loss100 : string :=
  q "{'timestamp': '2024-06-01T00:10:00Z', 'target': 'Cloudflare', 'loss_pct': 100, 'rtt_avg_ms': 18.1}".
Definition line_next_day : string :=
  q "{'timestamp': '2024-06-02T00:00:00Z', 'loss_pct': 45}".
Definition line_partial : string := q "{'timestamp': '2024-06-02T00:0".
Definition line_garbage : string := "not-json".

Definition rec_loss0 : pyval :=
  PDict [("timestamp", PStr "2024-06-01T00:00:00Z"); ("target", PStr "GoogleDNS");
         ("loss_pct", PInt 0); ("rtt_avg_ms", PFloat 12.5)].
Definition rec_loss50 : pyval :=
  PDict [("timestamp", PStr "2024-06-01T00:05:00Z"); ("target", PStr "GoogleDNS");
         ("loss_pct", PInt 50)].
Definition rec_loss100 : pyval :=
  PDict [("timestamp", PStr "2024-06-01T00:10:00Z"); ("target", PStr "Cloudflare");
         ("loss_pct", PInt 100); ("rtt_avg_ms", PFloat 18.1)].
Definition rec_next_day : pyval :=
  PDict [("timestamp", PStr "2024-06-02T00:00:00Z"); ("loss_pct", PInt 45)].

Definition rec_loss150 : pyval :=
  PDict [("timestamp", PStr "2024-06-03T00:00:00Z"); ("loss_pct", PInt 150)].
Definition rec_loss_minus5 : pyval :=
  PDict [("timestamp", PStr "2024-06-03T00:05:00Z"); ("loss_pct", PInt (-5))].

Definition sample_loads (s : string) : option pyval :=
  assoc s [(line_loss0, rec_loss0); (line_loss50, rec_loss50);
           (line_loss100, rec_loss100); (line_next_day, rec_next_day)].

(** [float] on the strings the samples use: "45" is a number, nothing else. *)
Definition sample_float (s : string) : option float :=
  assoc s [("45", 45%float)].

(** [str] of a non-string is not needed on the samples. *)
Definition sample_repr (v : pyval) : string := "?".

(** The row the three records of 2024-06-01 add up to. *)
Definition june_first : Summary.t :=
  Summary.mk "2024-06-01" 3 66.66666666666667%float 50%float
    (Some 15.3%float) (Some 12.5%float) (Some 18.1%float) 1 1 1
    ["Cloudflare"; "GoogleDNS"] [].

(** [json.dumps] is not looked into on the samples. *)
Definition sample_dumps (st : Status.t) : string := "status".

(** A relay that has just been started, with a broker that accepts every
    connection and every message. *)
Definition sample_settings : MqttSettings := mkSettings true "connectivity".
Definition sample_broker : Broker := mkBroker true true (fun _ _ => false).
Definition started : MqttPublisher := mkPublisher false 0 None false.

(** Two states of the log: a first file, and the file that replaced it. *)
Definition old_log : File :=
  mkFile 11 (line_loss0 ++ nl ++ line_loss50 ++ nl ++ line_loss100 ++ nl).
Definition new_log : File := mkFile 12 (line_next_day ++ nl).

(** A log whose last line is still being written. *)
Definition partial_log : File := mkFile 11 (line_loss0 ++ nl ++ line_partial).

(** A log with a malformed line after a valid one. *)
Definition noisy_log : File := mkFile 11 (line_loss0 ++ nl ++ line_garbage ++ nl).

(** A line that is JSON but not an object, [json.loads] that knows it, and a
    log with that line between two records. *)
Definition line_number : string := "7".

Definition loads_with_number (s : string) : option pyval :=
  if String.eqb s line_number then Some (PInt 7) else sample_loads s.

Definition poisoned_log : File :=
  mkFile 11 (line_loss0 ++ nl ++ line_number ++ nl ++ line_loss50 ++ nl).

(** The log of two days. *)
Definition two_day_log : File :=
  mkFile 11 (line_loss0 ++ nl ++ line_loss50 ++ nl ++ line_loss100 ++ nl
             ++ line_next_day ++ nl).

(** The row of 2024-06-02: one probe, loss 45. *)
Definition june_second : Summary.t :=
  Summary.mk "2024-06-02" 1 100%float 45%float None None None 0 1 0 [] [].

(** The environment of the container, and bodies posted to [/config]: a
    plain one, one whose targets hold a line break, and the one Home
    Assistant posts for the targets 1.1.1.1 and an interval of 45. *)
Definition sample_env : Env := mkEnv "" "8.8.8.8" "30".

Definition body_plain : string :=
  q "{'targets': ' 1.1.1.1,9.9.9.9 ', 'interval_seconds': 'soon'}".
Definition body_break : string :=
  q "{'targets': '1.1.1.1\nINTERVAL_SECONDS=soon'}".
Definition body_service : string :=
  q "{'targets': '1.1.1.1', 'interval_seconds': '45'}".

Definition loads_body (s : string) : option pyval :=
  assoc s
    [(body_plain,
      PDict [("targets", PStr " 1.1.1.1,9.9.9.9 ");
             ("interval_seconds", PStr "soon")]);
     (body_break,
      PDict [("targets", PStr ("1.1.1.1" ++ nl ++ "INTERVAL_SECONDS=soon"))]);
     (body_service,
      PDict [("targets", PStr "1.1.1.1"); ("interval_seconds", PStr "45")])].

(** A log that has grown by a record and by the line that is not an object,
    after its first line was read; and a log whose records are not in the
    order of their timestamps. *)
Definition first_line_log : File := mkFile 11 (line_loss0 ++ nl).

Definition grown_poisoned_log : File :=
  mkFile 11 (line_loss0 ++ nl ++ line_loss50 ++ nl ++ line_number ++ nl).

Definition shuffled_log : File :=
  mkFile 11 (line_loss50 ++ nl ++ line_next_day ++ nl ++ line_loss0 ++ nl).

(** A broker for a relay without [paho-mqtt]. *)
Definition no_paho : Broker := mkBroker false true (fun _ _ => false).

(** A record whose loss is the literal NaN, between two records of the same
    day, and the row that day renders as. *)
Definition line_nan : string :=
  q "{'timestamp': '2024-06-01T00:02:00Z', 'loss_pct': NaN}".

Definition rec_nan : pyval :=
  PDict [("timestamp", PStr "2024-06-01T00:02:00Z"); ("loss_pct", PFloat nan)].

Definition loads_with_nan (s : string) : option pyval :=
  if String.eqb s line_nan then Some rec_nan else sample_loads s.

Definition nan_log : File :=
  mkFile 11 (line_loss0 ++ nl ++ line_nan ++ nl ++ line_loss50 ++ nl).

Definition june_first_nan : Summary.t :=
  Summary.mk "2024-06-01" 3 100%float nan (Some 12.5%float) (Some 12.5%float)
    (Some 12.5%float) 1 2 0 ["GoogleDNS"] [].

(** The second sample line in two parts, and the row of a day that has the
    first sample record only. *)
Definition part_one : string := q "{'timestamp': '2024-06-01T00:05:00Z', 'tar".
Definition part_two : string := q "get': 'GoogleDNS', 'loss_pct': 50}".

Definition june_first_alone : Summary.t :=
  Summary.mk "2024-06-01" 1 100%float 0%float (Some 12.5%float)
    (Some 12.5%float) (Some 12.5%float) 1 0 0 ["GoogleDNS"] [].

(** A line that is one integer literal of 4301 digits: [json.loads] refuses
    it with [ValueError], the limit of the conversion being 4300 digits.
    [sample_crash] knows that line, and no other; the log has it after a
    record. *)
Definition line_long_integer : string :=
  string_of_list_ascii (repeat "1"%char 4301).

Definition sample_crash (s : string) : option pyexc :=
  if String.eqb s line_long_integer then Some ValueError else None.

Definition long_integer_log : File :=
  mkFile 11 (line_loss0 ++ nl ++ line_long_integer ++ nl).

(** A record of 2024-06-03 whose loss is an integer that [float] cannot
    hold. *)
Definition rec_loss_huge : pyval :=
  PDict [("timestamp", PStr "2024-06-03T00:10:00Z"); ("loss_pct", PInt (10 ^ 400))].

(** The row of 2024-06-03 after the records with loss 150 and -5. *)
Definition june_third : Summary.t :=
  Summary.mk "2024-06-03" 2 100%float 72.5%float None None None 0 2 0 [] [].


(** ** The programs: [webserver.py] and [mqtt_publisher.py] *)

Section Runtime.

(** [json.loads]: [None] stands for [json.JSONDecodeError]. *)
Variable json_loads : string -> option pyval.
(** [float(s)] for a [str]: [None] stands for [ValueError]. *)
Variable float_of_str : string -> option float.
(** [str(v)] for a [v] that is not a [str]. *)
Variable py_repr : pyval -> string.

(** [float(v)]. *)
Definition py_float (v : pyval) : result float :=
  match v with
  | PNone => Raise TypeError
  | PBool b => Ok (if b then 1%float else 0%float)
  | PInt z => float_of_int z
  | PFloat f => Ok f
  | PStr s => match float_of_str s with
              | Some f => Ok f
              | None => Raise ValueError
              end
  | PList _ | PDict _ => Raise TypeError
  end.

(** [str(v)]. *)
Definition py_str (v : pyval) : string :=
  match v with
  | PStr s => s
  | _ => py_repr v
  end.

(** [rec.get(k)] for a [rec] already known to be a dict. *)
Definition get (rec : pyval) (k : string) : pyval :=
  match py_get rec k with
  | Ok v => v
  | Raise _ => PNone
  end.

(** Lines 208-213: [sent] and [received]. *)
Definition add_sent (sent : pyval) : Update :=
  if is_number sent then
    try_ (py_int sent) (fun z => assign (fun d => set_total_sent (total_sent d + z) d))
  else done.

Definition add_received (recv : pyval) : Update :=
  if is_number recv then
    try_ (py_int recv)
      (fun z => assign (fun d => set_total_received (total_received d + z) d))
  else done.

(** Lines 215-224: [loss_pct]. *)
Definition add_loss (loss : pyval) : Update :=
  if is_number loss then
    try_ (py_float loss) (fun f =>
      assign (fun d => set_loss_sum (loss_sum d + f)%float d) ;;
      assign (fun d => set_loss_count (loss_count d + 1) d) ;;
      (if num_eqb loss 0 then
         assign (fun d => set_good_probes (good_probes d + 1) d)
       else if num_eqb loss 100 then
         assign (fun d => set_down_probes (down_probes d + 1) d)
       else
         assign (fun d => set_degraded_probes (degraded_probes d + 1) d)))
  else done.

(** Lines 226-230: [rtt_val], [None] when [float(rtt)] raised [TypeError] or
    [ValueError]; any other exception propagates. *)
Definition rtt_value (rtt : pyval) : result (option float) :=
  match py_float rtt with
  | Ok v => Ok (Some v)
  | Raise TypeError | Raise ValueError => Ok None
  | Raise e => Raise e
  end.

Definition below (v : float) (m : option float) : bool :=
  match m with
  | None => true
  | Some x => (v <? x)%float
  end.

Definition above (v : float) (m : option float) : bool :=
  match m with
  | None => true
  | Some x => (x <? v)%float
  end.

(** Lines 231-237: the RTT sum, count, minimum and maximum. *)
Definition add_rtt (rtt : pyval) : Update :=
  try_ (rtt_value rtt) (fun rtt_val =>
    match rtt_val with
    | None => done
    | Some v =>
        assign (fun d => set_rtt_sum (rtt_sum d + v)%float d) ;;
        assign (fun d => set_rtt_count (rtt_count d + 1) d) ;;
        assign (fun d => if below v (rtt_min d) then set_rtt_min (Some v) d else d) ;;
        assign (fun d => if above v (rtt_max d) then set_rtt_max (Some v) d else d)
    end).

(** Lines 239-244: the target and public-IP sets. *)
Definition add_target (tgt : pyval) : Update :=
  if truthy tgt then assign (fun d => set_targets (set_add (py_str tgt) (targets d)) d)
  else done.

Definition add_public_ip (pub : pyval) : Update :=
  if truthy pub then
    assign (fun d => set_public_ips (set_add (py_str pub) (public_ips d)) d)
  else done.

(** Lines 206-244: everything the loop body does to [d]. *)
Definition merge_into (rec : pyval) : Update :=
  assign (fun d => set_total_probes (total_probes d + 1) d) ;;
  add_sent (get rec "sent") ;;
  add_received (get rec "received") ;;
  add_loss (get rec "loss_pct") ;;
  add_rtt (get rec "rtt_avg_ms") ;;
  add_target (py_or (get rec "target") (get rec "dst_host")) ;;
  add_public_ip (get rec "public_ip").

(** Lines 200-244: the loop body from [ts = rec.get("timestamp")] on.  The
    dict is returned as the body leaves it, also when it raises. *)
Definition merge_record (rec : pyval) (daily : Daily) : Daily * option pyexc :=
  match py_get rec "timestamp" with
  | Raise e => (daily, Some e)
  | Ok ts =>
      if negb (truthy ts) then (daily, None)
      else
        match ts with
        | PStr s =>
            let day := before_T s in
            let daily1 := _ensure_day_state daily day in
            let (d, exc) := merge_into rec (day_of daily1 day) in
            (store_day daily1 day d, exc)
        | _ => (daily, Some AttributeError)
        end
  end.

(** The loop body applied to a batch of decoded records, one after the other,
    until one raises: a fresh aggregator is [feed records []]. *)
Fixpoint feed (records : list pyval) (daily : Daily) : Daily * option pyexc :=
  match records with
  | [] => (daily, None)
  | rec :: rest =>
      match merge_record rec daily with
      | (daily1, None) => feed rest daily1
      | (daily1, Some e) => (daily1, Some e)
      end
  end.

Definition is_ok {A : Type} (r : result A) : bool :=
  match r with
  | Ok _ => true
  | Raise _ => false
  end.

(** A valid probe record: a JSON object whose [timestamp] is a string (or is
    falsy: missing, null, empty, so that the record is skipped), whose
    [sent], [received] and [loss_pct], when they are numbers, convert with
    [int] and [float], and whose [rtt_avg_ms] does not overflow [float]. *)
Definition valid_record (rec : pyval) : bool :=
  match rec with
  | PDict _ =>
      match get rec "timestamp" with
      | PStr _ => true
      | ts => negb (truthy ts)
      end
      && (negb (is_number (get rec "sent")) || is_ok (py_int (get rec "sent")))
      && (negb (is_number (get rec "received"))
          || is_ok (py_int (get rec "received")))
      && (negb (is_number (get rec "loss_pct"))
          || is_ok (py_float (get rec "loss_pct")))
      && is_ok (rtt_value (get rec "rtt_avg_ms"))
  | _ => false
  end.

(** A [loss_pct] that is a number below 0 or above 100. *)
Definition outside_0_100 (loss : pyval) : bool :=
  match loss with
  | PInt z => (z <? 0) || (100 <? z)
  | PFloat f => (f <? 0)%float || (100 <? f)%float
  | _ => false
  end.

(** What the body of the loop does with one line the handle yields: [None]
    when the line is skipped (blank, or not JSON). *)
Definition decode_line (raw : string) : option pyval :=
  let line := strip raw in
  if String.eqb line "" then None else json_loads line.

(** Lines 191-244: the loop over the lines the handle yields.  Returns the
    dict, the exception if the loop was left by one, and the lines the
    handle yielded. *)
Fixpoint merge_lines (lines : list string) (daily : Daily)
  : Daily * option pyexc * list string :=
  match lines with
  | [] => (daily, None, [])
  | raw :: rest =>
      match decode_line raw with
      | None =>
          let '(daily', exc, seen) := merge_lines rest daily in
          (daily', exc, raw :: seen)
      | Some rec =>
          match merge_record rec daily with
          | (daily1, Some e) => (daily1, Some e, [raw])
          | (daily1, None) =>
              let '(daily', exc, seen) := merge_lines rest daily1 in
              (daily', exc, raw :: seen)
          end
      end
  end.

Definition inode_is (i : option Z) (ino : Z) : bool :=
  match i with
  | Some j => j =? ino
  | None => false
  end.

(** Lines 177-181: the test for returning the cached summary. *)
Definition cache_hit (stat : File) (cache : Cache) : bool :=
  inode_is (inode cache) (st_ino stat)
  && (position cache =? st_size stat)%nat
  && match summary cache with [] => false | _ => true end.

(** Lines 177-252: the body of [build_daily_summary_from_file] after the
    rotation check, on the cache [cache] that check left. *)
Definition reuse_or_rebuild (now : float) (stat : File) (cache : Cache) : Outcome :=
  if cache_hit stat cache
  then mkOutcome cache (Ok (summary cache)) false []
  else
    let start_pos := position cache in
    let lines :=
      map fst (readlines_from start_pos (drop start_pos (content stat))) in
    match merge_lines lines (daily_state cache) with
    | (daily, Some e, seen) =>
        mkOutcome
          (mkCache daily (summary cache) (position cache) (inode cache)
             (size cache) (build_ts cache))
          (Raise e) true seen
    | (daily, None, seen) =>
        match tell (handle_after_loop start_pos (st_size stat)) with
        | Raise e =>
            mkOutcome
              (mkCache daily (summary cache) (position cache)
                 (inode cache) (size cache) (build_ts cache))
              (Raise e) true seen
        | Ok pos =>
            match _summaries_from_state daily with
            | Raise e =>
                mkOutcome
                  (mkCache daily (summary cache) pos (Some (st_ino stat))
                     (st_size stat) (Some now))
                  (Raise e) true seen
            | Ok rows =>
                mkOutcome
                  (mkCache daily rows pos (Some (st_ino stat))
                     (st_size stat) (Some now))
                  (Ok rows) true seen
            end
        end
    end.

(** Lines 173-175: the rotation check. *)
Definition rotated (stat : File) (cache : Cache) : bool :=
  negb (inode_is (inode cache) (st_ino stat)) || (st_size stat <? size cache)%nat.

(** [build_daily_summary_from_file()], called when the clock reads [now],
    the log path holds [fs] and [SUMMARY_CACHE] is [cache0]. *)
Definition build_daily_summary_from_file
  (now : float) (fs : option File) (cache0 : Cache) : Outcome :=
  match fs with
  | None => mkOutcome (reset_summary_cache cache0) (Ok []) false []
  | Some stat =>
      reuse_or_rebuild now stat
        (if rotated stat cache0 then reset_summary_cache cache0 else cache0)
  end.

(** Lines 121-129: the records of the lines that are not blank and decode. *)
Fixpoint records_of (lines : list string) : list pyval :=
  match lines with
  | [] => []
  | raw :: rest =>
      match decode_line raw with
      | Some rec => rec :: records_of rest
      | None => records_of rest
      end
  end.

(** *** The recent records *)

Section RecentRecords.

(** [json.loads] in [read_recent_records] stands in a [try] that catches
    [json.JSONDecodeError] alone (lines 125-129).  [json_crash line] is the
    exception of another class that [json.loads(line)] raises and that
    therefore leaves the function: [ValueError] for an integer literal of
    more than 4300 digits, [RecursionError] for brackets nested too deep;
    [None] for every line that decodes or that is not JSON. *)
Variable json_crash : string -> option pyexc.

(** The exception with which a line the loop reaches leaves the loop; a
    blank line is skipped before [json.loads] sees it. *)
Definition crash_of (raw : string) : option pyexc :=
  let line := strip raw in
  if String.eqb line "" then None else json_crash line.

(** Lines 120-130: the loop over the window, and what the function returns
    or raises. *)
Fixpoint append_records (lines : list string) (records : list pyval)
  : result (list pyval) :=
  match lines with
  | [] => Ok records
  | raw :: rest =>
      match crash_of raw with
      | Some e => Raise e
      | None =>
          match decode_line raw with
          | Some rec => append_records rest (records ++ [rec])%list
          | None => append_records rest records
          end
      end
  end.

(** [read_recent_records()] with [MAX_RECORDS = max_records]. *)
Definition read_recent_records (max_records : Z) (fs : option File)
  : result (list pyval) :=
  match fs with
  | None => Ok []
  | Some f => append_records (slice_from (- max_records) (readlines (content f))) []
  end.

End RecentRecords.

(** *** The relay ([mqtt_publisher.py]) *)

(** [json.dumps] of the status dict. *)
Variable json_dumps : Status.t -> string.

Definition set_last_size (n : nat) (self : MqttPublisher) : MqttPublisher :=
  mkPublisher (client self) n (_last_inode self) (_warned_missing self).

(** [_connect()]: the object after the call, whether a client came back, and
    what was printed. *)
Definition _connect (broker : Broker) (self : MqttPublisher)
  : MqttPublisher * bool * list Event :=
  if negb (paho_installed broker) then
    if _warned_missing self then (self, false, [])
    else (mkPublisher (client self) (_last_size self) (_last_inode self) true,
          false, [PahoMissing])
  else if accepts broker then (self, true, [])
  else (self, false, [ConnectFailed]).

(** [_ensure_client()]. *)
Definition _ensure_client (broker : Broker) (self : MqttPublisher)
  : MqttPublisher * bool * list Event :=
  if client self then (self, true, [])
  else
    let '(self1, c, ev) := _connect broker self in
    (mkPublisher c (_last_size self1) (_last_inode self1) (_warned_missing self1),
     c, ev).

(** [_publish(topic, payload)]: an exception of [client.publish] is caught
    and printed. *)
Definition _publish (broker : Broker) (topic payload : string)
  (self : MqttPublisher) : MqttPublisher * list Event :=
  let '(self1, c, ev) := _ensure_client broker self in
  if negb c then (self1, ev)
  else if publish_raises broker topic payload
       then (self1, ev ++ [PublishFailed topic payload])%list
       else (self1, ev ++ [Published topic payload])%list.

(** Lines 118-121: [internet_up]; Python's [None] is [None] here. *)
Definition internet_up_of (loss : pyval) : result (option bool) :=
  match loss with
  | PNone => Ok (Some false)
  | _ =>
      match py_float loss with
      | Ok f => Ok (Some (f <? 100)%float)
      | Raise TypeError | Raise ValueError => Ok None
      | Raise e => Raise e
      end
  end.

(** Lines 116-130: the status dict of a decoded record. *)
Definition status_of (record : pyval) : result Status.t :=
  do loss <- py_get record "loss_pct";
  do internet_up <- internet_up_of loss;
  Ok (Status.mk (get record "timestamp")
        (py_or (get record "target") (get record "dst_host"))
        loss (get record "rtt_avg_ms") internet_up).

(** Lines 116-131: [status_payload]. *)
Definition status_payload (record : pyval) : result string :=
  do st <- status_of record; Ok (json_dumps st).

(** Lines 105-132: the loop over the lines the handle yields, each with the
    offset just past it.  Returns the object, what happened outside, and
    the exception if the loop was left by one. *)
Fixpoint relay_lines (settings : MqttSettings) (broker : Broker)
  (lines : list (string * nat)) (self : MqttPublisher)
  : MqttPublisher * list Event * option pyexc :=
  match lines with
  | [] => (self, [], None)
  | (raw, p) :: rest =>
      let line := strip raw in
      if String.eqb line "" then relay_lines settings broker rest self
      else
        match tell (handle_in_loop p) with
        | Raise e => (self, [], Some e)
        | Ok n =>
            let self1 := set_last_size n self in
            let topic := topic_prefix settings ++ "/measurements" in
            let (self2, ev1) := _publish broker topic line self1 in
            match json_loads line with
            | None =>
                let '(self', ev, exc) := relay_lines settings broker rest self2 in
                (self', (ev1 ++ ev)%list, exc)
            | Some record =>
                let status_topic := topic_prefix settings ++ "/status" in
                match status_payload record with
                | Raise e => (self2, ev1, Some e)
                | Ok payload =>
                    let (self3, ev2) := _publish broker status_topic payload self2 in
                    let '(self', ev, exc) := relay_lines settings broker rest self3 in
                    (self', (ev1 ++ ev2 ++ ev)%list, exc)
                end
            end
        end
  end.

(** One turn of the [while] loop of [run] (lines 88-138), for a relay that is
    enabled and was not stopped: the object, what happened outside, and the
    seconds slept before the next turn. *)
Definition run (settings : MqttSettings) (broker : Broker) (fs : option File)
  (self : MqttPublisher) : MqttPublisher * list Event * nat :=
  match fs with
  | None => (self, [], 2%nat)
  | Some stat =>
      let self1 :=
        if negb (inode_is (_last_inode self) (st_ino stat))
           || (st_size stat <? _last_size self)%nat
        then mkPublisher (client self) 0 (Some (st_ino stat)) (_warned_missing self)
        else self in
      let lines :=
        readlines_from (_last_size self1) (drop (_last_size self1) (content stat)) in
      match relay_lines settings broker lines self1 with
      | (self2, ev, Some _) => (self2, ev, 2%nat)
      | (self2, ev, None) => (self2, ev, 1%nat)
      end
  end.

(** *** A log that grows between calls *)

(** The text ends where a line ends: it is empty, or its last character is
    LF. *)
Fixpoint complete (s : string) : bool :=
  match s with
  | EmptyString => true
  | String c r =>
      match r with
      | EmptyString => Ascii.eqb c LF
      | String _ _ => complete r
      end
  end.

Fixpoint join (chunks : list string) : string :=
  match chunks with
  | [] => EmptyString
  | c :: rest => c ++ join rest
  end.

(** A line of valid input: it is skipped (blank, or not JSON), or it decodes
    to a valid record. *)
Definition valid_line (raw : string) : Prop :=
  match decode_line raw with
  | Some rec => valid_record rec = true
  | None => True
  end.

(** The writer appends [chunk] to the log of inode [ino], which held [text],
    and [build_daily_summary_from_file] is called at time [now]; and so on
    for every step.  The outcomes of the calls, in order. *)
Fixpoint polls (ino : Z) (text : string) (steps : list (float * string))
  (cache : Cache) : list Outcome :=
  match steps with
  | [] => []
  | (now, chunk) :: rest =>
      let o := build_daily_summary_from_file now
                 (Some (mkFile ino (text ++ chunk))) cache in
      o :: polls ino (text ++ chunk) rest (cache_after o)
  end.

(** The snapshot of a fresh aggregator fed [records] in one batch. *)
Definition batch_snapshot (records : list pyval) : result (list Summary.t) :=
  match feed records [] with
  | (daily, None) => _summaries_from_state daily
  | (_, Some e) => Raise e
  end.

(** The cache holds what a build up to the end of [text] leaves: the
    aggregate of the records of [text], its snapshot, and the end of [text]
    as position and size. *)
Definition synced (ino : Z) (text : string) (c : Cache) : Prop :=
  position c = String.length text /\
  size c = String.length text /\
  feed (records_of (readlines text)) [] = (daily_state c, None) /\
  _summaries_from_state (daily_state c) = Ok (summary c) /\
  (inode c = Some ino \/ c = empty_cache).

(** A step of valid input: text that ends where a line ends, every line of
    it valid. *)
Definition valid_step (st : float * string) : Prop :=
  complete (snd st) = true /\ Forall valid_line (readlines (snd st)).

(** *** All records of one day ([read_records_for_day]) *)

(** Lines 148-150: [ts = rec.get("timestamp") or ""] and
    [ts.startswith(day_str)]; only a [str] has [startswith]. *)
Definition on_day (day_str : string) (rec : pyval) : result bool :=
  do v <- py_get rec "timestamp";
  match py_or v (PStr "") with
  | PStr ts => Ok (String.prefix day_str ts)
  | _ => Raise AttributeError
  end.

(** Lines 140-151: the loop over the lines of the file. *)
Fixpoint scan_day (day_str : string) (lines : list string) : result (list pyval) :=
  match lines with
  | [] => Ok []
  | raw :: rest =>
      match decode_line raw with
      | None => scan_day day_str rest
      | Some rec =>
          do keep <- on_day day_str rec;
          do records <- scan_day day_str rest;
          Ok (if keep then rec :: records else records)
      end
  end.

(** The sort key [r.get("timestamp", "")].  Every record that reaches the
    sort has a [str] there (see [scan_day_timestamps]), so the keys compare
    as strings. *)
Definition timestamp_key (rec : pyval) : string :=
  match get rec "timestamp" with
  | PStr s => s
  | _ => EmptyString
  end.

(** [read_records_for_day(day_str)]. *)
Definition read_records_for_day (day_str : string) (fs : option File)
  : result (list pyval) :=
  match fs with
  | None => Ok []
  | Some f =>
      if String.eqb day_str "" then Ok []
      else
        do records <- scan_day day_str (readlines (content f));
        Ok (sort_by timestamp_key records)
  end.

(** *** The configuration file ([read_config], [do_POST]) *)

(** [line.split("=", 1)] for a line that holds an "=": the text before the
    first "=" and the text after it; [None] when there is none. *)
Fixpoint split_eq (s : string) : option (string * string) :=
  match s with
  | EmptyString => None
  | String c r =>
      if Ascii.eqb c "=" then Some (EmptyString, r)
      else
        match split_eq r with
        | Some (k, v) => Some (String c k, v)
        | None => None
        end
  end.

(** Lines 267-276: what one line of [config.env] does to [targets] and
    [interval]. *)
Definition config_line (tv : string * string) (raw : string) : string * string :=
  let line := strip raw in
  if String.eqb line "" then tv
  else
    match split_eq line with
    | None => tv
    | Some (k, v) =>
        if String.eqb (strip k) "TARGETS" then (strip v, snd tv)
        else if String.eqb (strip k) "INTERVAL_SECONDS" then (fst tv, strip v)
        else tv
    end.

(** [a or b] on strings. *)
Definition str_or (a b : string) : string := if String.eqb a "" then b else a.

(** [read_config()]: [(targets_display, interval)], for the environment
    [env] and the text of [config.env] ([None] when the file is missing). *)
Definition read_config (env : Env) (cfg : option string) : string * string :=
  let tv :=
    match cfg with
    | None => (ENV_TARGETS env, ENV_INTERVAL env)
    | Some text =>
        fold_left config_line (readlines text) (ENV_TARGETS env, ENV_INTERVAL env)
    end in
  (if String.eqb (fst tv) "" then str_or (ENV_TARGETS env) (ENV_TARGET_HOST env)
   else fst tv,
   if String.eqb (snd tv) "" then str_or (ENV_INTERVAL env) "30" else snd tv).

(** [s.isdigit()] on 7-bit text: not empty, and digits only. *)
Fixpoint all_digits (s : string) : bool :=
  match s with
  | EmptyString => true
  | String c r =>
      ((48 <=? nat_of_ascii c) && (nat_of_ascii c <=? 57))%nat && all_digits r
  end.

Definition isdigit (s : string) : bool :=
  negb (String.eqb s "") && all_digits s.

(** [(data.get(k) or "").strip()]; only a [str] has [strip]. *)
Definition str_field (data : pyval) (k : string) : result string :=
  do v <- py_get data k;
  match py_or v (PStr "") with
  | PStr s => Ok (strip s)
  | _ => Raise AttributeError
  end.

(** Lines 1600-1614: the lines [do_POST] writes for the decoded body. *)
Definition config_lines (targets interval : string) : list string :=
  ((if String.eqb targets "" then []
    else [("TARGETS=" ++ targets ++ nl)%string]) ++
   (if String.eqb interval "" then []
    else [("INTERVAL_SECONDS=" ++ interval ++ nl)%string]))%list.

(** Lines 1595-1599: the object a request body decodes to; [{}] for an
    empty body and for a body that is not JSON. *)
Definition body_of (raw : string) : pyval :=
  if String.eqb raw "" then PDict []
  else match json_loads raw with
       | Some d => d
       | None => PDict []
       end.

(** The text starts with a character that [strip] keeps, or is empty. *)
Definition head_kept (s : string) : bool :=
  match s with
  | String c _ => negb (isspace c)
  | EmptyString => true
  end.

(** No character of [s] is white space. *)
Fixpoint no_space (s : string) : bool :=
  match s with
  | EmptyString => true
  | String c r => negb (isspace c) && no_space r
  end.

(** No character of [s] ends a line. *)
Fixpoint no_break (s : string) : bool :=
  match s with
  | EmptyString => true
  | String c r => negb (Ascii.eqb c LF) && negb (Ascii.eqb c CR) && no_break r
  end.

(** [do_POST()] for the request path [path] and the body [raw]: the
    cache, the text of [config.env] and the response it leaves. *)
Definition do_POST (env : Env) (path raw : string) (cache : Cache)
  (cfg : option string) : result (Cache * option string * Response) :=
  if String.eqb path "/rebuild-summaries" then
    Ok (reset_summary_cache cache, cfg, Rebuilt)
  else if negb (String.eqb path "/config") then Ok (cache, cfg, NotFound)
  else
    let data := body_of raw in
    do targets <- str_field data "targets";
    do interval0 <- str_field data "interval_seconds";
    let interval :=
      if negb (String.eqb interval0 "") && negb (isdigit interval0)
      then EmptyString else interval0 in
    let cfg' :=
      match config_lines targets interval with
      | [] => None
      | lines => Some (join lines)
      end in
    let '(targets_display, interval_effective) := read_config env cfg' in
    Ok (cache, cfg', Configured targets_display interval_effective).

(** *** The Home Assistant sensors ([binary_sensor.py], [coordinator.py]) *)

(** [ConnectivityDataCoordinator.latest_record] for the list [/data]
    returned: its last element, [None] when it is empty. *)
Definition latest_record (latest : list pyval) : pyval := last latest PNone.

(** [ConnectivityDataCoordinator.most_recent_day] for the list [/daily]
    returned: its last row, [None] when it is empty. *)
Definition most_recent_day (daily : list Summary.t) : option Summary.t :=
  match daily with
  | [] => None
  | r :: rest => Some (last rest r)
  end.

(** [ConnectivityOnlineBinarySensor.is_on] for that record. *)
Definition is_on (record : pyval) : result (option bool) :=
  if negb (truthy record) then Ok None
  else
    do loss <- py_get record "loss_pct";
    match py_float loss with
    | Ok f => Ok (Some (f <? 100)%float)
    | Raise TypeError | Raise ValueError => Ok None
    | Raise e => Raise e
    end.

(** *** The Home Assistant service ([coordinator.py]) *)

(** [str(n)] for a Python int: its decimal digits, after a minus sign when it
    is negative. *)
Definition str_of_int (n : Z) : string := NilZero.string_of_int (Z.to_int n).

(** [ConnectivityDataCoordinator.async_post_config(targets, interval_seconds)]:
    the JSON object it posts to [/config].  A field is left out when the
    argument is [None] or falsy. *)
Definition async_post_config (targets : option string)
  (interval_seconds : option Z) : pyval :=
  PDict
    ((match targets with
      | Some t => if String.eqb t "" then [] else [("targets", PStr t)]
      | None => []
      end) ++
     (match interval_seconds with
      | Some n =>
          if n =? 0 then [] else [("interval_seconds", PStr (str_of_int n))]
      | None => []
      end))%list.

(** *** Several messages in a row *)

(** The calls [_publish(topic, payload)] for the messages of [msgs], one
    after the other: the object after the last call, and what happened
    outside. *)
Fixpoint publishes (broker : Broker) (msgs : list (string * string))
  (self : MqttPublisher) : MqttPublisher * list Event :=
  match msgs with
  | [] => (self, [])
  | (topic, payload) :: rest =>
      let (self1, ev1) := _publish broker topic payload self in
      let (self2, ev2) := publishes broker rest self1 in
      (self2, (ev1 ++ ev2)%list)
  end.

(** What the broker does with one message. *)
Definition delivery (broker : Broker) (m : string * string) : Event :=
  if publish_raises broker (fst m) (snd m)
  then PublishFailed (fst m) (snd m)
  else Published (fst m) (snd m).

(** *** Well-formed aggregates and snapshots *)

(** Lines 200-204: the day a record is filed under; [None] for a record the
    loop skips, or rejects before it reaches a day. *)
Definition record_day (rec : pyval) : option string :=
  match py_get rec "timestamp" with
  | Ok (PStr s) => if String.eqb s "" then None else Some (before_T s)
  | _ => None
  end.

(** The number of records of [records] that are filed under [day]. *)
Definition count_day (day : string) (records : list pyval) : Z :=
  Z.of_nat
    (List.length
       (filter (fun rec => match record_day rec with
                           | Some k => String.eqb k day
                           | None => false
                           end) records)).

(** The row of a snapshot for [day], if there is one. *)
Definition row_of (day : string) (rows : list Summary.t) : option Summary.t :=
  find (fun r => String.eqb (Summary.date r) day) rows.

(** The counters of a day agree with each other.  Inside the loop body the
    probe is counted before it is classified: [lo] bounds [total_probes]
    from below, [a] and [b] are what [total_probes] is ahead of the loss
    and of the RTT counters. *)
Definition counts_ok (lo a b : Z) (d : DayState) : Prop :=
  lo <= total_probes d /\
  0 <= good_probes d /\ 0 <= degraded_probes d /\ 0 <= down_probes d /\
  good_probes d + degraded_probes d + down_probes d = loss_count d /\
  loss_count d + a <= total_probes d /\
  0 <= rtt_count d /\ rtt_count d + b <= total_probes d /\
  (rtt_count d = 0 <-> rtt_min d = None) /\
  (rtt_count d = 0 <-> rtt_max d = None) /\
  NoDup (targets d) /\ NoDup (public_ips d).

(** A day as the loop leaves it under the key [k], whether the body
    completed or raised. *)
Definition day_ok (k : string) (d : DayState) : Prop :=
  date d = k /\ counts_ok 1 0 0 d.

Definition daily_ok (daily : Daily) : Prop :=
  NoDup (map fst daily) /\ Forall (fun kv => day_ok (fst kv) (snd kv)) daily.

(** Strictly ascending: each string is below the next one. *)
Definition ascending (l : list string) : Prop :=
  Sorted (fun a b => String.ltb a b = true) l.

(** A row of [/daily] that a dashboard can trust. *)
Definition row_ok (r : Summary.t) : Prop :=
  1 <= Summary.total_probes r /\
  0 <= Summary.good_probes r /\ 0 <= Summary.degraded_probes r /\
  0 <= Summary.down_probes r /\
  Summary.good_probes r + Summary.degraded_probes r + Summary.down_probes r
  <= Summary.total_probes r /\
  (Summary.avg_rtt_ms r = None <-> Summary.min_rtt_ms r = None) /\
  (Summary.avg_rtt_ms r = None <-> Summary.max_rtt_ms r = None) /\
  ascending (Summary.targets r) /\ ascending (Summary.public_ips r).

Definition snapshot_ok (rows : list Summary.t) : Prop :=
  ascending (map Summary.date rows) /\ Forall row_ok rows.

Definition cache_ok (c : Cache) : Prop :=
  position c = size c /\ daily_ok (daily_state c) /\ snapshot_ok (summary c).

(** The caches the server can be in: the one the module creates, and what
    [/daily] and [/rebuild-summaries] make of a cache it can be in, whatever
    the log path holds at the time. *)
Inductive reachable : Cache -> Prop :=
| reach_start : reachable empty_cache
| reach_daily (now : float) (fs : option File) (c : Cache) :
    reachable c -> reachable (cache_after (build_daily_summary_from_file now fs c))
| reach_rebuild (c : Cache) : reachable c -> reachable (reset_summary_cache c).

(** A block of statements takes a day from [P] to [Q], also when it is left
    by an exception. *)
Definition hoare (P : DayState -> Prop) (u : Update) (Q : DayState -> Prop) : Prop :=
  forall d, P d -> Q (fst (u d)).

(** *** A call during which the log is appended to *)

(** [os.stat] runs at line 167, the handle is opened at line 187 and read to
    its end at lines 191-246, and the writer appends to the log at any time.
    Here [stat] is the file as [os.stat] saw it and [appended] the text the
    writer added before the handle reached the end: the cache tests and the
    stored size and inode are those of [stat] (lines 173-181, 248-249), the
    lines and [f.tell()] those of the longer text.  With nothing appended
    this is [reuse_or_rebuild]. *)
Definition reuse_or_rebuild_appended (now : float) (stat : File)
  (appended : string) (cache : Cache) : Outcome :=
  if cache_hit stat cache
  then mkOutcome cache (Ok (summary cache)) false []
  else
    let text := content stat ++ appended in
    let start_pos := position cache in
    let lines := map fst (readlines_from start_pos (drop start_pos text)) in
    match merge_lines lines (daily_state cache) with
    | (daily, Some e, seen) =>
        mkOutcome
          (mkCache daily (summary cache) (position cache) (inode cache)
             (size cache) (build_ts cache))
          (Raise e) true seen
    | (daily, None, seen) =>
        match tell (handle_after_loop start_pos (String.length text)) with
        | Raise e =>
            mkOutcome
              (mkCache daily (summary cache) (position cache)
                 (inode cache) (size cache) (build_ts cache))
              (Raise e) true seen
        | Ok pos =>
            match _summaries_from_state daily with
            | Raise e =>
                mkOutcome
                  (mkCache daily (summary cache) pos (Some (st_ino stat))
                     (st_size stat) (Some now))
                  (Raise e) true seen
            | Ok rows =>
                mkOutcome
                  (mkCache daily rows pos (Some (st_ino stat))
                     (st_size stat) (Some now))
                  (Ok rows) true seen
            end
        end
    end.

(** [build_daily_summary_from_file()] when the log path holds [fs] at
    [os.stat] and [appended] is added to it before the read is over. *)
Definition build_daily_summary_appended
  (now : float) (fs : option File) (appended : string) (cache0 : Cache)
  : Outcome :=
  match fs with
  | None => mkOutcome (reset_summary_cache cache0) (Ok []) false []
  | Some stat =>
      reuse_or_rebuild_appended now stat appended
        (if rotated stat cache0 then reset_summary_cache cache0 else cache0)
  end.

(** The caches the server can be in when the writer may append during any
    call. *)
Inductive reachable_appended : Cache -> Prop :=
| reach_appended_start : reachable_appended empty_cache
| reach_appended_daily (now : float) (fs : option File) (appended : string)
    (c : Cache) :
    reachable_appended c ->
    reachable_appended (cache_after (build_daily_summary_appended now fs appended c))
| reach_appended_rebuild (c : Cache) :
    reachable_appended c -> reachable_appended (reset_summary_cache c).

(** *** The records of a day, and what each of them adds *)

(** The records of [records] that are filed under [day], in file order. *)
Definition day_records (day : string) (records : list pyval) : list pyval :=
  filter (fun rec => match record_day rec with
                     | Some k => String.eqb k day
                     | None => false
                     end) records.

(** Lines 206-244 for the records of one day, one after the other, until
    one raises. *)
Fixpoint merge_all (records : list pyval) (d : DayState) : DayState * option pyexc :=
  match records with
  | [] => (d, None)
  | rec :: rest =>
      match merge_into rec d with
      | (d1, None) => merge_all rest d1
      | (d1, Some e) => (d1, Some e)
      end
  end.

(** Lines 239-244: the target and the public IP a record names, as the text
    that goes into the set; [None] when the record names none. *)
Definition target_of (rec : pyval) : option string :=
  let tgt := py_or (get rec "target") (get rec "dst_host") in
  if truthy tgt then Some (py_str tgt) else None.

Definition public_ip_of (rec : pyval) : option string :=
  let pub := get rec "public_ip" in
  if truthy pub then Some (py_str pub) else None.

(** Lines 215-217 and 226-231: the loss and the RTT a record adds to the
    sums; [None] when it adds none. *)
Definition loss_of (rec : pyval) : option float :=
  if is_number (get rec "loss_pct") then
    match py_float (get rec "loss_pct") with
    | Ok f => Some f
    | Raise _ => None
    end
  else None.

Definition rtt_of (rec : pyval) : option float :=
  match rtt_value (get rec "rtt_avg_ms") with
  | Ok (Some v) => Some v
  | _ => None
  end.

(** Lines 218-223: the bucket a record with a numeric loss falls into. *)
Inductive Bucket : Type := Good | Degraded | Down.

Definition bucket_of (rec : pyval) : option Bucket :=
  let loss := get rec "loss_pct" in
  if is_number loss then
    Some (if num_eqb loss 0 then Good
          else if num_eqb loss 100 then Down else Degraded)
  else None.

Definition is_bucket (b : Bucket) (rec : pyval) : bool :=
  match bucket_of rec, b with
  | Some Good, Good | Some Degraded, Degraded | Some Down, Down => true
  | _, _ => false
  end.

(** The float is a NaN (there is one NaN in binary64 as the kernel has it). *)
Definition NaN (f : float) : Prop := Prim2SF f = S754_nan.

(** The values of [vs] added to [start] from left to right, as [+=] does. *)
Definition add_all (vs : list (option float)) (start : float) : float :=
  fold_left (fun acc v => match v with
                          | Some f => (acc + f)%float
                          | None => acc
                          end) vs start.

(** How many of [vs] are a value. *)
Definition count_some {A : Type} (vs : list (option A)) : Z :=
  Z.of_nat (List.length (filter (fun v => match v with
                                          | Some _ => true
                                          | None => false
                                          end) vs)).

(** *** Views and tactics for the proofs *)

(** The loss counters and the RTT counters of a day. *)
Local Abbreviation loss_view d :=
  (loss_sum d, loss_count d, good_probes d, degraded_probes d, down_probes d).
Local Abbreviation rtt_view d := (rtt_sum d, rtt_count d, rtt_min d, rtt_max d).

(** Splits the branches of one step of the loop body and closes the frame
    conditions of the branches that completed. *)
Ltac step_frame :=
  repeat match goal with
         | |- context [if ?c then _ else _] => destruct c
         | |- context [match ?r with Ok _ => _ | Raise _ => _ end] => destruct r
         end;
  cbn; intros [= <-]; repeat split.

(** Drops the runtime's functions from the context of a proof that does
    not look at them. *)
Ltac forget_runtime :=
  try clear json_dumps; try clear py_repr; try clear float_of_str;
  try clear json_loads.

(** * Properties *)

(** ** The status record of the relay *)

Lemma status_of_dict (kvs : list (string * pyval)) :
  status_of (PDict kvs) =
  do up <- internet_up_of (get (PDict kvs) "loss_pct");
  Ok (Status.mk (get (PDict kvs) "timestamp")
        (py_or (get (PDict kvs) "target") (get (PDict kvs) "dst_host"))
        (get (PDict kvs) "loss_pct") (get (PDict kvs) "rtt_avg_ms") up).
Proof. reflexivity. Qed.

Lemma status_of_not_dict (record : pyval) (st : Status.t) :
  status_of record = Ok st -> exists kvs, record = PDict kvs.
Proof.
  destruct record; cbn; try discriminate.
  intros _. eexists; reflexivity.
Qed.

Lemma internet_up_of_cases (loss : pyval) (up : option bool) :
  internet_up_of loss = Ok up ->
  (loss = PNone -> up = Some false) /\
  (forall f, loss <> PNone -> py_float loss = Ok f -> up = Some (f <? 100)%float) /\
  (loss <> PNone ->
   py_float loss = Raise TypeError \/ py_float loss = Raise ValueError ->
   up = None).
Proof.
  unfold internet_up_of.
  destruct loss; [ intros [= <-]; repeat split; congruence | .. ].
  all: destruct (py_float _) as [f0 | e] eqn:Ef.
  all: try (intros [= <-]; repeat split;
            [ discriminate | intros g _ [= <-]; reflexivity
            | intros _ [? | ?]; discriminate ]).
  all: destruct e; try discriminate; intros [= <-];
    repeat split; intros; try discriminate; reflexivity.
Qed.

(** C2 (as the code has it).  For every status record [run] derives from a
    decoded line: the [loss_pct] it carries is [record.get("loss_pct")];
    when that is [None] (the key is absent, or null) [internet_up] is
    [False]; when [float(loss_pct)] succeeds [internet_up] is
    [float(loss_pct) < 100]; when [float(loss_pct)] raises [TypeError] or
    [ValueError] [internet_up] is [None]. *)
Theorem status_internet_up (record : pyval) (st : Status.t) :
  status_of record = Ok st ->
  Status.loss_pct st = get record "loss_pct" /\
  (Status.loss_pct st = PNone -> Status.internet_up st = Some false) /\
  (forall f, Status.loss_pct st <> PNone ->
             py_float (Status.loss_pct st) = Ok f ->
             Status.internet_up st = Some (f <? 100)%float) /\
  (Status.loss_pct st <> PNone ->
   py_float (Status.loss_pct st) = Raise TypeError \/
   py_float (Status.loss_pct st) = Raise ValueError ->
   Status.internet_up st = None).
Proof.
  intros H.
  destruct (status_of_not_dict _ _ H) as [kvs ->].
  rewrite status_of_dict in H.
  destruct (internet_up_of (get (PDict kvs) "loss_pct")) as [up | e] eqn:Eup;
    [ | discriminate ].
  injection H as <-.
  split; [ reflexivity | ].
  exact (internet_up_of_cases _ _ Eup).
Qed.

(** ** The summary cache: rotation, idempotence, the stored position *)

Lemma inode_is_true (i : option Z) (ino : Z) :
  inode_is i ino = true <-> i = Some ino.
Proof.
  destruct i as [j | ]; cbn.
  - rewrite Z.eqb_eq. split; congruence.
  - split; discriminate.
Qed.

Lemma inode_is_false (i : option Z) (ino : Z) :
  inode_is i ino = false <-> i <> Some ino.
Proof.
  rewrite <- inode_is_true. destruct (inode_is i ino); split; congruence.
Qed.


(** The call on the cache as the module creates it: the whole file is read,
    and what comes back is decided by the file alone. *)
Lemma build_from_empty (now : float) (stat : File) :
  let o := build_daily_summary_from_file now (Some stat) empty_cache in
  let r := merge_lines (readlines (content stat)) [] in
  opened o = true /\
  consumed o = snd r /\
  daily_state (cache_after o) = fst (fst r) /\
  returned o = match snd (fst r) with
               | Some e => Raise e
               | None => _summaries_from_state (fst (fst r))
               end.
Proof.
  unfold build_daily_summary_from_file, reuse_or_rebuild, readlines. cbn.
  destruct (merge_lines _ _) as [[daily [e | ]] seen]; cbn.
  - repeat split.
  - destruct (_summaries_from_state daily); cbn; repeat split.
Qed.

(** C6.  When the file at the log path has another identity than the cached
    one, or is shorter than the cached size, the call behaves in every
    respect as a call on the freshly created cache: what it returns, the
    cache it leaves and the lines it reads are those of the new file alone. *)
Theorem rotation_discards_cache (now : float) (stat : File) (cache : Cache) :
  inode cache <> Some (st_ino stat) \/ (st_size stat < size cache)%nat ->
  build_daily_summary_from_file now (Some stat) cache =
  build_daily_summary_from_file now (Some stat) empty_cache
  /\ daily_state (cache_after (build_daily_summary_from_file now (Some stat) cache)) =
     fst (fst (merge_lines (readlines (content stat)) [])).
Proof.
  intros H.
  assert (E : build_daily_summary_from_file now (Some stat) cache =
              build_daily_summary_from_file now (Some stat) empty_cache).
  { unfold build_daily_summary_from_file.
    assert (R : rotated stat cache = true).
    { unfold rotated. destruct H as [H | H].
      - apply inode_is_false in H. rewrite H. reflexivity.
      - apply Nat.ltb_lt in H. rewrite H. apply orb_true_r. }
    rewrite R. reflexivity. }
  split; [ exact E | ].
  rewrite E. apply (build_from_empty now stat).
Qed.


Lemma merge_lines_seen (lines : list string) (daily daily' : Daily)
  (seen : list string) :
  merge_lines lines daily = (daily', None, seen) -> seen = lines.
Proof.
  revert daily daily' seen.
  induction lines as [ | raw rest IH]; intros daily daily' seen; cbn.
  - intros [= _ <-]. reflexivity.
  - destruct (decode_line raw) as [rec | ].
    + destruct (merge_record rec daily) as [daily1 [e | ]]; [ discriminate | ].
      destruct (merge_lines rest daily1) as [[d2 exc] seen2] eqn:Hm.
      intros [= -> -> <-]. f_equal. eapply IH. exact Hm.
    + destruct (merge_lines rest daily) as [[d2 exc] seen2] eqn:Hm.
      intros [= -> -> <-]. f_equal. eapply IH. exact Hm.
Qed.

(** The two ways a call returns a snapshot: the cached one, untouched, or a
    rebuilt one with the cache rewritten. *)
Lemma returned_snapshot_shape (now : float) (stat : File) (c : Cache)
  (rows : list Summary.t) :
  returned (reuse_or_rebuild now stat c) = Ok rows ->
  (cache_hit stat c = true /\ summary c = rows /\
   reuse_or_rebuild now stat c = mkOutcome c (Ok rows) false [])
  \/
  (cache_hit stat c = false /\
   exists daily,
     merge_lines (map fst (readlines_from (position c)
                             (drop (position c) (content stat))))
       (daily_state c)
     = (daily, None,
        map fst (readlines_from (position c) (drop (position c) (content stat))))
     /\ _summaries_from_state daily = Ok rows
     /\ reuse_or_rebuild now stat c =
        mkOutcome
          (mkCache daily rows (Nat.max (position c) (st_size stat))
             (Some (st_ino stat)) (st_size stat) (Some now))
          (Ok rows) true
          (map fst (readlines_from (position c) (drop (position c) (content stat))))).
Proof.
  unfold reuse_or_rebuild.
  destruct (cache_hit stat c) eqn:Hit.
  - cbn. intros [= <-]. left. repeat split.
  - destruct (merge_lines _ (daily_state c)) as [[daily [e | ]] seen] eqn:Hm;
      cbn; [ discriminate | ].
    destruct (_summaries_from_state daily) as [rows' | e] eqn:Hrows; cbn;
      [ | discriminate ].
    intros [= ->]. right. split; [ reflexivity | ].
    exists daily. rewrite (merge_lines_seen _ _ _ _ Hm). repeat split.
    exact Hrows.
Qed.



(** C1 (as the code has it).  After a call that returns a snapshot the
    stored position is the end of the file (or the old position, when that
    was already beyond it), and a call that opens the file consumes every
    line the handle yields from the old position to the end of the file, a
    last line without terminator included. *)
Theorem position_after_poll (now : float) (stat : File) (cache : Cache)
  (rows : list Summary.t) :
  returned (build_daily_summary_from_file now (Some stat) cache) = Ok rows ->
  let start := if rotated stat cache then 0%nat else position cache in
  let o := build_daily_summary_from_file now (Some stat) cache in
  position (cache_after o) = Nat.max start (st_size stat) /\
  (opened o = true ->
   consumed o = map fst (readlines_from start (drop start (content stat)))).
Proof.
  cbn [build_daily_summary_from_file].
  assert (E : (if rotated stat cache then 0%nat else position cache) =
              position (if rotated stat cache then reset_summary_cache cache
                        else cache)).
  { destruct (rotated stat cache); reflexivity. }
  rewrite E.
  generalize (if rotated stat cache then reset_summary_cache cache else cache).
  intros c H.
  destruct (returned_snapshot_shape _ _ _ _ H)
    as [(Hit & Hs & ->) | (Hit & daily & Hm & Hrows & ->)];
    cbn -[Nat.max].
  - unfold cache_hit in Hit.
    apply andb_true_iff in Hit as [Hit _].
    apply andb_true_iff in Hit as [_ Hp].
    apply Nat.eqb_eq in Hp. split; [ lia | discriminate ].
  - split; reflexivity.
Qed.

(** ** The recent-records window *)

Lemma records_of_app (l1 l2 : list string) :
  records_of (l1 ++ l2) = (records_of l1 ++ records_of l2)%list.
Proof.
  induction l1 as [ | raw l1 IH]; cbn; [ reflexivity | ].
  destruct (decode_line raw); cbn; rewrite IH; reflexivity.
Qed.

Lemma records_of_length (l : list string) :
  (List.length (records_of l) <= List.length l)%nat.
Proof.
  induction l as [ | raw l IH]; cbn; [ lia | ].
  destruct (decode_line raw); cbn; lia.
Qed.

Lemma records_of_all_valid (l : list string) :
  Forall (fun raw => decode_line raw <> None) l ->
  List.length (records_of l) = List.length l.
Proof.
  induction 1 as [ | raw l Hraw _ IH]; cbn; [ reflexivity | ].
  destruct (decode_line raw); [ cbn; lia | congruence ].
Qed.

(** [lines[-n:]] for a positive [n]: the last [n] lines. *)
Lemma slice_from_last {A : Type} (n : Z) (l : list A) :
  0 < n -> slice_from (- n) l = skipn (List.length l - Z.to_nat n) l.
Proof.
  intros Hn. unfold slice_from.
  destruct (Z.ltb_spec (- n) 0); [ | lia ].
  f_equal. lia.
Qed.

(** The loop of [read_recent_records] when no line raises past the handler:
    the decoded lines are appended in order. *)
Lemma append_records_ok (json_crash : string -> option pyexc)
  (lines : list string) (records : list pyval) :
  Forall (fun raw => crash_of json_crash raw = None) lines ->
  append_records json_crash lines records = Ok (records ++ records_of lines)%list.
Proof.
  intros Hall. revert records.
  induction Hall as [ | raw lines Hraw _ IH]; intros records; cbn.
  - rewrite app_nil_r. reflexivity.
  - rewrite Hraw. destruct (decode_line raw) as [rec | ].
    + rewrite IH, <- app_assoc. reflexivity.
    + apply IH.
Qed.

(** A line on which [json.loads] raises something else than
    [json.JSONDecodeError] ends the call with that exception. *)
Lemma append_records_raise (json_crash : string -> option pyexc)
  (lines : list string) (records : list pyval) :
  Exists (fun raw => crash_of json_crash raw <> None) lines ->
  exists e, append_records json_crash lines records = Raise e.
Proof.
  intros Hex. revert records.
  induction Hex as [raw lines Hraw | raw lines _ IH]; intros records; cbn.
  - destruct (crash_of json_crash raw) as [e | ];
      [ exists e; reflexivity | congruence ].
  - destruct (crash_of json_crash raw) as [e | ]; [ exists e; reflexivity | ].
    destruct (decode_line raw); apply IH.
Qed.

(** What [read_recent_records] does.  With [MAX_RECORDS = n > 0] the function
    decodes the last [n] lines of the file and keeps those that are JSON, in
    file order: the window is taken over lines, before blank and malformed
    ones are dropped.  When [json.loads] raises nothing but
    [json.JSONDecodeError] on the window, the call returns the records of the
    window; when it raises another exception on one of its lines, the call
    raises.  The records of the window are the tail end of the file's valid
    records, at most [n] of them, and exactly [min n (number of lines)] when
    every line of the window is valid. *)
Theorem recent_records_window (json_crash : string -> option pyexc) (n : Z)
  (f : File) :
  0 < n ->
  let lines := readlines (content f) in
  let window := skipn (List.length lines - Z.to_nat n) lines in
  (Forall (fun raw => crash_of json_crash raw = None) window ->
   read_recent_records json_crash n (Some f) = Ok (records_of window)) /\
  (Exists (fun raw => crash_of json_crash raw <> None) window ->
   exists e, read_recent_records json_crash n (Some f) = Raise e) /\
  (exists older, records_of lines = (older ++ records_of window)%list) /\
  (List.length (records_of window) <= Z.to_nat n)%nat /\
  (Forall (fun raw => decode_line raw <> None) window ->
   List.length (records_of window) = Nat.min (Z.to_nat n) (List.length lines)).
Proof.
  intros Hn lines window.
  assert (E : read_recent_records json_crash n (Some f)
              = append_records json_crash window []).
  { unfold read_recent_records. rewrite slice_from_last by exact Hn. reflexivity. }
  assert (Hw : List.length window
               = Nat.min (Z.to_nat n) (List.length lines)).
  { unfold window. rewrite length_skipn. lia. }
  split; [ | split; [ | split; [ | split ] ] ].
  - intros Hall. rewrite E. apply (append_records_ok json_crash window [] Hall).
  - intros Hex. rewrite E. apply (append_records_raise json_crash window [] Hex).
  - exists (records_of (firstn (List.length lines - Z.to_nat n) lines)).
    rewrite <- records_of_app. unfold window. rewrite firstn_skipn. reflexivity.
  - pose proof (records_of_length window). lia.
  - intros Hall. rewrite (records_of_all_valid _ Hall). exact Hw.
Qed.

(** ** The relay loop *)

(** Inside [for line in handle] the handle refuses [tell()]. *)
Lemma tell_in_loop (p : nat) : tell (handle_in_loop p) = Raise OSError.
Proof. reflexivity. Qed.

(** The loop of [run] leaves at the first line that is not blank, by the
    [OSError] of [handle.tell()], before anything is published and before
    [_last_size] is assigned. *)
Lemma relay_lines_silent (settings : MqttSettings) (broker : Broker)
  (lines : list (string * nat)) (self : MqttPublisher) :
  relay_lines settings broker lines self =
  (self, [],
   if forallb (fun l => String.eqb (strip (fst l)) "") lines
   then None else Some OSError).
Proof.
  induction lines as [ | [raw p] rest IH]; cbn -[strip]; [ reflexivity | ].
  destruct (String.eqb (strip raw) ""); cbn -[strip]; [ exact IH | reflexivity ].
Qed.

(** X1.  Whatever the file holds and whatever the broker does, one turn of
    [run] hands nothing to the broker and prints nothing, and leaves
    [_last_size] where the rotation check put it: at 0 after a rotation,
    unchanged otherwise.  The offset never advances, so the next turn reads
    the same lines again. *)
Theorem run_publishes_nothing (settings : MqttSettings) (broker : Broker)
  (fs : option File) (self : MqttPublisher) :
  snd (fst (run settings broker fs self)) = [] /\
  _last_size (fst (fst (run settings broker fs self))) =
  match fs with
  | None => _last_size self
  | Some stat =>
      if negb (inode_is (_last_inode self) (st_ino stat))
         || (st_size stat <? _last_size self)%nat
      then 0%nat else _last_size self
  end.
Proof.
  destruct fs as [stat | ]; cbn -[Nat.ltb]; [ | split; reflexivity ].
  rewrite relay_lines_silent.
  destruct (forallb _ _); cbn -[Nat.ltb]; (split; [ reflexivity | ]);
    destruct (negb _ || _); reflexivity.
Qed.

(** ** Merging one record into its day *)

Lemma triple_eq {A B C : Type} (a a' : A) (b b' : B) (c c' : C) :
  a = a' -> b = b' -> c = c' -> (a, b, c) = (a', b', c').
Proof. intros -> -> ->. reflexivity. Qed.

Lemma seq_ok (a b : Update) (d d' : DayState) :
  seq a b d = (d', None) ->
  exists d1, a d = (d1, None) /\ b d1 = (d', None).
Proof.
  unfold seq. destruct (a d) as [d1 [e | ]]; [ discriminate | ].
  intros H. exists d1. split; [ reflexivity | exact H ].
Qed.

Lemma add_sent_frame (v : pyval) (d d' : DayState) :
  add_sent v d = (d', None) ->
  total_probes d' = total_probes d /\ loss_view d' = loss_view d /\
  rtt_view d' = rtt_view d.
Proof. unfold add_sent, try_, assign, done. step_frame. Qed.

Lemma add_received_frame (v : pyval) (d d' : DayState) :
  add_received v d = (d', None) ->
  total_probes d' = total_probes d /\ loss_view d' = loss_view d /\
  rtt_view d' = rtt_view d.
Proof. unfold add_received, try_, assign, done. step_frame. Qed.

Lemma add_target_frame (v : pyval) (d d' : DayState) :
  add_target v d = (d', None) ->
  total_probes d' = total_probes d /\ loss_view d' = loss_view d /\
  rtt_view d' = rtt_view d.
Proof. unfold add_target, assign, done. step_frame. Qed.

Lemma add_public_ip_frame (v : pyval) (d d' : DayState) :
  add_public_ip v d = (d', None) ->
  total_probes d' = total_probes d /\ loss_view d' = loss_view d /\
  rtt_view d' = rtt_view d.
Proof. unfold add_public_ip, assign, done. step_frame. Qed.

(** What lines 215-224 do to the day. *)
Lemma add_loss_effect (loss : pyval) (d d' : DayState) :
  add_loss loss d = (d', None) ->
  total_probes d' = total_probes d /\ rtt_view d' = rtt_view d /\
  if is_number loss then
    exists f, py_float loss = Ok f /\
      loss_sum d' = (loss_sum d + f)%float /\
      loss_count d' = loss_count d + 1 /\
      (good_probes d', degraded_probes d', down_probes d') =
      (if num_eqb loss 0 then (good_probes d + 1, degraded_probes d, down_probes d)
       else if num_eqb loss 100
            then (good_probes d, degraded_probes d, down_probes d + 1)
            else (good_probes d, degraded_probes d + 1, down_probes d))
  else loss_view d' = loss_view d.
Proof.
  unfold add_loss, try_, done.
  destruct (is_number loss); [ | intros [= <-]; repeat split ].
  destruct (py_float loss) as [f | e]; [ | discriminate ].
  unfold seq, assign.
  destruct (num_eqb loss 0); [ | destruct (num_eqb loss 100) ];
    cbn; intros [= <-]; repeat split; exists f; repeat split.
Qed.

(** What lines 226-237 do to the day. *)
Lemma add_rtt_effect (rtt : pyval) (d d' : DayState) :
  add_rtt rtt d = (d', None) ->
  total_probes d' = total_probes d /\ loss_view d' = loss_view d /\
  exists rtt_val, rtt_value rtt = Ok rtt_val /\
    match rtt_val with
    | None => rtt_view d' = rtt_view d
    | Some v =>
        rtt_sum d' = (rtt_sum d + v)%float /\
        rtt_count d' = rtt_count d + 1 /\
        rtt_min d' = (if below v (rtt_min d) then Some v else rtt_min d) /\
        rtt_max d' = (if above v (rtt_max d) then Some v else rtt_max d)
    end.
Proof.
  unfold add_rtt, try_, done.
  destruct (rtt_value rtt) as [[v | ] | e]; [ | | discriminate ].
  - unfold seq, assign. cbn.
    destruct (below v (rtt_min d)) eqn:Hmin; cbn;
      destruct (above v (rtt_max d)) eqn:Hmax;
      cbn; intros [= <-]; repeat split; exists (Some v); repeat split;
      cbn; rewrite ?Hmin, ?Hmax; reflexivity.
  - intros [= <-]. repeat split. exists None. repeat split.
Qed.

(** Lines 206-244 as a whole: what a completed merge did to the counters of
    the day. *)
Lemma merge_into_effect (rec : pyval) (d d' : DayState) :
  merge_into rec d = (d', None) ->
  total_probes d' = total_probes d + 1 /\
  (if is_number (get rec "loss_pct") then
     exists f, py_float (get rec "loss_pct") = Ok f /\
       loss_sum d' = (loss_sum d + f)%float /\
       loss_count d' = loss_count d + 1 /\
       (good_probes d', degraded_probes d', down_probes d') =
       (if num_eqb (get rec "loss_pct") 0
        then (good_probes d + 1, degraded_probes d, down_probes d)
        else if num_eqb (get rec "loss_pct") 100
             then (good_probes d, degraded_probes d, down_probes d + 1)
             else (good_probes d, degraded_probes d + 1, down_probes d))
   else loss_view d' = loss_view d) /\
  (exists rtt_val, rtt_value (get rec "rtt_avg_ms") = Ok rtt_val /\
     match rtt_val with
     | None => rtt_view d' = rtt_view d
     | Some v =>
         rtt_sum d' = (rtt_sum d + v)%float /\
         rtt_count d' = rtt_count d + 1 /\
         rtt_min d' = (if below v (rtt_min d) then Some v else rtt_min d) /\
         rtt_max d' = (if above v (rtt_max d) then Some v else rtt_max d)
     end).
Proof.
  unfold merge_into. intros H.
  apply seq_ok in H as (d1 & H1 & H).
  apply seq_ok in H as (d2 & H2 & H).
  apply seq_ok in H as (d3 & H3 & H).
  apply seq_ok in H as (d4 & H4 & H).
  apply seq_ok in H as (d5 & H5 & H).
  apply seq_ok in H as (d6 & H6 & H7).
  unfold assign in H1. injection H1 as <-.
  apply add_sent_frame in H2 as (T2 & L2 & R2).
  apply add_received_frame in H3 as (T3 & L3 & R3).
  apply add_loss_effect in H4 as (T4 & R4 & L4).
  apply add_rtt_effect in H5 as (T5 & L5 & rtt_val & Hv & R5).
  apply add_target_frame in H6 as (T6 & L6 & R6).
  apply add_public_ip_frame in H7 as (T7 & L7 & R7).
  cbn in T2, L2, R2.
  injection L2 as ? ? ? ? ?. injection R2 as ? ? ? ?.
  injection L3 as ? ? ? ? ?. injection R3 as ? ? ? ?.
  injection R4 as ? ? ? ?.
  injection L5 as ? ? ? ? ?.
  injection L6 as ? ? ? ? ?. injection R6 as ? ? ? ?.
  injection L7 as ? ? ? ? ?. injection R7 as ? ? ? ?.
  split; [ congruence | split ].
  - destruct (is_number (get rec "loss_pct")).
    + destruct L4 as (f & Hf & Ls & Lc & Lb).
      exists f. split; [ exact Hf | ].
      split; [ congruence | ]. split; [ congruence | ].
      destruct (num_eqb (get rec "loss_pct") 0);
        [ | destruct (num_eqb (get rec "loss_pct") 100) ];
        injection Lb as ? ? ?; apply triple_eq; congruence.
    + injection L4 as ? ? ? ? ?.
      replace (loss_sum d') with (loss_sum d) by congruence.
      replace (loss_count d') with (loss_count d) by congruence.
      replace (good_probes d') with (good_probes d) by congruence.
      replace (degraded_probes d') with (degraded_probes d) by congruence.
      replace (down_probes d') with (down_probes d) by congruence.
      reflexivity.
  - exists rtt_val. split; [ exact Hv | ].
    destruct rtt_val as [v | ].
    + destruct R5 as (Rs & Rc & Rmin & Rmax).
      assert (E1 : rtt_min d4 = rtt_min d) by congruence.
      assert (E2 : rtt_max d4 = rtt_max d) by congruence.
      rewrite E1 in Rmin. rewrite E2 in Rmax.
      split; [ congruence | ]. split; [ congruence | ].
      split; congruence.
    + injection R5 as ? ? ? ?.
      replace (rtt_sum d') with (rtt_sum d) by congruence.
      replace (rtt_count d') with (rtt_count d) by congruence.
      replace (rtt_min d') with (rtt_min d) by congruence.
      replace (rtt_max d') with (rtt_max d) by congruence.
      reflexivity.
Qed.

Lemma assoc_app {A : Type} (k : string) (l1 l2 : list (string * A)) :
  assoc k (l1 ++ l2) =
  match assoc k l1 with
  | Some v => Some v
  | None => assoc k l2
  end.
Proof.
  induction l1 as [ | [k' v] l1 IH]; cbn; [ reflexivity | ].
  destruct (String.eqb k k'); [ reflexivity | exact IH ].
Qed.

(** A day that is not in the dict yet reads as a fresh day. *)
Lemma assoc_ensure (daily : Daily) (day : string) :
  assoc day (_ensure_day_state daily day) = Some (day_of daily day).
Proof.
  unfold _ensure_day_state, day_of.
  destruct (assoc day daily) as [d | ] eqn:E; [ exact E | ].
  rewrite assoc_app, E. cbn. rewrite String.eqb_refl. reflexivity.
Qed.

Lemma assoc_store_day (daily : Daily) (day : string) (d x : DayState) :
  assoc day daily = Some x -> assoc day (store_day daily day d) = Some d.
Proof.
  induction daily as [ | [k v] daily IH]; cbn; [ discriminate | ].
  destruct (String.eqb day k) eqn:E; cbn; rewrite E; [ reflexivity | exact IH ].
Qed.

Lemma assoc_store_other (daily : Daily) (day k : string) (d : DayState) :
  k <> day -> assoc k (store_day daily day d) = assoc k daily.
Proof.
  intros Hk.
  induction daily as [ | [k' v] daily IH]; cbn; [ reflexivity | ].
  destruct (String.eqb day k') eqn:E; cbn.
  - apply String.eqb_eq in E. subst k'.
    destruct (String.eqb k day) eqn:E'; [ | reflexivity ].
    apply String.eqb_eq in E'. contradiction.
  - destruct (String.eqb k k'); [ reflexivity | exact IH ].
Qed.

Lemma truthy_str (s : string) : s <> "" -> truthy (PStr s) = true.
Proof.
  intros H. cbn. destruct (String.eqb_spec s ""); [ contradiction | reflexivity ].
Qed.

(** A merge that completes ran lines 206-244 on the day the timestamp names,
    from the state the day had (a fresh one when the day is new), and left
    the other days alone. *)
Lemma merge_record_day (rec : pyval) (daily daily' : Daily) (s : string) :
  py_get rec "timestamp" = Ok (PStr s) -> s <> "" ->
  merge_record rec daily = (daily', None) ->
  merge_into rec (day_of daily (before_T s)) = (day_of daily' (before_T s), None)
  /\ forall k, k <> before_T s -> day_of daily' k = day_of daily k.
Proof.
  intros Hts Hs. unfold merge_record. rewrite Hts, (truthy_str _ Hs). cbn [negb].
  pose proof (assoc_ensure daily (before_T s)) as He.
  assert (Hd : day_of (_ensure_day_state daily (before_T s)) (before_T s)
               = day_of daily (before_T s)).
  { unfold day_of at 1. rewrite He. reflexivity. }
  rewrite Hd.
  destruct (merge_into rec (day_of daily (before_T s))) as [d exc].
  intros [= <- ->]. split.
  - unfold day_of at 1. rewrite (assoc_store_day _ _ _ _ He). reflexivity.
  - intros k Hk. unfold day_of. rewrite (assoc_store_other _ _ _ _ Hk).
    unfold _ensure_day_state.
    destruct (assoc (before_T s) daily); [ reflexivity | ].
    rewrite assoc_app. destruct (assoc k daily); [ reflexivity | ].
    cbn. destruct (String.eqb_spec k (before_T s)); [ contradiction | reflexivity ].
Qed.

(** The uptime of a rendered day. *)
Lemma summarize_day_uptime (day : string) (d : DayState) (row : Summary.t) :
  0 < total_probes d ->
  summarize_day day d = Ok row ->
  exists up n,
    float_of_int (total_probes d - down_probes d) = Ok up /\
    float_of_int (total_probes d) = Ok n /\
    Summary.uptime_pct row = (100 * up / n)%float.
Proof.
  intros Hpos. unfold summarize_day.
  apply Z.ltb_lt in Hpos. rewrite Hpos.
  destruct (float_of_int (total_probes d - down_probes d)) as [up | ];
    [ | discriminate ].
  destruct (float_of_int (total_probes d)) as [n | ]; [ | discriminate ].
  cbn.
  destruct (if 0 <? loss_count d then _ else _) as [al | ]; [ | discriminate ].
  destruct (if 0 <? rtt_count d then _ else _) as [ar | ]; [ | discriminate ].
  cbn. intros [= <-]. exists up, n. repeat split.
Qed.


(** The three sample records of 2024-06-01 (loss 0, 50, 100; RTT 12.5, none,
    18.1), fed to a fresh aggregator. *)
Lemma three_probes_snapshot :
  exists daily,
    feed [rec_loss0; rec_loss50; rec_loss100] [] = (daily, None)
    /\ _summaries_from_state daily = Ok [june_first]
    /\ rtt_count (day_of daily "2024-06-01") = 2.
Proof.
  eexists. split; [ vm_compute; reflexivity | ].
  split; vm_compute; reflexivity.
Qed.

(** C7.  A record that was merged adds one to [total_probes] of its day.  When
    its [loss_pct] is a number, [float(loss_pct)] is added to the loss sum,
    the loss count grows by one, and exactly one bucket grows by one: good
    when [loss_pct == 0], down when [loss_pct == 100], degraded otherwise.
    When it is not a number, the loss sum, the loss count and the three
    buckets stay as they were.  The rendered [uptime_pct] of a day with
    probes is [100.0 * (total_probes - down_probes) / total_probes]; three
    records of one day with loss 0, 50 and 100 render as 3 probes, 1 good,
    1 degraded, 1 down, uptime 66.66666666666667. *)
Theorem loss_classification (rec : pyval) (daily daily' : Daily) (s : string) :
  py_get rec "timestamp" = Ok (PStr s) -> s <> "" ->
  merge_record rec daily = (daily', None) ->
  let d := day_of daily (before_T s) in
  let d' := day_of daily' (before_T s) in
  let loss := get rec "loss_pct" in
  total_probes d' = total_probes d + 1 /\
  (is_number loss = true ->
   exists f, py_float loss = Ok f /\
     loss_sum d' = (loss_sum d + f)%float /\
     loss_count d' = loss_count d + 1 /\
     (good_probes d', degraded_probes d', down_probes d') =
     (if num_eqb loss 0
      then (good_probes d + 1, degraded_probes d, down_probes d)
      else if num_eqb loss 100
           then (good_probes d, degraded_probes d, down_probes d + 1)
           else (good_probes d, degraded_probes d + 1, down_probes d))) /\
  (is_number loss = false -> loss_view d' = loss_view d) /\
  (forall row, 0 < total_probes d' ->
     summarize_day (before_T s) d' = Ok row ->
     exists up n,
       float_of_int (total_probes d' - down_probes d') = Ok up /\
       float_of_int (total_probes d') = Ok n /\
       Summary.uptime_pct row = (100 * up / n)%float) /\
  (exists daily3,
     feed [rec_loss0; rec_loss50; rec_loss100] [] = (daily3, None)
     /\ _summaries_from_state daily3 = Ok [june_first]).
Proof.
  intros Hts Hs Hm d d' loss.
  destruct (merge_record_day _ _ _ _ Hts Hs Hm) as [Hinto _].
  destruct (merge_into_effect _ _ _ Hinto) as (Ht & Hl & _).
  fold d d' loss in Ht, Hl.
  split; [ exact Ht | ].
  split; [ intros Hn; rewrite Hn in Hl; exact Hl | ].
  split; [ intros Hn; rewrite Hn in Hl; exact Hl | ].
  split; [ intros row Hpos Hrow; exact (summarize_day_uptime _ _ _ Hpos Hrow) | ].
  destruct three_probes_snapshot as (daily3 & Hf & Hr & _).
  exists daily3. split; assumption.
Qed.


(** ** Values outside 0-100 *)

Lemma SFcompare_eq_sym (x y : spec_float) :
  SFcompare x y = Some Eq -> SFcompare y x = Some Eq.
Proof.
  destruct x as [sx | sx | | sx mx ex], y as [sy | sy | | sy my ey]; cbn;
    try discriminate; try reflexivity;
    try (destruct sx; discriminate); try (destruct sy; discriminate).
  - destruct sx, sy; try discriminate; reflexivity.
  - destruct sx, sy; try discriminate.
    + destruct (Z.compare_spec ex ey) as [-> | | ]; try discriminate.
      rewrite Z.compare_refl.
      change (Pos.compare_cont Eq mx my) with (Pos.compare mx my).
      change (Pos.compare_cont Eq my mx) with (Pos.compare my mx).
      destruct (Pos.compare_spec mx my) as [-> | | ]; try discriminate.
      rewrite Pos.compare_refl. reflexivity.
    + destruct (Z.compare_spec ex ey) as [-> | | ]; try discriminate.
      rewrite Z.compare_refl.
      change (Pos.compare_cont Eq mx my) with (Pos.compare mx my).
      change (Pos.compare_cont Eq my mx) with (Pos.compare my mx).
      destruct (Pos.compare_spec mx my) as [-> | | ]; try discriminate.
      rewrite Pos.compare_refl. reflexivity.
Qed.

Lemma float_ltb_neq (x y : float) :
  (x <? y)%float = true -> (x =? y)%float = false /\ (y =? x)%float = false.
Proof.
  rewrite ltb_spec, !eqb_spec. unfold SFltb, SFeqb.
  intros H. split.
  - destruct (SFcompare (Prim2SF x) (Prim2SF y)) as [[ | | ] | ];
      try discriminate; reflexivity.
  - destruct (SFcompare (Prim2SF y) (Prim2SF x)) as [[ | | ] | ] eqn:E;
      try reflexivity.
    apply SFcompare_eq_sym in E. rewrite E in H. discriminate.
Qed.

Lemma float_const_0 : SF2Prim (binary_normalize prec emax 0 0 false) = 0%float.
Proof. vm_compute. reflexivity. Qed.

Lemma float_const_100 :
  SF2Prim (binary_normalize prec emax 100 0 false) = 100%float.
Proof. vm_compute. reflexivity. Qed.

Lemma Prim2SF_0 : Prim2SF 0%float = S754_zero false.
Proof. vm_compute. reflexivity. Qed.

Lemma Prim2SF_100 : Prim2SF 100%float = S754_finite false 7036874417766400 (-46).
Proof. vm_compute. reflexivity. Qed.

(** A float below 0 is not 100, and a float above 100 is not 0. *)
Lemma float_below_0_not_100 (f : float) :
  (f <? 0)%float = true -> (f =? 100)%float = false.
Proof.
  rewrite ltb_spec, eqb_spec, Prim2SF_0, Prim2SF_100. unfold SFltb, SFeqb.
  destruct (Prim2SF f) as [sf | sf | | sf mf ef]; cbn [SFcompare];
    try discriminate; try reflexivity.
  - destruct sf; [ reflexivity | discriminate ].
  - destruct sf; [ reflexivity | discriminate ].
Qed.

Lemma float_above_100_not_0 (f : float) :
  (100 <? f)%float = true -> (f =? 0)%float = false.
Proof.
  rewrite ltb_spec, eqb_spec, Prim2SF_0, Prim2SF_100. unfold SFltb, SFeqb.
  destruct (Prim2SF f) as [sf | sf | | sf mf ef]; cbn [SFcompare];
    try discriminate; try reflexivity.
  - destruct sf; [ discriminate | reflexivity ].
  - destruct sf; reflexivity.
Qed.

(** A number below 0 or above 100 equals neither 0 nor 100. *)
Lemma outside_neither (loss : pyval) :
  outside_0_100 loss = true ->
  is_number loss = true /\ num_eqb loss 0 = false /\ num_eqb loss 100 = false.
Proof.
  destruct loss; cbn [outside_0_100 is_number num_eqb]; try discriminate.
  - intros H. apply orb_true_iff in H. split; [ reflexivity | ].
    split; apply Z.eqb_neq; destruct H as [H | H]; apply Z.ltb_lt in H; lia.
  - rewrite float_const_0, float_const_100.
    intros H. apply orb_true_iff in H. split; [ reflexivity | ].
    destruct H as [H | H].
    + split; [ apply (float_ltb_neq _ _ H) | apply (float_below_0_not_100 _ H) ].
    + split; [ apply (float_above_100_not_0 _ H) | apply (float_ltb_neq _ _ H) ].
Qed.

(** ** Incremental polls against one batch *)

Lemma string_two_step (P : string -> Prop) :
  P EmptyString ->
  (forall c, P (String c EmptyString)) ->
  (forall c c' r, P r -> P (String c' r) -> P (String c (String c' r))) ->
  forall s, P s.
Proof.
  intros H0 H1 H2 s.
  assert (H : P s /\ forall c, P (String c s)).
  { induction s as [ | c' r [IHr IHc]].
    - split; [ exact H0 | exact H1 ].
    - split; [ apply IHc | ]. intros c. apply H2; [ exact IHr | apply IHc ]. }
  exact (proj1 H).
Qed.

Lemma length_append (s1 s2 : string) :
  String.length (s1 ++ s2) = (String.length s1 + String.length s2)%nat.
Proof. induction s1 as [ | c r IH]; cbn; [ reflexivity | rewrite IH; reflexivity ]. Qed.

Lemma append_empty_r (s : string) : s ++ "" = s.
Proof. induction s as [ | c r IH]; cbn; [ reflexivity | rewrite IH; reflexivity ]. Qed.

Lemma append_assoc (s1 s2 s3 : string) : (s1 ++ s2) ++ s3 = s1 ++ (s2 ++ s3).
Proof. induction s1 as [ | c r IH]; cbn; [ reflexivity | rewrite IH; reflexivity ]. Qed.

Lemma drop_append (s1 s2 : string) : drop (String.length s1) (s1 ++ s2) = s2.
Proof. induction s1 as [ | c r IH]; cbn; [ destruct s2; reflexivity | exact IH ]. Qed.

Lemma readlines_from_step (p : nat) (c : ascii) (r : string) :
  readlines_from p (String c r) =
  if Ascii.eqb c LF then (nl, S p) :: readlines_from (S p) r
  else if Ascii.eqb c CR then
    match r with
    | String c' r' =>
        if Ascii.eqb c' LF
        then (nl, S (S p)) :: readlines_from (S (S p)) r'
        else (nl, S p) :: readlines_from (S p) r
    | EmptyString => [(nl, S p)]
    end
  else
    match readlines_from (S p) r with
    | [] => [(String c EmptyString, S p)]
    | (l, q') :: ls => (String c l, q') :: ls
    end.
Proof. reflexivity. Qed.

Lemma readlines_from_cons (p : nat) (c : ascii) (r : string) :
  readlines_from p (String c r) <> [].
Proof.
  rewrite readlines_from_step.
  destruct (Ascii.eqb c LF); [ discriminate | ].
  destruct (Ascii.eqb c CR).
  - destruct r as [ | c' r']; [ discriminate | ].
    destruct (Ascii.eqb c' LF); discriminate.
  - destruct (readlines_from (S p) r) as [ | [l q'] ls]; discriminate.
Qed.

(** The lines do not depend on the offset the text starts at. *)
Lemma readlines_from_shift (s : string) :
  forall p p', map fst (readlines_from p s) = map fst (readlines_from p' s).
Proof.
  induction s as [ | c | c c' r IH1 IH2] using string_two_step; intros p p'.
  - reflexivity.
  - cbn. destruct (Ascii.eqb c LF); [ reflexivity | ].
    destruct (Ascii.eqb c CR); reflexivity.
  - rewrite (readlines_from_step p c (String c' r)),
      (readlines_from_step p' c (String c' r)).
    cbv beta iota.
    destruct (Ascii.eqb c LF).
    { cbn [map fst]. f_equal. apply IH2. }
    destruct (Ascii.eqb c CR).
    { destruct (Ascii.eqb c' LF); cbn [map fst]; f_equal; [ apply IH1 | apply IH2 ]. }
    specialize (IH2 (S p) (S p')).
    destruct (readlines_from (S p) (String c' r)) as [ | [l q1] ls];
      destruct (readlines_from (S p') (String c' r)) as [ | [l' q2] ls'];
      cbn [map fst] in IH2 |- *; try discriminate; [ reflexivity | ].
    injection IH2 as -> ->. reflexivity.
Qed.

Lemma readlines_at (p : nat) (s : string) :
  map fst (readlines_from p s) = readlines s.
Proof. apply readlines_from_shift. Qed.

Lemma complete_tail (c : ascii) (r : string) :
  complete (String c r) = true -> complete r = true.
Proof. destruct r; [ reflexivity | cbn; trivial ]. Qed.

(** Text that ends where a line ends is read the same whether or not more
    text follows it. *)
Lemma readlines_from_append (s1 : string) :
  forall p s2, complete s1 = true ->
    readlines_from p (s1 ++ s2) =
    (readlines_from p s1 ++ readlines_from (p + String.length s1) s2)%list.
Proof.
  induction s1 as [ | c | c c' r IH1 IH2] using string_two_step;
    intros p s2 Hc.
  - cbn. rewrite Nat.add_0_r. reflexivity.
  - cbn in Hc. apply Ascii.eqb_eq in Hc. subst c. cbn.
    replace (p + 1)%nat with (S p) by lia. reflexivity.
  - assert (Hc2 : complete (String c' r) = true) by exact Hc.
    assert (Hc1 : complete r = true) by exact (complete_tail _ _ Hc2).
    change (String c (String c' r) ++ s2) with (String c (String c' r ++ s2)).
    rewrite (readlines_from_step p c (String c' r ++ s2)),
      (readlines_from_step p c (String c' r)).
    replace (p + String.length (String c (String c' r)))%nat
      with (S p + String.length (String c' r))%nat by (cbn; lia).
    destruct (Ascii.eqb c LF).
    { rewrite (IH2 (S p) s2 Hc2). reflexivity. }
    destruct (Ascii.eqb c CR).
    { cbn [append]. cbv beta iota.
      destruct (Ascii.eqb c' LF).
      - rewrite (IH1 (S (S p)) s2 Hc1). cbn [app].
        replace (S (S p) + String.length r)%nat
          with (S p + String.length (String c' r))%nat by (cbn; lia).
        reflexivity.
      - change (String c' (r ++ s2)) with (String c' r ++ s2).
        rewrite (IH2 (S p) s2 Hc2). reflexivity. }
    rewrite (IH2 (S p) s2 Hc2).
    pose proof (readlines_from_cons (S p) c' r) as Hne.
    destruct (readlines_from (S p) (String c' r)) as [ | [l q'] ls];
      [ contradiction | reflexivity ].
Qed.

Lemma readlines_append (s1 s2 : string) :
  complete s1 = true -> readlines (s1 ++ s2) = (readlines s1 ++ readlines s2)%list.
Proof.
  intros Hc. unfold readlines.
  rewrite (readlines_from_append s1 0 s2 Hc), map_app.
  f_equal. apply readlines_from_shift.
Qed.

Lemma complete_append (s1 s2 : string) :
  complete s1 = true -> complete s2 = true -> complete (s1 ++ s2) = true.
Proof.
  intros H1 H2.
  induction s1 as [ | c r IH]; [ exact H2 | ].
  cbn [append]. destruct r as [ | c' r'].
  - cbn [append]. destruct s2 as [ | c2 r2]; [ exact H1 | exact H2 ].
  - change (complete (String c (String c' r' ++ s2)) = true).
    cbn [append complete]. apply IH. exact H1.
Qed.

(** The loop over lines is the aggregator fed the records of the lines. *)
Lemma merge_lines_feed (lines : list string) (daily : Daily) :
  fst (merge_lines lines daily) = feed (records_of lines) daily.
Proof.
  revert daily. induction lines as [ | raw rest IH]; intros daily; cbn;
    [ reflexivity | ].
  destruct (decode_line raw) as [rec | ]; cbn.
  - destruct (merge_record rec daily) as [daily1 [e | ]]; [ reflexivity | ].
    rewrite <- IH. destruct (merge_lines rest daily1) as [[d x] seen].
    reflexivity.
  - rewrite <- IH. destruct (merge_lines rest daily) as [[d x] seen].
    reflexivity.
Qed.

Lemma merge_lines_completes (lines : list string) (daily daily' : Daily) :
  feed (records_of lines) daily = (daily', None) ->
  merge_lines lines daily = (daily', None, lines).
Proof.
  intros H. pose proof (merge_lines_feed lines daily) as E. rewrite H in E.
  destruct (merge_lines lines daily) as [[d x] seen] eqn:Hm.
  cbn in E. injection E as -> ->.
  rewrite (merge_lines_seen _ _ _ _ Hm). reflexivity.
Qed.

Lemma feed_app (r1 r2 : list pyval) (daily daily1 : Daily) :
  feed r1 daily = (daily1, None) -> feed (r1 ++ r2) daily = feed r2 daily1.
Proof.
  revert daily. induction r1 as [ | rec r1 IH]; intros daily; cbn.
  - intros [= ->]. reflexivity.
  - destruct (merge_record rec daily) as [d [e | ]]; [ discriminate | ].
    apply IH.
Qed.

Lemma seq_completes (a b : Update) (d : DayState) :
  snd (a d) = None -> (forall d1, snd (b d1) = None) -> snd (seq a b d) = None.
Proof.
  intros Ha Hb. unfold seq. destruct (a d) as [d1 [e | ]]; [ discriminate | ].
  apply Hb.
Qed.

Lemma is_ok_inv {A : Type} (r : result A) :
  is_ok r = true -> exists a, r = Ok a.
Proof. destruct r as [a | e]; [ exists a; reflexivity | discriminate ]. Qed.

(** The loop body raises nothing on a valid record. *)
Lemma valid_record_merges (rec : pyval) (daily : Daily) :
  valid_record rec = true -> snd (merge_record rec daily) = None.
Proof.
  unfold valid_record. destruct rec as [ | | | | | | kvs]; try discriminate.
  intros H.
  apply andb_true_iff in H as [H Hrtt].
  apply andb_true_iff in H as [H Hloss].
  apply andb_true_iff in H as [H Hrecv].
  apply andb_true_iff in H as [Hts Hsent].
  unfold merge_record.
  change (py_get (PDict kvs) "timestamp") with (Ok (get (PDict kvs) "timestamp")).
  cbv beta iota.
  destruct (truthy (get (PDict kvs) "timestamp")) eqn:Ht; [ | reflexivity ].
  cbn [negb].
  destruct (get (PDict kvs) "timestamp") as [ | | | | s | | ];
    try (rewrite Ht in Hts; discriminate).
  destruct (merge_into _ _) as [d exc] eqn:Hm. cbn.
  change exc with (snd (d, exc)). rewrite <- Hm.
  unfold merge_into.
  apply seq_completes; [ reflexivity | intros d1 ].
  apply seq_completes.
  { unfold add_sent, try_, assign, done.
    destruct (is_number (get (PDict kvs) "sent")); [ | reflexivity ].
    destruct (is_ok_inv _ Hsent) as [z ->]. reflexivity. }
  intros d2. apply seq_completes.
  { unfold add_received, try_, assign, done.
    destruct (is_number (get (PDict kvs) "received")); [ | reflexivity ].
    destruct (is_ok_inv _ Hrecv) as [z ->]. reflexivity. }
  intros d3. apply seq_completes.
  { unfold add_loss, try_, done.
    destruct (is_number (get (PDict kvs) "loss_pct")); [ | reflexivity ].
    destruct (is_ok_inv _ Hloss) as [f ->].
    unfold seq, assign.
    destruct (num_eqb (get (PDict kvs) "loss_pct") 0); [ reflexivity | ].
    destruct (num_eqb (get (PDict kvs) "loss_pct") 100); reflexivity. }
  intros d4. apply seq_completes.
  { unfold add_rtt, try_, done.
    destruct (is_ok_inv _ Hrtt) as [[v | ] ->]; reflexivity. }
  intros d5. apply seq_completes.
  { unfold add_target, assign, done.
    destruct (truthy (py_or (get (PDict kvs) "target") (get (PDict kvs) "dst_host")));
      reflexivity. }
  intros d6.
  unfold add_public_ip, assign, done.
  destruct (truthy (get (PDict kvs) "public_ip")); reflexivity.
Qed.

Lemma feed_valid (records : list pyval) (daily : Daily) :
  Forall (fun rec => valid_record rec = true) records ->
  snd (feed records daily) = None.
Proof.
  intros H. revert daily.
  induction H as [ | rec rest Hrec _ IH]; intros daily; cbn; [ reflexivity | ].
  pose proof (valid_record_merges rec daily Hrec) as Hm.
  destruct (merge_record rec daily) as [d [e | ]]; [ discriminate | ].
  apply IH.
Qed.

Lemma valid_lines_records (lines : list string) :
  Forall valid_line lines ->
  Forall (fun rec => valid_record rec = true) (records_of lines).
Proof.
  induction 1 as [ | raw rest Hraw _ IH]; cbn; [ constructor | ].
  unfold valid_line in Hraw.
  destruct (decode_line raw); [ constructor; assumption | assumption ].
Qed.

Lemma synced_empty (ino : Z) : synced ino "" empty_cache.
Proof. repeat split. right. reflexivity. Qed.

Lemma length_zero_empty (s : string) : String.length s = 0%nat -> s = "".
Proof. destruct s; [ reflexivity | discriminate ]. Qed.

(** One call after the log grew by valid text: it returns the snapshot of the
    batch of all records, and leaves the cache in step with the log. *)
Lemma poll_step (ino : Z) (text chunk : string) (now : float) (c : Cache) :
  complete text = true -> synced ino text c ->
  Forall valid_line (readlines chunk) ->
  let o := build_daily_summary_from_file now
             (Some (mkFile ino (text ++ chunk))) c in
  returned o = batch_snapshot (records_of (readlines (text ++ chunk))) /\
  (is_ok (returned o) = true -> synced ino (text ++ chunk) (cache_after o)).
Proof.
  intros Hct (Hpos & Hsize & Hfeed & Hsum & Hino) Hvalid.
  cbn [build_daily_summary_from_file].
  set (stat := mkFile ino (text ++ chunk)).
  assert (Hlen : st_size stat = (String.length text + String.length chunk)%nat).
  { unfold st_size, stat. cbn [content]. apply length_append. }
  assert (Hrot : (if rotated stat c then reset_summary_cache c else c) = c).
  { destruct Hino as [Hi | ->]; [ | destruct (rotated stat empty_cache); reflexivity ].
    unfold rotated. apply inode_is_true in Hi. cbn [st_ino stat]. rewrite Hi.
    cbn [negb orb].
    destruct (Nat.ltb_spec (st_size stat) (size c)); [ lia | reflexivity ]. }
  rewrite Hrot.
  assert (Hbatch : forall daily,
             feed (records_of (readlines chunk)) (daily_state c) = (daily, None) ->
             batch_snapshot (records_of (readlines (text ++ chunk)))
             = _summaries_from_state daily
             /\ feed (records_of (readlines (text ++ chunk))) [] = (daily, None)).
  { intros daily Hd. unfold batch_snapshot.
    rewrite (readlines_append _ _ Hct), records_of_app.
    rewrite (feed_app _ _ _ _ Hfeed), Hd. split; reflexivity. }
  unfold reuse_or_rebuild.
  destruct (cache_hit stat c) eqn:Hit.
  - (* nothing was appended *)
    unfold cache_hit in Hit.
    apply andb_true_iff in Hit as [Hit _].
    apply andb_true_iff in Hit as [Hi Hp].
    apply Nat.eqb_eq in Hp.
    assert (chunk = "") as -> by (apply length_zero_empty; lia).
    cbn [returned cache_after]. rewrite append_empty_r.
    split.
    + unfold batch_snapshot. rewrite Hfeed. symmetry. exact Hsum.
    + intros _. repeat split; assumption.
  - (* the appended text is read *)
    rewrite Hpos. unfold stat. cbn [content].
    rewrite drop_append, readlines_at.
    destruct (feed (records_of (readlines chunk)) (daily_state c))
      as [daily exc] eqn:Hd.
    assert (exc = None) as ->.
    { change exc with (snd (daily, exc)). rewrite <- Hd.
      apply feed_valid, valid_lines_records, Hvalid. }
    rewrite (merge_lines_completes _ _ _ Hd).
    destruct (Hbatch daily eq_refl) as [Hb Hf].
    unfold tell, handle_after_loop. cbn [telling tell_offset].
    rewrite Hb.
    destruct (_summaries_from_state daily) as [rows | e] eqn:Hrows;
      cbn [returned cache_after is_ok].
    + split; [ reflexivity | ]. intros _.
      unfold synced. cbn [position size daily_state summary inode].
      unfold st_size, stat in *. cbn [content st_ino] in *.
      repeat split; try assumption; try lia.
      left. reflexivity.
    + split; [ reflexivity | discriminate ].
Qed.

Lemma removelast_cons {A : Type} (a : A) (l : list A) :
  l <> [] -> removelast (a :: l) = a :: removelast l.
Proof. destruct l; [ contradiction | reflexivity ]. Qed.

Lemma last_cons {A : Type} (a d : A) (l : list A) :
  l <> [] -> last (a :: l) d = last l d.
Proof. destruct l; [ contradiction | reflexivity ]. Qed.

Lemma polls_last (ino : Z) (steps : list (float * string)) :
  forall (text : string) (c : Cache) (dflt : Outcome),
    steps <> [] -> complete text = true -> synced ino text c ->
    Forall valid_step steps ->
    Forall (fun o => is_ok (returned o) = true)
      (removelast (polls ino text steps c)) ->
    returned (last (polls ino text steps c) dflt)
    = batch_snapshot (records_of (readlines (text ++ join (map snd steps)))).
Proof.
  induction steps as [ | [now chunk] rest IH]; intros text c dflt Hne Hct Hs Hv Hok;
    [ contradiction | ].
  inversion Hv as [ | st l [Hcc Hvl] Hvrest]; subst.
  cbn [snd] in Hcc, Hvl.
  destruct (poll_step ino text chunk now c Hct Hs Hvl) as [Hret Hnext].
  cbn [polls map snd join] in *.
  set (o := build_daily_summary_from_file now (Some (mkFile ino (text ++ chunk))) c) in *.
  destruct rest as [ | st2 rest'].
  - cbn. rewrite append_empty_r. exact Hret.
  - assert (Hpl : polls ino (text ++ chunk) (st2 :: rest') (cache_after o) <> []).
    { destruct st2 as [now2 chunk2]. cbn [polls]. discriminate. }
    rewrite (removelast_cons _ _ Hpl) in Hok.
    rewrite (last_cons _ _ _ Hpl).
    inversion Hok as [ | x y Ho Hokrest]; subst.
    rewrite <- append_assoc.
    apply IH; [ discriminate | | | assumption | assumption ].
    + apply complete_append; assumption.
    + apply Hnext. exact Ho.
Qed.

Lemma valid_steps_join (steps : list (float * string)) :
  Forall valid_step steps ->
  complete (join (map snd steps)) = true /\
  Forall valid_line (readlines (join (map snd steps))).
Proof.
  induction 1 as [ | [now chunk] rest [Hc Hv] _ [IHc IHv]]; cbn [map snd join].
  - split; [ reflexivity | constructor ].
  - cbn [snd] in Hc, Hv. split; [ apply complete_append; assumption | ].
    rewrite (readlines_append _ _ Hc). apply Forall_app. split; assumption.
Qed.

(** C4.  The log of a fresh cache grows by valid, newline-terminated text
    before each call, is never replaced or truncated, and every call but
    possibly the last returns a snapshot.  Then the snapshot the last call
    returns is the snapshot of a fresh aggregator fed all the records in one
    batch, and it is what a single call on the final file returns from a
    fresh cache. *)
Theorem incremental_equals_batch (ino : Z) (steps : list (float * string))
  (dflt : Outcome) :
  steps <> [] ->
  Forall valid_step steps ->
  Forall (fun o => is_ok (returned o) = true)
    (removelast (polls ino "" steps empty_cache)) ->
  let text := join (map snd steps) in
  let final := last (polls ino "" steps empty_cache) dflt in
  returned final = batch_snapshot (records_of (readlines text)) /\
  forall now,
    returned final =
    returned (build_daily_summary_from_file now (Some (mkFile ino text))
                empty_cache).
Proof.
  intros Hne Hv Hok text final.
  assert (E : returned final = batch_snapshot (records_of (readlines text))).
  { exact (polls_last ino steps "" empty_cache dflt Hne eq_refl
             (synced_empty ino) Hv Hok). }
  split; [ exact E | ].
  intros now. rewrite E.
  destruct (valid_steps_join steps Hv) as [_ Hvl].
  destruct (poll_step ino "" text now empty_cache eq_refl (synced_empty ino) Hvl)
    as [Hret _].
  symmetry. exact Hret.
Qed.

(** ** A loss outside 0-100, merged and rendered *)

(** C10.  A valid record whose timestamp is a string and whose [loss_pct] is
    a number below 0 or above 100 is merged without an exception and counted
    like any other: [float(loss_pct)] is added to the loss sum, the loss
    count, [degraded_probes] and [total_probes] grow by one, the good and
    down buckets do not move.  In the row [_summaries_from_state] renders of
    the day, the record is one more degraded probe and one more probe that
    is up: [uptime_pct] is [100.0 * (total_probes + 1 - down_probes) /
    (total_probes + 1)] over the counters the day had before, and
    [avg_loss_pct] is the new loss sum over the new loss count. *)
Theorem out_of_range_loss_is_degraded (rec : pyval) (daily : Daily) (s : string) :
  py_get rec "timestamp" = Ok (PStr s) -> s <> "" ->
  valid_record rec = true ->
  outside_0_100 (get rec "loss_pct") = true ->
  let d := day_of daily (before_T s) in
  let d' := day_of (fst (merge_record rec daily)) (before_T s) in
  snd (merge_record rec daily) = None /\
  (exists f, py_float (get rec "loss_pct") = Ok f /\
             loss_sum d' = (loss_sum d + f)%float) /\
  loss_count d' = loss_count d + 1 /\
  degraded_probes d' = degraded_probes d + 1 /\
  good_probes d' = good_probes d /\
  down_probes d' = down_probes d /\
  total_probes d' = total_probes d + 1 /\
  (forall row,
     0 <= total_probes d -> 0 <= loss_count d ->
     summarize_day (before_T s) d' = Ok row ->
     Summary.total_probes row = total_probes d + 1 /\
     Summary.good_probes row = good_probes d /\
     Summary.degraded_probes row = degraded_probes d + 1 /\
     Summary.down_probes row = down_probes d /\
     (exists up n,
         float_of_int (total_probes d + 1 - down_probes d) = Ok up /\
         float_of_int (total_probes d + 1) = Ok n /\
         Summary.uptime_pct row = (100 * up / n)%float) /\
     (exists f n,
         py_float (get rec "loss_pct") = Ok f /\
         float_of_int (loss_count d + 1) = Ok n /\
         Summary.avg_loss_pct row = ((loss_sum d + f) / n)%float)).
Proof.
  intros Hts Hs Hvalid Hout d d'.
  destruct (outside_neither _ Hout) as (Hn & H0 & H100).
  pose proof (valid_record_merges rec daily Hvalid) as Hnone.
  destruct (merge_record rec daily) as [daily' exc] eqn:Hm.
  cbn [fst snd] in *. subst exc.
  destruct (merge_record_day _ _ _ _ Hts Hs Hm) as [Hinto _].
  destruct (merge_into_effect _ _ _ Hinto) as (Ht & Hl & _).
  fold d d' in Ht, Hl.
  rewrite Hn, H0, H100 in Hl.
  destruct Hl as (f & Hf & Hsum & Hcnt & Hb).
  injection Hb as Hg Hdeg Hdown.
  split; [ reflexivity | ].
  split; [ exists f; split; assumption | ].
  repeat (split; [ assumption | ]).
  intros row Hpos Hlc Hrow.
  unfold summarize_day in Hrow.
  rewrite Ht, Hcnt, Hsum, Hg, Hdeg, Hdown in Hrow.
  assert (Hp : (0 <? total_probes d + 1) = true) by (apply Z.ltb_lt; lia).
  assert (Hq : (0 <? loss_count d + 1) = true) by (apply Z.ltb_lt; lia).
  rewrite Hp, Hq in Hrow.
  destruct (float_of_int (total_probes d + 1 - down_probes d)) as [up | ];
    [ | discriminate ].
  destruct (float_of_int (total_probes d + 1)) as [n | ]; [ | discriminate ].
  destruct (float_of_int (loss_count d + 1)) as [m | ]; [ | discriminate ].
  cbn [bind] in Hrow.
  destruct (if 0 <? rtt_count d' then _ else _) as [ar | ]; [ | discriminate ].
  cbn [bind] in Hrow. injection Hrow as <-. cbn.
  repeat (split; [ reflexivity | ]).
  split.
  - exists up, n. repeat split.
  - exists f, m. repeat split. exact Hf.
Qed.

(** * Further properties of the code *)

(** ** Sorting on string keys *)

Lemma leb_refl (s : string) : String.leb s s = true.
Proof. destruct (String.leb_total s s); assumption. Qed.

Lemma leb_neq_ltb (s1 s2 : string) :
  String.leb s1 s2 = true -> s1 <> s2 -> String.ltb s1 s2 = true.
Proof.
  unfold String.leb, String.ltb.
  destruct (String.compare s1 s2) eqn:E; try discriminate; [ | reflexivity ].
  intros _ Hne. apply String.compare_eq_iff in E. contradiction.
Qed.

Lemma insert_by_perm {A : Type} (key : A -> string) (x : A) (l : list A) :
  Permutation (insert_by key x l) (x :: l).
Proof.
  induction l as [ | y l IH]; cbn; [ apply Permutation_refl | ].
  destruct (String.leb (key x) (key y)); [ apply Permutation_refl | ].
  eapply perm_trans; [ apply perm_skip, IH | apply perm_swap ].
Qed.

Lemma sort_by_perm {A : Type} (key : A -> string) (l : list A) :
  Permutation (sort_by key l) l.
Proof.
  induction l as [ | x l IH]; cbn; [ apply perm_nil | ].
  eapply perm_trans; [ apply insert_by_perm | apply perm_skip, IH ].
Qed.

Lemma insert_by_sorted {A : Type} (key : A -> string) (x : A) (l : list A) :
  Sorted (fun a b => String.leb (key a) (key b) = true) l ->
  Sorted (fun a b => String.leb (key a) (key b) = true) (insert_by key x l).
Proof.
  induction 1 as [ | y l Hs IH Hd]; cbn.
  - repeat constructor.
  - destruct (String.leb (key x) (key y)) eqn:E.
    + constructor; [ constructor; assumption | constructor; exact E ].
    + constructor; [ exact IH | ].
      assert (Hyx : String.leb (key y) (key x) = true).
      { destruct (String.leb_total (key x) (key y)) as [H | H];
          [ congruence | exact H ]. }
      destruct l as [ | z l]; cbn.
      * constructor. exact Hyx.
      * destruct (String.leb (key x) (key z)); constructor;
          [ exact Hyx | inversion Hd; assumption ].
Qed.

(** [sorted] and [sort] leave the keys in ascending order. *)
Lemma sort_by_sorted {A : Type} (key : A -> string) (l : list A) :
  Sorted (fun a b => String.leb (key a) (key b) = true) (sort_by key l).
Proof.
  induction l as [ | x l IH]; cbn; [ constructor | ].
  apply insert_by_sorted, IH.
Qed.

(** Among equal keys the order of the input is kept. *)
Lemma insert_by_stable {A : Type} (key : A -> string) (t : string) (x : A)
  (l : list A) :
  filter (fun a => String.eqb (key a) t) (insert_by key x l) =
  filter (fun a => String.eqb (key a) t) (x :: l).
Proof.
  induction l as [ | y l IH]; [ reflexivity | ].
  cbn [insert_by].
  destruct (String.leb (key x) (key y)) eqn:E; [ reflexivity | ].
  cbn [filter] in *. rewrite IH.
  destruct (String.eqb_spec (key x) t) as [Hx | Hx]; [ | reflexivity ].
  destruct (String.eqb_spec (key y) t) as [Hy | Hy]; [ | reflexivity ].
  rewrite Hx, Hy, leb_refl in E. discriminate.
Qed.

Lemma sort_by_stable {A : Type} (key : A -> string) (t : string) (l : list A) :
  filter (fun a => String.eqb (key a) t) (sort_by key l) =
  filter (fun a => String.eqb (key a) t) l.
Proof.
  induction l as [ | x l IH]; [ reflexivity | ].
  cbn [sort_by]. rewrite insert_by_stable. cbn [filter]. rewrite IH. reflexivity.
Qed.

(** With distinct keys the ascending order is strict. *)
Lemma sorted_strict {A : Type} (key : A -> string) (l : list A) :
  NoDup (map key l) ->
  Sorted (fun a b => String.leb (key a) (key b) = true) l ->
  Sorted (fun a b => String.ltb (key a) (key b) = true) l.
Proof.
  intros Hnd Hs. induction Hs as [ | x l Hs IH Hd]; [ constructor | ].
  inversion Hnd as [ | k ks Hnotin Hnd']; subst.
  constructor; [ apply IH; exact Hnd' | ].
  destruct Hd as [ | y l Hxy]; constructor.
  apply leb_neq_ltb; [ exact Hxy | ].
  intros Heq. apply Hnotin. cbn. left. symmetry. exact Heq.
Qed.

(** ** Publishing *)

Lemma publisher_eta (self : MqttPublisher) :
  mkPublisher (client self) (_last_size self) (_last_inode self)
    (_warned_missing self) = self.
Proof. destruct self; reflexivity. Qed.

Lemma publishes_connected (broker : Broker) (msgs : list (string * string))
  (self : MqttPublisher) :
  client self = true ->
  publishes broker msgs self = (self, map (delivery broker) msgs).
Proof.
  intros Hc. induction msgs as [ | [topic payload] rest IH]; [ reflexivity | ].
  cbn [publishes]. unfold _publish, _ensure_client. rewrite Hc. cbn [negb].
  fold (delivery broker (topic, payload)).
  replace (if publish_raises broker topic payload
           then (self, ([] ++ [PublishFailed topic payload])%list)
           else (self, ([] ++ [Published topic payload])%list))
    with (self, [delivery broker (topic, payload)])
    by (unfold delivery; cbn; destruct (publish_raises _ _ _); reflexivity).
  rewrite IH. reflexivity.
Qed.

(** X2.  With a client at hand, or a broker that can be reached, every
    message is handed to the broker exactly once and in order; a message
    the broker refuses is reported and neither retried nor allowed to stop
    the ones after it, and the client is kept.  The read offset and the
    inode are not touched. *)
Theorem publishes_in_order (broker : Broker) (msgs : list (string * string))
  (self : MqttPublisher) :
  client self = true \/ (paho_installed broker = true /\ accepts broker = true) ->
  let r := publishes broker msgs self in
  snd r = map (delivery broker) msgs /\
  (msgs <> [] -> client (fst r) = true) /\
  _last_size (fst r) = _last_size self /\
  _last_inode (fst r) = _last_inode self /\
  _warned_missing (fst r) = _warned_missing self.
Proof.
  intros H. destruct (client self) eqn:Hc.
  - rewrite (publishes_connected _ _ _ Hc). cbn. repeat split. intros _. exact Hc.
  - destruct H as [H | [Hp Ha]]; [ discriminate | ].
    destruct msgs as [ | [topic payload] rest].
    + cbn. repeat split. intros E. contradiction.
    + cbn [publishes]. unfold _publish, _ensure_client, _connect.
      rewrite Hc, Hp, Ha. cbn [negb].
      fold (delivery broker (topic, payload)).
      set (self1 := mkPublisher true (_last_size self) (_last_inode self)
                      (_warned_missing self)).
      replace (if publish_raises broker topic payload
               then (self1, ([] ++ [PublishFailed topic payload])%list)
               else (self1, ([] ++ [Published topic payload])%list))
        with (self1, [delivery broker (topic, payload)])
        by (unfold delivery; cbn; destruct (publish_raises _ _ _); reflexivity).
      rewrite (publishes_connected broker rest self1 eq_refl).
      cbn. repeat split.
Qed.

(** X3.  Without a client, and with [paho.mqtt.client] missing or a broker
    that refuses the connection, no message is handed to the broker.  A
    missing library is reported once for the life of the object; a refused
    connection is tried again, and reported again, for every message. *)
Theorem publishes_without_broker (broker : Broker)
  (msgs : list (string * string)) (self : MqttPublisher) :
  client self = false ->
  paho_installed broker = false \/ accepts broker = false ->
  let r := publishes broker msgs self in
  snd r =
  (if paho_installed broker then map (fun _ => ConnectFailed) msgs
   else if _warned_missing self then []
        else match msgs with [] => [] | _ => [PahoMissing] end) /\
  client (fst r) = false /\
  _last_size (fst r) = _last_size self /\
  _last_inode (fst r) = _last_inode self.
Proof.
  revert self. induction msgs as [ | [topic payload] rest IH]; intros self Hc H.
  - cbn. destruct (paho_installed broker), (_warned_missing self);
      repeat split; assumption.
  - cbn [publishes]. unfold _publish, _ensure_client, _connect. rewrite Hc.
    destruct (paho_installed broker) eqn:Hp; cbn [negb].
    + destruct H as [H | Ha]; [ discriminate | ]. rewrite Ha. cbn.
      specialize (IH (mkPublisher false (_last_size self) (_last_inode self)
                        (_warned_missing self)) eq_refl (or_intror Ha)).
      cbn zeta in IH. rewrite ?Hp in IH.
      destruct (publishes broker rest _) as [self2 ev2].
      cbn in *. destruct IH as (-> & ? & ? & ?). repeat split; assumption.
    + destruct (_warned_missing self) eqn:Hw; cbn; rewrite ?Hw.
      * specialize (IH (mkPublisher false (_last_size self) (_last_inode self)
                          true) eq_refl H).
        cbn zeta in IH. rewrite ?Hp in IH. cbn in IH.
        destruct (publishes broker rest _) as [self2 ev2].
        cbn in *. destruct IH as (-> & ? & ? & ?). repeat split; assumption.
      * specialize (IH (mkPublisher false (_last_size self) (_last_inode self)
                          true) eq_refl H).
        cbn zeta in IH. rewrite ?Hp in IH. cbn in IH.
        destruct (publishes broker rest _) as [self2 ev2].
        cbn in *. destruct IH as (-> & ? & ? & ?). repeat split; assumption.
Qed.

(** ** Rebuilding from scratch *)



(** ** The binary sensor against the relay *)

(** X5.  For a record the relay can render, the Home Assistant sensor shows
    what the relay puts in [internet_up], except when [loss_pct] is missing
    or null: there the relay says [False] (down) and the sensor [None]
    (unknown).  With no record fetched at all the sensor says [None]. *)
Theorem sensor_against_relay (record : pyval) (st : Status.t) :
  status_of record = Ok st ->
  is_on record =
  Ok (match get record "loss_pct" with
      | PNone => None
      | _ => Status.internet_up st
      end) /\
  is_on (latest_record []) = Ok None.
Proof.
  intros H. split; [ revert H | reflexivity ].
  destruct record as [ | b | z | f | s | l | kvs]; try discriminate.
  rewrite status_of_dict. unfold is_on, get.
  destruct kvs as [ | kv kvs].
  - cbn. intros _. reflexivity.
  - change (truthy (PDict (kv :: kvs))) with true. cbn [negb].
    destruct (py_get (PDict (kv :: kvs)) "loss_pct") as [loss | e] eqn:Hl.
    2:{ cbn in Hl. destruct kv as [k v].
        destruct (String.eqb "loss_pct" k); [ discriminate | ].
        destruct (assoc "loss_pct" kvs); discriminate. }
    cbn [bind]. unfold internet_up_of.
    destruct loss; cbn;
      try (intros [= <-]; reflexivity);
      repeat match goal with
             | |- context [match ?r with Ok _ => _ | Raise _ => _ end] =>
                 destruct r eqn:?
             | |- context [match ?e with AttributeError => _ | _ => _ end] =>
                 destruct e
             | |- context [match ?o with Some _ => _ | None => _ end] =>
                 destruct o eqn:?
             end; cbn; try discriminate; try (intros [= <-]; reflexivity).
Qed.

(** ** Every aggregate stays well-formed *)

Lemma existsb_eqb_false (x : string) (s : list string) :
  existsb (String.eqb x) s = false -> ~ In x s.
Proof.
  intros H Hin. assert (E : existsb (String.eqb x) s = true).
  { apply existsb_exists. exists x. split; [ exact Hin | apply String.eqb_refl ]. }
  congruence.
Qed.

Lemma nodup_snoc {A : Type} (x : A) (s : list A) :
  NoDup s -> ~ In x s -> NoDup (s ++ [x]).
Proof.
  forget_runtime.
  induction 1 as [ | y s Hy Hs IH]; cbn; intros Hx.
  - constructor; [ tauto | constructor ].
  - constructor.
    + rewrite in_app_iff. cbn. intros [Hin | [E | []]]; [ tauto | ].
      apply Hx. left. symmetry. exact E.
    + apply IH. intros Hin. apply Hx. right. exact Hin.
Qed.

Lemma set_add_nodup (x : string) (s : list string) :
  NoDup s -> NoDup (set_add x s).
Proof.
  intros H. unfold set_add. destruct (existsb (String.eqb x) s) eqn:E; [ exact H | ].
  apply existsb_eqb_false in E. apply nodup_snoc; assumption.
Qed.

Lemma counts_ok_weaken (lo a b lo' a' b' : Z) (d : DayState) :
  lo' <= lo -> a' <= a -> b' <= b ->
  counts_ok lo a b d -> counts_ok lo' a' b' d.
Proof. forget_runtime. unfold counts_ok. intuition lia. Qed.

Lemma hoare_seq (P Q R : DayState -> Prop) (a b : Update) :
  hoare P a Q -> hoare Q b R -> (forall d, Q d -> R d) -> hoare P (a ;; b) R.
Proof.
  intros Ha Hb Hqr d Hd. unfold seq.
  specialize (Ha d Hd). destruct (a d) as [d1 [e | ]]; cbn in *.
  - apply Hqr, Ha.
  - apply Hb, Ha.
Qed.

(** The invariant of the loop body, for the day stored under [k]. *)
Local Abbreviation inv k lo a b := (fun d => date d = k /\ counts_ok lo a b d).

Lemma count_probe_inv (k : string) :
  hoare (inv k 0 0 0)
    (assign (fun d => set_total_probes (total_probes d + 1) d)) (inv k 1 1 1).
Proof.
  forget_runtime.
  intros d [Hk H]. unfold assign, counts_ok in *. cbn. intuition lia.
Qed.

Lemma add_sent_inv (k : string) (lo a b : Z) (v : pyval) :
  hoare (inv k lo a b) (add_sent v) (inv k lo a b).
Proof.
  intros d H. unfold add_sent, try_, assign, done.
  destruct (is_number v); [ | exact H ].
  destruct (py_int v); exact H.
Qed.

Lemma add_received_inv (k : string) (lo a b : Z) (v : pyval) :
  hoare (inv k lo a b) (add_received v) (inv k lo a b).
Proof.
  intros d H. unfold add_received, try_, assign, done.
  destruct (is_number v); [ | exact H ].
  destruct (py_int v); exact H.
Qed.

Lemma add_loss_inv (k : string) (lo b : Z) (v : pyval) :
  hoare (inv k lo 1 b) (add_loss v) (inv k lo 0 b).
Proof.
  forget_runtime.
  intros d [Hk H]. unfold add_loss, try_, done.
  destruct (is_number v);
    [ | split; [ exact Hk | revert H; apply counts_ok_weaken; lia ] ].
  destruct (py_float v) as [f | e];
    [ | split; [ exact Hk | revert H; apply counts_ok_weaken; lia ] ].
  unfold seq, assign, counts_ok in *.
  destruct (num_eqb v 0); [ | destruct (num_eqb v 100) ]; cbn;
    (split; [ exact Hk | intuition lia ]).
Qed.

Lemma add_rtt_inv (k : string) (lo a : Z) (v : pyval) :
  hoare (inv k lo a 1) (add_rtt v) (inv k lo a 0).
Proof.
  intros d [Hk H]. unfold add_rtt, try_, done.
  destruct (rtt_value v) as [[x | ] | e]; cbn;
    try (split; [ exact Hk | revert H; apply counts_ok_weaken; lia ]).
  unfold seq, assign, counts_ok in *. cbn.
  destruct H as (H1 & H2 & H3 & H4 & H5 & H6 & H7 & H8 & H9 & H10 & H11 & H12).
  assert (Emin : (if below x (rtt_min d) then Some x else rtt_min d) <> None).
  { destruct (rtt_min d); cbn; [ destruct (_ <? _)%float | ]; discriminate. }
  destruct (below x (rtt_min d)) eqn:Hb; cbn.
  - assert (Emax : (if above x (rtt_max d) then Some x else rtt_max d) <> None).
    { destruct (rtt_max d); cbn; [ destruct (_ <? _)%float | ]; discriminate. }
    destruct (above x (rtt_max d)) eqn:Ha; cbn;
      (split; [ exact Hk | ]); repeat split; try assumption; try lia;
      try discriminate; try (intros E; exfalso; lia);
      try (intros E; exfalso; apply Emax; exact E).
  - assert (Emax : (if above x (rtt_max d) then Some x else rtt_max d) <> None).
    { destruct (rtt_max d); cbn; [ destruct (_ <? _)%float | ]; discriminate. }
    destruct (above x (rtt_max d)) eqn:Ha; cbn;
      (split; [ exact Hk | ]); repeat split; try assumption; try lia;
      try discriminate; try (intros E; exfalso; lia);
      try (intros E; exfalso; apply Emax; exact E);
      try (intros E; exfalso; apply Emin; exact E).
Qed.

Lemma add_target_inv (k : string) (lo a b : Z) (v : pyval) :
  hoare (inv k lo a b) (add_target v) (inv k lo a b).
Proof.
  forget_runtime.
  intros d [Hk H]. unfold add_target, assign, done.
  destruct (truthy v); [ | split; assumption ].
  unfold counts_ok in *. cbn. split; [ exact Hk | ].
  pose proof (set_add_nodup (py_str v) (targets d)). intuition.
Qed.

Lemma add_public_ip_inv (k : string) (lo a b : Z) (v : pyval) :
  hoare (inv k lo a b) (add_public_ip v) (inv k lo a b).
Proof.
  forget_runtime.
  intros d [Hk H]. unfold add_public_ip, assign, done.
  destruct (truthy v); [ | split; assumption ].
  unfold counts_ok in *. cbn. split; [ exact Hk | ].
  pose proof (set_add_nodup (py_str v) (public_ips d)). intuition.
Qed.

(** Lines 206-244 take a day that is well-formed, or fresh, to a well-formed
    day with at least one probe, wherever they stop. *)
Lemma merge_into_inv (k : string) (rec : pyval) :
  hoare (inv k 0 0 0) (merge_into rec) (inv k 1 0 0).
Proof.
  assert (W : forall lo a b d, inv k lo a b d -> 0 <= a -> 0 <= b -> inv k lo 0 0 d).
  { intros lo a b d [Hk H] Ha Hb. split; [ exact Hk | ].
    revert H. apply counts_ok_weaken; lia. }
  unfold merge_into.
  apply hoare_seq with (Q := inv k 1 1 1);
    [ apply count_probe_inv | | intros d H; apply (W 1 1 1 d H); lia ].
  apply hoare_seq with (Q := inv k 1 1 1);
    [ apply add_sent_inv | | intros d H; apply (W 1 1 1 d H); lia ].
  apply hoare_seq with (Q := inv k 1 1 1);
    [ apply add_received_inv | | intros d H; apply (W 1 1 1 d H); lia ].
  apply hoare_seq with (Q := inv k 1 0 1);
    [ apply add_loss_inv | | intros d H; apply (W 1 0 1 d H); lia ].
  apply hoare_seq with (Q := inv k 1 0 0);
    [ apply add_rtt_inv | | intros d H; exact H ].
  apply hoare_seq with (Q := inv k 1 0 0);
    [ apply add_target_inv | apply add_public_ip_inv | intros d H; exact H ].
Qed.

Lemma fresh_day_inv (day : string) : inv day 0 0 0 (fresh_day day).
Proof.
  split; [ reflexivity | ]. unfold counts_ok. cbn.
  repeat split; try lia; try constructor.
Qed.

Lemma assoc_none_notin {A : Type} (k : string) (l : list (string * A)) :
  assoc k l = None -> ~ In k (map fst l).
Proof.
  forget_runtime.
  induction l as [ | [k' v] l IH]; cbn; [ tauto | ].
  destruct (String.eqb_spec k k'); [ discriminate | ].
  intros H [E | Hin]; [ congruence | exact (IH H Hin) ].
Qed.

Lemma assoc_in {A : Type} (k : string) (v : A) (l : list (string * A)) :
  assoc k l = Some v -> In (k, v) l.
Proof.
  induction l as [ | [k' v'] l IH]; cbn; [ discriminate | ].
  destruct (String.eqb_spec k k').
  - intros [= ->]. left. congruence.
  - intros H. right. exact (IH H).
Qed.

Lemma in_assoc {A : Type} (k : string) (v : A) (l : list (string * A)) :
  NoDup (map fst l) -> In (k, v) l -> assoc k l = Some v.
Proof.
  forget_runtime.
  induction l as [ | [k' v'] l IH]; cbn; [ tauto | ].
  intros Hnd [E | Hin].
  - injection E as -> ->. rewrite String.eqb_refl. reflexivity.
  - inversion Hnd as [ | x xs Hnotin Hnd']; subst.
    destruct (String.eqb_spec k k').
    + subst k'. exfalso. apply Hnotin. apply (in_map fst) in Hin. exact Hin.
    + exact (IH Hnd' Hin).
Qed.

Lemma store_day_keys (daily : Daily) (day : string) (d : DayState) :
  map fst (store_day daily day d) = map fst daily.
Proof.
  induction daily as [ | [k v] daily IH]; cbn; [ reflexivity | ].
  destruct (String.eqb day k); cbn; [ reflexivity | rewrite IH; reflexivity ].
Qed.

Lemma store_day_forall (P : string * DayState -> Prop) (daily : Daily)
  (day : string) (d : DayState) :
  Forall P daily -> P (day, d) -> Forall P (store_day daily day d).
Proof.
  intros H Hd. induction H as [ | [k v] daily Hkv Hrest IH]; cbn; [ constructor | ].
  destruct (String.eqb_spec day k).
  - subst k. constructor; assumption.
  - constructor; assumption.
Qed.

Lemma store_day_new (P : string * DayState -> Prop) (daily : Daily)
  (day : string) (x d : DayState) :
  assoc day daily = None ->
  Forall P daily -> P (day, d) ->
  Forall P (store_day (daily ++ [(day, x)])%list day d).
Proof.
  intros Hn H Hd. induction daily as [ | [k v] daily IH]; cbn.
  - rewrite String.eqb_refl. constructor; [ exact Hd | constructor ].
  - cbn in Hn. destruct (String.eqb day k); [ discriminate | ].
    inversion H as [ | kv rest Hkv Hrest]; subst.
    constructor; [ exact Hkv | exact (IH Hn Hrest) ].
Qed.

Lemma ensure_keys_nodup (daily : Daily) (day : string) :
  NoDup (map fst daily) -> NoDup (map fst (_ensure_day_state daily day)).
Proof.
  intros H. unfold _ensure_day_state.
  destruct (assoc day daily) eqn:E; [ exact H | ].
  apply assoc_none_notin in E.
  rewrite map_app. cbn. apply nodup_snoc; assumption.
Qed.

Lemma day_of_ensure (daily : Daily) (day : string) :
  day_of (_ensure_day_state daily day) day = day_of daily day.
Proof. unfold day_of at 1. rewrite assoc_ensure. reflexivity. Qed.

Lemma day_of_inv (daily : Daily) (day : string) :
  daily_ok daily -> inv day 0 0 0 (day_of daily day).
Proof.
  intros [_ H]. unfold day_of.
  destruct (assoc day daily) as [d | ] eqn:E; [ | apply fresh_day_inv ].
  apply assoc_in in E. rewrite Forall_forall in H.
  destruct (H _ E) as [Hk Hc]. split; [ exact Hk | ].
  revert Hc. apply counts_ok_weaken; lia.
Qed.

(** What [merge_record] does to the dict, for a record that names a day:
    lines 206-244 run on that day, and the result is stored under it. *)
Lemma merge_record_on_day (rec : pyval) (daily : Daily) (day : string) :
  record_day rec = Some day ->
  merge_record rec daily =
  (store_day (_ensure_day_state daily day) day
     (fst (merge_into rec (day_of daily day))),
   snd (merge_into rec (day_of daily day))).
Proof.
  unfold record_day, merge_record.
  destruct (py_get rec "timestamp") as [[ | | | | s | | ] | e]; try discriminate.
  cbn [truthy]. destruct (String.eqb s ""); [ discriminate | ].
  intros [= <-]. cbn [negb]. rewrite day_of_ensure.
  destruct (merge_into rec (day_of daily (before_T s))); reflexivity.
Qed.

(** A record that names no day leaves the dict as it was. *)
Lemma merge_record_no_day (rec : pyval) (daily : Daily) :
  record_day rec = None -> fst (merge_record rec daily) = daily.
Proof.
  unfold record_day, merge_record.
  destruct (py_get rec "timestamp") as [ts | e]; [ | reflexivity ].
  destruct (truthy ts) eqn:Ht; cbn [negb]; [ | reflexivity ].
  destruct ts; try reflexivity.
  cbn in Ht. destruct (String.eqb s ""); discriminate.
Qed.

Lemma merge_record_ok (rec : pyval) (daily : Daily) :
  daily_ok daily -> daily_ok (fst (merge_record rec daily)).
Proof.
  intros H. destruct (record_day rec) as [day | ] eqn:E.
  2:{ rewrite (merge_record_no_day _ _ E). exact H. }
  rewrite (merge_record_on_day _ _ _ E). cbn [fst].
  pose proof (merge_into_inv day rec _ (day_of_inv daily day H)) as Hd.
  destruct H as [Hnd Hall]. split.
  - rewrite store_day_keys. apply ensure_keys_nodup, Hnd.
  - unfold _ensure_day_state.
    destruct (assoc day daily) eqn:Ha.
    + apply store_day_forall; [ exact Hall | exact Hd ].
    + apply store_day_new; [ exact Ha | exact Hall | exact Hd ].
Qed.

Lemma feed_ok (records : list pyval) (daily : Daily) :
  daily_ok daily -> daily_ok (fst (feed records daily)).
Proof.
  revert daily. induction records as [ | rec rest IH]; intros daily H; [ exact H | ].
  cbn [feed]. pose proof (merge_record_ok rec daily H) as H1.
  destruct (merge_record rec daily) as [daily1 [e | ]]; cbn in *;
    [ exact H1 | apply IH, H1 ].
Qed.

Lemma merge_lines_ok (lines : list string) (daily : Daily) :
  daily_ok daily -> daily_ok (fst (fst (merge_lines lines daily))).
Proof. intros H. rewrite merge_lines_feed. apply feed_ok, H. Qed.

(** ** Every snapshot is well-formed *)

Lemma mapM_forall2 {A B : Type} (f : A -> result B) (l : list A) (rs : list B) :
  mapM f l = Ok rs -> Forall2 (fun a r => f a = Ok r) l rs.
Proof.
  revert rs. induction l as [ | a l IH]; cbn; intros rs.
  - intros [= <-]. constructor.
  - destruct (f a) as [b | e] eqn:Ea; cbn; [ | discriminate ].
    destruct (mapM f l) as [bs | e]; cbn; [ | discriminate ].
    intros [= <-]. constructor; [ exact Ea | apply IH; reflexivity ].
Qed.

Lemma sorted_map {A : Type} (R : string -> string -> Prop) (key : A -> string)
  (l : list A) :
  Sorted (fun a b => R (key a) (key b)) l -> Sorted R (map key l).
Proof.
  induction 1 as [ | x l Hs IH Hd]; cbn; constructor; [ exact IH | ].
  destruct Hd; cbn; constructor. assumption.
Qed.

(** Sorting strings without duplicates gives a strictly ascending list. *)
Lemma sort_by_ascending {A : Type} (key : A -> string) (l : list A) :
  NoDup (map key l) -> ascending (map key (sort_by key l)).
Proof.
  intros H. apply sorted_map. apply sorted_strict; [ | apply sort_by_sorted ].
  apply (Permutation_NoDup (l := map key l)); [ | exact H ].
  apply Permutation_map, Permutation_sym, sort_by_perm.
Qed.

Lemma sorted_ascending (l : list string) : NoDup l -> ascending (sorted l).
Proof.
  intros H. unfold sorted.
  rewrite <- (map_id (sort_by (fun s => s) l)).
  apply (sort_by_ascending (fun s : string => s)). rewrite map_id. exact H.
Qed.

(** What a rendered row copies from its day. *)
Lemma summarize_day_fields (day : string) (d : DayState) (row : Summary.t) :
  summarize_day day d = Ok row ->
  Summary.date row = day /\
  Summary.total_probes row = total_probes d /\
  Summary.good_probes row = good_probes d /\
  Summary.degraded_probes row = degraded_probes d /\
  Summary.down_probes row = down_probes d /\
  Summary.min_rtt_ms row = rtt_min d /\
  Summary.max_rtt_ms row = rtt_max d /\
  Summary.targets row = sorted (targets d) /\
  Summary.public_ips row = sorted (public_ips d) /\
  (Summary.avg_rtt_ms row = None <-> rtt_count d <= 0).
Proof.
  unfold summarize_day.
  destruct (if 0 <? total_probes d then _ else _) as [u | ]; [ | discriminate ].
  destruct (if 0 <? loss_count d then _ else _) as [al | ]; [ | discriminate ].
  cbn. destruct (Z.ltb_spec 0 (rtt_count d)).
  - destruct (float_of_int (rtt_count d)) as [n | ]; [ | discriminate ].
    cbn. intros [= <-]. cbn. repeat split; try discriminate; lia.
  - cbn. intros [= <-]. cbn. repeat split; try reflexivity; lia.
Qed.

Lemma summarize_day_ok (day : string) (d : DayState) (row : Summary.t) :
  day_ok day d -> summarize_day day d = Ok row -> row_ok row.
Proof.
  intros [_ H] Hrow.
  destruct (summarize_day_fields _ _ _ Hrow)
    as (_ & Ht & Hg & Hdg & Hdn & Hmin & Hmax & Htg & Hip & Havg).
  unfold counts_ok in H. unfold row_ok.
  rewrite Ht, Hg, Hdg, Hdn, Hmin, Hmax, Htg, Hip, Havg.
  destruct H as (H1 & H2 & H3 & H4 & H5 & H6 & H7 & H8 & H9 & H10 & H11 & H12).
  repeat split; try lia; try (apply sorted_ascending; assumption).
  - intros E. apply H9. lia.
  - intros E. apply H9 in E. lia.
  - intros E. apply H10. lia.
  - intros E. apply H10 in E. lia.
Qed.

Lemma forall2_rows (daily : Daily) (rows : list Summary.t) :
  Forall (fun kv => day_ok (fst kv) (snd kv)) daily ->
  Forall2 (fun kv row => summarize_day (fst kv) (snd kv) = Ok row) daily rows ->
  map Summary.date rows = map fst daily /\ Forall row_ok rows.
Proof.
  intros Hall H. induction H as [ | [k d] row daily rows Hrow _ IH]; cbn.
  - split; [ reflexivity | constructor ].
  - inversion Hall as [ | kv rest Hkd Hrest]; subst.
    destruct (IH Hrest) as [Hd Hr]. cbn in *.
    destruct (summarize_day_fields _ _ _ Hrow) as (Hdate & _).
    split; [ rewrite Hdate, Hd; reflexivity | ].
    constructor; [ exact (summarize_day_ok _ _ _ Hkd Hrow) | exact Hr ].
Qed.

(** The snapshot of a well-formed dict: one row for each day of the dict,
    in strictly ascending order of the dates, each row well-formed. *)
Lemma summaries_ok (daily : Daily) (rows : list Summary.t) :
  daily_ok daily -> _summaries_from_state daily = Ok rows ->
  snapshot_ok rows /\ Permutation (map Summary.date rows) (map fst daily).
Proof.
  intros [Hnd Hall]. unfold _summaries_from_state.
  destruct (mapM _ daily) as [rows0 | e] eqn:Hm; cbn; [ | discriminate ].
  intros [= <-]. apply mapM_forall2 in Hm.
  destruct (forall2_rows _ _ Hall Hm) as [Hd Hr].
  repeat split.
  - apply sort_by_ascending. rewrite Hd. exact Hnd.
  - rewrite Forall_forall in *. intros row Hin. apply Hr.
    apply (Permutation_in _ (sort_by_perm Summary.date rows0)). exact Hin.
  - rewrite <- Hd. apply Permutation_map, sort_by_perm.
Qed.

Lemma empty_cache_ok : cache_ok empty_cache.
Proof.
  repeat split; cbn; constructor.
Qed.

(** The rotation check leaves a cache that is not beyond the file. *)
Lemma after_rotation_check (stat : File) (c : Cache) :
  cache_ok c ->
  let c' := if rotated stat c then reset_summary_cache c else c in
  cache_ok c' /\ (position c' <= st_size stat)%nat.
Proof.
  intros H. cbn zeta. unfold rotated.
  destruct (inode_is (inode c) (st_ino stat)); cbn [negb orb].
  - destruct (Nat.ltb_spec (st_size stat) (size c)).
    + split; [ apply empty_cache_ok | cbn; lia ].
    + split; [ exact H | ]. destruct H as [Hp _]. lia.
  - split; [ apply empty_cache_ok | cbn; lia ].
Qed.

Lemma reuse_or_rebuild_ok (now : float) (stat : File) (c : Cache) :
  cache_ok c -> (position c <= st_size stat)%nat ->
  let o := reuse_or_rebuild now stat c in
  cache_ok (cache_after o) /\
  (forall rows, returned o = Ok rows ->
     snapshot_ok rows /\ position (cache_after o) = st_size stat).
Proof.
  intros (Hp & Hd & Hs) Hle. cbn zeta. unfold reuse_or_rebuild.
  destruct (cache_hit stat c) eqn:Hit.
  - cbn. split; [ unfold cache_ok; cbn; auto | ].
    intros rows [= <-]. split; [ exact Hs | ].
    unfold cache_hit in Hit.
    apply andb_true_iff in Hit as [Hit _].
    apply andb_true_iff in Hit as [_ Hit].
    apply Nat.eqb_eq in Hit. exact Hit.
  - pose proof (merge_lines_ok
                  (map fst (readlines_from (position c)
                              (drop (position c) (content stat))))
                  (daily_state c) Hd) as Hd'.
    destruct (merge_lines _ (daily_state c)) as [[daily [e | ]] seen];
      cbn -[Nat.max] in *.
    + split; [ unfold cache_ok; cbn; auto | discriminate ].
    + rewrite Nat.max_r by exact Hle.
      destruct (_summaries_from_state daily) as [rows | e] eqn:Hrows;
        cbn.
      * destruct (summaries_ok _ _ Hd' Hrows) as [Hok _].
        split; [ unfold cache_ok; cbn; auto | ].
        intros rows' [= <-]. split; [ exact Hok | reflexivity ].
      * split; [ unfold cache_ok; cbn; auto | discriminate ].
Qed.

Lemma build_ok (now : float) (fs : option File) (c : Cache) :
  cache_ok c ->
  let o := build_daily_summary_from_file now fs c in
  cache_ok (cache_after o) /\
  (forall rows, returned o = Ok rows ->
     snapshot_ok rows /\
     forall stat, fs = Some stat -> position (cache_after o) = st_size stat).
Proof.
  intros H. cbn zeta. destruct fs as [stat | ]; cbn [build_daily_summary_from_file].
  - destruct (after_rotation_check stat c H) as [Hc' Hle].
    destruct (reuse_or_rebuild_ok now stat _ Hc' Hle) as [Hc Hr].
    split; [ exact Hc | ].
    intros rows Hrows. destruct (Hr rows Hrows) as [Hok Hpos].
    split; [ exact Hok | ]. intros stat' [= <-]. exact Hpos.
  - cbn. split; [ apply empty_cache_ok | ].
    intros rows [= <-]. split; [ | discriminate ].
    split; cbn; constructor.
Qed.

Lemma reachable_ok (c : Cache) : reachable c -> cache_ok c.
Proof.
  induction 1 as [ | now fs c _ IH | c _ _ ].
  - apply empty_cache_ok.
  - apply (build_ok now fs c IH).
  - apply empty_cache_ok.
Qed.

(** X6.  Whatever happened to the log before (growth, rotation, deletion,
    lines that are not JSON, records that made a call raise) and however
    often the cache was reset, a snapshot that [/daily] returns has its
    rows in strictly ascending order of their dates, so no date twice, and
    in every row: at least one probe; good, degraded and down counts that
    are not negative and add up to no more than the probes; an average RTT
    exactly when there is a minimum and a maximum; and targets and public
    IPs in strictly ascending order. *)
Theorem every_snapshot_well_formed (now : float) (fs : option File) (c : Cache)
  (rows : list Summary.t) :
  reachable c ->
  returned (build_daily_summary_from_file now fs c) = Ok rows ->
  ascending (map Summary.date rows) /\ Forall row_ok rows.
Proof.
  intros Hc Hrows.
  destruct (build_ok now fs c (reachable_ok c Hc)) as [_ H].
  destruct (H rows Hrows) as [Hok _]. exact Hok.
Qed.

(** ** The stored position and the stored size *)

(** The stored size is never ahead of the stored position. *)
Lemma reuse_or_rebuild_appended_size (now : float) (stat : File)
  (appended : string) (c : Cache) :
  (size c <= position c)%nat ->
  let o := reuse_or_rebuild_appended now stat appended c in
  (size (cache_after o) <= position (cache_after o))%nat.
Proof.
  intros Hc. unfold reuse_or_rebuild_appended.
  destruct (cache_hit stat c); [ exact Hc | ].
  destruct (merge_lines _ _) as [[daily [e | ]] seen]; [ exact Hc | ].
  cbn [tell handle_after_loop telling tell_offset].
  destruct (_summaries_from_state daily); cbn;
    unfold st_size; rewrite length_append; lia.
Qed.

Lemma build_appended_size (now : float) (fs : option File) (appended : string)
  (c : Cache) :
  (size c <= position c)%nat ->
  let o := build_daily_summary_appended now fs appended c in
  (size (cache_after o) <= position (cache_after o))%nat.
Proof.
  intros Hc. destruct fs as [stat | ]; [ | cbn; lia ].
  cbn [build_daily_summary_appended].
  apply reuse_or_rebuild_appended_size.
  destruct (rotated stat c); [ cbn; lia | exact Hc ].
Qed.

Lemma reachable_appended_size (c : Cache) :
  reachable_appended c -> (size c <= position c)%nat.
Proof.
  induction 1 as [ | now fs appended c _ IH | c _ _ ].
  - cbn. lia.
  - apply build_appended_size. exact IH.
  - cbn. lia.
Qed.

(** Nothing appended during the call: the call of the earlier sections. *)
Lemma appended_nothing (now : float) (fs : option File) (c : Cache) :
  build_daily_summary_appended now fs "" c
  = build_daily_summary_from_file now fs c.
Proof.
  destruct fs as [stat | ]; [ | reflexivity ].
  unfold build_daily_summary_appended, build_daily_summary_from_file,
    reuse_or_rebuild_appended, reuse_or_rebuild.
  rewrite append_empty_r. reflexivity.
Qed.

(** X7.  The stored size is the one [os.stat] saw before the file was opened,
    the stored position is [f.tell()] after it was read to its end; the
    writer may append in between (a file that is cut or replaced during a
    call is not considered).  In every cache the server can then be in,
    the size is not ahead of the position.  A call that opens the file and
    returns stores the size [os.stat] saw, has read every line from its
    starting offset (0 after a rotation, the stored position otherwise) to
    the end of the longer text, and stores that end as the position, ahead
    of the stored size by what was appended; when the starting offset was
    already past that end, the position stays at the starting offset.  With
    nothing appended the call is [build_daily_summary_from_file] as
    modelled for the other properties. *)
Theorem position_covers_size (now : float) (stat : File) (appended : string)
  (c : Cache) :
  reachable_appended c ->
  let o := build_daily_summary_appended now (Some stat) appended c in
  let start := if rotated stat c then 0%nat else position c in
  (size c <= position c)%nat /\
  (size (cache_after o) <= position (cache_after o))%nat /\
  (is_ok (returned o) = true -> opened o = true ->
   size (cache_after o) = st_size stat /\
   position (cache_after o)
   = Nat.max start (st_size stat + String.length appended) /\
   consumed o = readlines (drop start (content stat ++ appended))) /\
  (appended = "" -> o = build_daily_summary_from_file now (Some stat) c).
Proof.
  intros Hc o start. pose proof (reachable_appended_size c Hc) as Hle.
  split; [ exact Hle | ].
  split; [ apply build_appended_size; exact Hle | ].
  split; [ | intros ->; apply appended_nothing ].
  assert (E : start = position (if rotated stat c then reset_summary_cache c
                                else c)).
  { unfold start. destruct (rotated stat c); reflexivity. }
  unfold o. cbn [build_daily_summary_appended]. rewrite E.
  generalize (if rotated stat c then reset_summary_cache c else c).
  intros c'. unfold reuse_or_rebuild_appended.
  destruct (cache_hit stat c'); [ cbn; discriminate | ].
  destruct (merge_lines _ _) as [[daily [e | ]] seen] eqn:Hm;
    [ cbn; discriminate | ].
  cbn [tell handle_after_loop telling tell_offset].
  destruct (_summaries_from_state daily) as [rows | e]; [ | cbn; discriminate ].
  cbn. intros _ _.
  split; [ reflexivity | ].
  split; [ unfold st_size; rewrite length_append; reflexivity | ].
  rewrite (merge_lines_seen _ _ _ _ Hm). apply readlines_at.
Qed.

(** ** Probes are counted once for each record *)

Lemma hoare_total_probes (n : Z) (rec : pyval) :
  hoare (fun d => total_probes d = n) (merge_into rec)
    (fun d => total_probes d = n + 1).
Proof.
  unfold merge_into.
  apply hoare_seq with (Q := fun d => total_probes d = n + 1);
    [ intros d H; cbn; lia | | auto ].
  apply hoare_seq with (Q := fun d => total_probes d = n + 1); [ | | auto ].
  { intros d H. unfold add_sent, try_, assign, done.
    destruct (is_number _); [ destruct (py_int _) | ]; exact H. }
  apply hoare_seq with (Q := fun d => total_probes d = n + 1); [ | | auto ].
  { intros d H. unfold add_received, try_, assign, done.
    destruct (is_number _); [ destruct (py_int _) | ]; exact H. }
  apply hoare_seq with (Q := fun d => total_probes d = n + 1); [ | | auto ].
  { intros d H. unfold add_loss, try_, assign, done, seq.
    destruct (is_number _); [ destruct (py_float _) | ]; try exact H.
    destruct (num_eqb _ 0); [ | destruct (num_eqb _ 100) ]; exact H. }
  apply hoare_seq with (Q := fun d => total_probes d = n + 1); [ | | auto ].
  { intros d H. unfold add_rtt, try_, assign, done, seq.
    destruct (rtt_value _) as [[v | ] | e]; try exact H.
    cbn. destruct (below v (rtt_min d)); cbn;
      destruct (above v _); exact H. }
  apply hoare_seq with (Q := fun d => total_probes d = n + 1); [ | | auto ].
  { intros d H. unfold add_target, assign, done.
    destruct (truthy _); exact H. }
  intros d H. unfold add_public_ip, assign, done.
  destruct (truthy _); exact H.
Qed.

Lemma day_of_store_other (daily : Daily) (day k : string) (d : DayState) :
  k <> day ->
  day_of (store_day (_ensure_day_state daily day) day d) k = day_of daily k.
Proof.
  intros Hk. unfold day_of. rewrite (assoc_store_other _ _ _ _ Hk).
  unfold _ensure_day_state.
  destruct (assoc day daily); [ reflexivity | ].
  rewrite assoc_app. destruct (assoc k daily); [ reflexivity | ].
  cbn. destruct (String.eqb_spec k day); [ contradiction | reflexivity ].
Qed.

Lemma day_of_store_same (daily : Daily) (day : string) (d : DayState) :
  day_of (store_day (_ensure_day_state daily day) day d) day = d.
Proof.
  unfold day_of. rewrite (assoc_store_day _ _ _ _ (assoc_ensure daily day)).
  reflexivity.
Qed.

(** One record adds one probe to the day it names, and nothing to any other
    day, whether the loop body completes or raises. *)
Lemma merge_record_count (rec : pyval) (daily : Daily) (day : string) :
  total_probes (day_of (fst (merge_record rec daily)) day) =
  total_probes (day_of daily day) + count_day day [rec].
Proof.
  unfold count_day. cbn [filter].
  destruct (record_day rec) as [k | ] eqn:E.
  2:{ rewrite (merge_record_no_day _ _ E). cbn. lia. }
  rewrite (merge_record_on_day _ _ _ E). cbn [fst].
  destruct (String.eqb_spec k day) as [-> | Hne].
  - rewrite day_of_store_same.
    rewrite (hoare_total_probes (total_probes (day_of daily day)) rec
               (day_of daily day) eq_refl).
    cbn. lia.
  - rewrite day_of_store_other by congruence. cbn. lia.
Qed.

Lemma count_day_cons (day : string) (rec : pyval) (records : list pyval) :
  count_day day (rec :: records) = count_day day [rec] + count_day day records.
Proof.
  unfold count_day. cbn [filter].
  destruct (match record_day rec with Some k => String.eqb k day | None => false end);
    cbn [List.length]; lia.
Qed.

Lemma merge_lines_count (lines : list string) (daily : Daily) (day : string) :
  total_probes (day_of (fst (fst (merge_lines lines daily))) day) =
  total_probes (day_of daily day)
  + count_day day (records_of (snd (merge_lines lines daily))).
Proof.
  revert daily. induction lines as [ | raw rest IH]; intros daily.
  - cbn. lia.
  - cbn [merge_lines].
    destruct (decode_line raw) as [rec | ] eqn:Hd.
    + pose proof (merge_record_count rec daily day) as Hc.
      destruct (merge_record rec daily) as [daily1 [e | ]]; cbn [fst snd] in *.
      * cbn [records_of]. rewrite Hd. cbn [records_of]. exact Hc.
      * specialize (IH daily1).
        destruct (merge_lines rest daily1) as [[daily' exc] seen].
        cbn [fst snd] in *. cbn [records_of]. rewrite Hd.
        rewrite count_day_cons. lia.
    + specialize (IH daily).
      destruct (merge_lines rest daily) as [[daily' exc] seen].
      cbn [fst snd] in *. cbn [records_of]. rewrite Hd. exact IH.
Qed.

(** What a call adds to the probes of a day. *)
Lemma build_counts (now : float) (stat : File) (c : Cache) (day : string) :
  let o := build_daily_summary_from_file now (Some stat) c in
  total_probes (day_of (daily_state (cache_after o)) day) =
  (if rotated stat c then 0 else total_probes (day_of (daily_state c) day))
  + count_day day (records_of (consumed o)).
Proof.
  cbn zeta. cbn [build_daily_summary_from_file].
  assert (E : (if rotated stat c then 0
               else total_probes (day_of (daily_state c) day)) =
              total_probes
                (day_of (daily_state (if rotated stat c
                                      then reset_summary_cache c else c)) day)).
  { destruct (rotated stat c); reflexivity. }
  rewrite E. generalize (if rotated stat c then reset_summary_cache c else c).
  intros c'. unfold reuse_or_rebuild.
  destruct (cache_hit stat c'); [ cbn; lia | ].
  pose proof (merge_lines_count
                (map fst (readlines_from (position c')
                            (drop (position c') (content stat))))
                (daily_state c') day) as H.
  destruct (merge_lines _ (daily_state c')) as [[daily [e | ]] seen];
    cbn [fst snd] in H; cbn -[Nat.max]; [ exact H | ].
  destruct (_summaries_from_state daily); cbn; exact H.
Qed.

(** X8.  A call adds to [total_probes] of every day exactly the number of
    records it read for that day, on top of what the cache held for the day
    (nothing after a rotation): each record it read counts once, the record
    that made the call raise included, and no other day is touched. *)
Theorem probes_count_records (now : float) (stat : File) (c : Cache)
  (day : string) :
  let o := build_daily_summary_from_file now (Some stat) c in
  total_probes (day_of (daily_state (cache_after o)) day) =
  (if rotated stat c then 0 else total_probes (day_of (daily_state c) day))
  + count_day day (records_of (consumed o)).
Proof. exact (build_counts now stat c day). Qed.

Lemma forall2_in_r {A B : Type} (R : A -> B -> Prop) (l : list A) (rs : list B)
  (r : B) :
  Forall2 R l rs -> In r rs -> exists a, In a l /\ R a r.
Proof.
  forget_runtime.
  induction 1 as [ | a b l rs Hab _ IH]; cbn; [ tauto | ].
  intros [<- | Hin].
  - exists a. split; [ left; reflexivity | exact Hab ].
  - destruct (IH Hin) as (a' & Ha & HR). exists a'. split; [ right | ]; assumption.
Qed.

(** The rows of a snapshot against the dict it was rendered from. *)
Lemma row_of_day (daily : Daily) (rows : list Summary.t) (day : string) :
  daily_ok daily -> _summaries_from_state daily = Ok rows ->
  match row_of day rows with
  | Some row =>
      Summary.date row = day /\
      Summary.total_probes row = total_probes (day_of daily day)
  | None => assoc day daily = None
  end.
Proof.
  intros Hok Hrows.
  destruct (summaries_ok _ _ Hok Hrows) as [_ Hperm].
  destruct Hok as [Hnd Hall].
  unfold _summaries_from_state in Hrows.
  destruct (mapM _ daily) as [rows0 | e] eqn:Hm; cbn in Hrows; [ | discriminate ].
  injection Hrows as <-. apply mapM_forall2 in Hm.
  unfold row_of.
  destruct (find _ (sort_by Summary.date rows0)) as [row | ] eqn:Hf.
  - apply find_some in Hf as [Hin Hdate].
    apply String.eqb_eq in Hdate.
    apply (Permutation_in _ (sort_by_perm Summary.date rows0)) in Hin.
    destruct (forall2_in_r _ _ _ _ Hm Hin) as ([k d] & Hkd & Hrow).
    cbn in Hrow.
    destruct (summarize_day_fields _ _ _ Hrow) as (Hk & Ht & _).
    split; [ exact Hdate | ].
    rewrite Ht. unfold day_of.
    assert (Ek : k = day) by congruence. rewrite Ek in Hkd.
    rewrite (in_assoc _ _ _ Hnd Hkd). reflexivity.
  - destruct (assoc day daily) as [d | ] eqn:Ha; [ exfalso | reflexivity ].
    apply assoc_in in Ha. apply (in_map fst) in Ha. cbn in Ha.
    apply (Permutation_in _ (Permutation_sym Hperm)) in Ha.
    apply in_map_iff in Ha as (row & Hdate & Hin).
    pose proof (find_none _ _ Hf row Hin) as Hno. cbn in Hno.
    rewrite Hdate, String.eqb_refl in Hno. discriminate.
Qed.

(** X9.  The snapshot of a log read from its first byte has a row for a day
    exactly when the log has a record filed under that day, and the row's
    [total_probes] is the number of those records. *)
Theorem snapshot_counts_records (now : float) (stat : File)
  (rows : list Summary.t) (day : string) :
  returned (build_daily_summary_from_file now (Some stat) empty_cache) = Ok rows ->
  match row_of day rows with
  | Some row =>
      Summary.date row = day /\
      Summary.total_probes row
      = count_day day (records_of (readlines (content stat))) /\
      1 <= count_day day (records_of (readlines (content stat)))
  | None => count_day day (records_of (readlines (content stat))) = 0
  end.
Proof.
  intros Hrows.
  pose proof (build_counts now stat empty_cache day) as Hcount.
  cbn zeta in Hcount.
  destruct (build_from_empty now stat) as (_ & Hcons & Hdaily & Hret).
  cbn zeta in Hcons, Hdaily, Hret.
  rewrite Hrows in Hret.
  destruct (merge_lines (readlines (content stat)) []) as [[daily exc] seen] eqn:Hm.
  cbn [fst snd] in *.
  destruct exc as [e | ]; [ discriminate | ].
  rewrite (merge_lines_seen _ _ _ _ Hm) in Hcons.
  rewrite Hcons, Hdaily in Hcount.
  replace (if rotated stat empty_cache then 0
           else total_probes (day_of (daily_state empty_cache) day))
    with 0 in Hcount by (destruct (rotated stat empty_cache); reflexivity).
  assert (Hok : daily_ok daily).
  { pose proof (merge_lines_ok (readlines (content stat)) []
                  (proj1 (proj2 empty_cache_ok))) as H.
    rewrite Hm in H. exact H. }
  pose proof (row_of_day daily rows day Hok (eq_sym Hret)) as Hrow.
  destruct (row_of day rows) as [row | ] eqn:Hf.
  - destruct Hrow as [Hdate Ht]. split; [ exact Hdate | ].
    split; [ lia | ].
    destruct (build_ok now (Some stat) empty_cache empty_cache_ok) as [_ Hb].
    destruct (Hb rows Hrows) as [[_ Hall] _].
    rewrite Forall_forall in Hall.
    unfold row_of in Hf. apply find_some in Hf as [Hin _].
    destruct (Hall row Hin) as (H1 & _). lia.
  - unfold day_of in Hcount. rewrite Hrow in Hcount. cbn in Hcount. lia.
Qed.

(** ** A record that makes the loop raise *)

Lemma seq_exc (a b : Update) :
  (forall d d', snd (a d) = snd (a d')) ->
  (forall d d', snd (b d) = snd (b d')) ->
  forall d d', snd (seq a b d) = snd (seq a b d').
Proof.
  intros Ha Hb d d'. unfold seq. specialize (Ha d d').
  destruct (a d) as [d1 [e | ]], (a d') as [d1' [e' | ]]; cbn in *;
    try congruence.
  apply Hb.
Qed.

(** Whether lines 206-244 raise, and what, is decided by the record alone. *)
Lemma merge_into_exc (rec : pyval) (d d' : DayState) :
  snd (merge_into rec d) = snd (merge_into rec d').
Proof.
  revert d d'. unfold merge_into.
  apply seq_exc; [ reflexivity | ].
  apply seq_exc.
  { intros d d'. unfold add_sent, try_, assign, done.
    destruct (is_number _); [ destruct (py_int _) | ]; reflexivity. }
  apply seq_exc.
  { intros d d'. unfold add_received, try_, assign, done.
    destruct (is_number _); [ destruct (py_int _) | ]; reflexivity. }
  apply seq_exc.
  { intros d d'. unfold add_loss, try_, assign, done, seq.
    destruct (is_number _); [ destruct (py_float _) | ]; try reflexivity.
    destruct (num_eqb _ 0); [ | destruct (num_eqb _ 100) ]; reflexivity. }
  apply seq_exc.
  { intros d d'. unfold add_rtt, try_, assign, done, seq.
    destruct (rtt_value _) as [[v | ] | e]; reflexivity. }
  apply seq_exc.
  { intros d d'. unfold add_target, assign, done.
    destruct (truthy _); reflexivity. }
  intros d d'. unfold add_public_ip, assign, done.
  destruct (truthy _); reflexivity.
Qed.

Lemma merge_record_exc (rec : pyval) (daily daily' : Daily) :
  snd (merge_record rec daily) = snd (merge_record rec daily').
Proof.
  destruct (record_day rec) as [day | ] eqn:E.
  - rewrite !(merge_record_on_day _ _ _ E). cbn [snd]. apply merge_into_exc.
  - unfold record_day, merge_record in *.
    destruct (py_get rec "timestamp") as [ts | e]; [ | reflexivity ].
    destruct (truthy ts) eqn:Ht; cbn [negb]; [ | reflexivity ].
    destruct ts; try reflexivity.
    cbn in Ht. destruct (String.eqb s ""); discriminate.
Qed.

(** Where the loop stops, and by which exception, is decided by the lines
    alone. *)
Lemma merge_lines_exc (lines : list string) (daily daily' : Daily) :
  snd (fst (merge_lines lines daily)) = snd (fst (merge_lines lines daily')) /\
  snd (merge_lines lines daily) = snd (merge_lines lines daily').
Proof.
  revert daily daily'. induction lines as [ | raw rest IH]; intros daily daily'.
  - split; reflexivity.
  - cbn [merge_lines]. destruct (decode_line raw) as [rec | ].
    + pose proof (merge_record_exc rec daily daily') as He.
      destruct (merge_record rec daily) as [d1 [e | ]],
               (merge_record rec daily') as [d1' [e' | ]]; cbn in He;
        try discriminate.
      * injection He as <-. split; reflexivity.
      * specialize (IH d1 d1').
        destruct (merge_lines rest d1) as [[x exc] seen],
                 (merge_lines rest d1') as [[x' exc'] seen'].
        cbn in *. destruct IH as [-> ->]. split; reflexivity.
    + specialize (IH daily daily').
      destruct (merge_lines rest daily) as [[x exc] seen],
               (merge_lines rest daily') as [[x' exc'] seen'].
      cbn in *. destruct IH as [-> ->]. split; reflexivity.
Qed.

(** A call that raised before the end of the file read the file and was
    stopped by a record; the cache keeps what the rotation check left,
    except for the dict. *)
Lemma raised_in_loop (now : float) (stat : File) (c : Cache) (e : pyexc) :
  returned (reuse_or_rebuild now stat c) = Raise e ->
  (position (cache_after (reuse_or_rebuild now stat c)) < st_size stat)%nat ->
  cache_hit stat c = false /\
  exists daily seen,
    merge_lines (map fst (readlines_from (position c)
                            (drop (position c) (content stat))))
      (daily_state c) = (daily, Some e, seen) /\
    reuse_or_rebuild now stat c =
    mkOutcome (mkCache daily (summary c) (position c) (inode c) (size c)
                 (build_ts c)) (Raise e) true seen.
Proof.
  unfold reuse_or_rebuild.
  destruct (cache_hit stat c); [ discriminate | ].
  destruct (merge_lines _ (daily_state c)) as [[daily [e' | ]] seen];
    cbn -[Nat.max].
  - intros [= ->] _. split; [ reflexivity | ].
    exists daily, seen. split; reflexivity.
  - destruct (_summaries_from_state daily); cbn -[Nat.max];
      [ discriminate | ].
    intros _ H. lia.
Qed.

(** X10.  A record that makes the loop raise blocks [/daily] for as long as
    the file stays as it is: the call leaves the position where it was, so
    the next call reads the same lines, raises the same exception and
    serves no snapshot.  When the cache already identified the file, the
    records in front of the offending one are counted a second time on top
    of the first; otherwise the dict is rebuilt from nothing. *)
Theorem failed_read_repeats (now1 now2 : float) (stat : File) (c : Cache)
  (e : pyexc) :
  let o1 := build_daily_summary_from_file now1 (Some stat) c in
  let o2 := build_daily_summary_from_file now2 (Some stat) (cache_after o1) in
  returned o1 = Raise e ->
  (position (cache_after o1) < st_size stat)%nat ->
  returned o2 = Raise e /\
  consumed o2 = consumed o1 /\
  position (cache_after o2) = position (cache_after o1) /\
  summary (cache_after o2) = summary (cache_after o1) /\
  forall day,
    total_probes (day_of (daily_state (cache_after o2)) day) =
    (if inode_is (inode (cache_after o1)) (st_ino stat)
     then total_probes (day_of (daily_state (cache_after o1)) day)
     else 0)
    + count_day day (records_of (consumed o1)).
Proof.
  intros o1 o2 Hret Hpos.
  assert (Hcount := fun day => build_counts now2 stat (cache_after o1) day).
  cbn zeta in Hcount. fold o2 in Hcount.
  unfold o2 in *. unfold o1 in *. clear o1 o2.
  cbn [build_daily_summary_from_file] in *.
  destruct (rotated stat c) eqn:Hrot.
  - (* the first call started from nothing: so does the second *)
    destruct (raised_in_loop _ _ _ _ Hret Hpos) as (Hit & daily & seen & Hm & Ho).
    rewrite Ho in *. cbn [cache_after returned consumed position summary
                          daily_state inode] in *.
    assert (R : rotated stat
                  (mkCache daily (summary (reset_summary_cache c))
                     (position (reset_summary_cache c))
                     (inode (reset_summary_cache c))
                     (size (reset_summary_cache c))
                     (build_ts (reset_summary_cache c))) = true)
      by reflexivity.
    rewrite R in *. clear Ho.
    change (reset_summary_cache _) with (reset_summary_cache c) in *.
    unfold reuse_or_rebuild in Hcount |- *.
    rewrite Hit, Hm in Hcount. rewrite Hit, Hm.
    cbn [cache_after returned consumed position summary daily_state inode]
      in *.
    repeat split. intros day. rewrite (Hcount day). reflexivity.
  - destruct (raised_in_loop _ _ _ _ Hret Hpos) as (Hit & daily & seen & Hm & Ho).
    rewrite Ho in *. cbn [cache_after returned consumed position summary
                          daily_state inode] in *.
    assert (R : rotated stat
                  (mkCache daily (summary c) (position c) (inode c) (size c)
                     (build_ts c)) = false) by exact Hrot.
    rewrite R in *.
    assert (Hi : inode_is (inode c) (st_ino stat) = true).
    { unfold rotated in Hrot. destruct (inode_is _ _); [ reflexivity | discriminate ]. }
    rewrite Hi.
    unfold reuse_or_rebuild in Hcount |- *.
    assert (Hit2 : cache_hit stat
                     (mkCache daily (summary c) (position c) (inode c) (size c)
                        (build_ts c)) = false) by exact Hit.
    rewrite Hit2 in *.
    cbn [cache_after returned consumed position summary daily_state inode]
      in *.
    destruct (merge_lines_exc
                (map fst (readlines_from (position c)
                            (drop (position c) (content stat))))
                (daily_state c) daily) as [Hexc Hseen].
    rewrite Hm in Hexc, Hseen. cbn [fst snd] in Hexc, Hseen.
    destruct (merge_lines _ daily) as [[daily2 exc2] seen2].
    cbn [fst snd] in Hexc, Hseen. subst exc2 seen2.
    cbn [cache_after returned consumed position summary daily_state inode]
      in *.
    repeat split. exact Hcount.
Qed.

(** ** The day the daily sensors show *)

Lemma ascii_compare_lt_trans (a b c : ascii) :
  Ascii.compare a b = Lt -> Ascii.compare b c = Lt -> Ascii.compare a c = Lt.
Proof.
  unfold Ascii.compare. rewrite !N.compare_lt_iff. apply N.lt_trans.
Qed.

Lemma compare_lt_trans (s1 : string) :
  forall s2 s3, String.compare s1 s2 = Lt -> String.compare s2 s3 = Lt ->
                String.compare s1 s3 = Lt.
Proof.
  induction s1 as [ | a s1 IH]; intros [ | b s2] [ | c s3]; cbn;
    try discriminate; try reflexivity.
  destruct (Ascii.compare a b) eqn:Eab; try discriminate;
    destruct (Ascii.compare b c) eqn:Ebc; try discriminate; intros H1 H2.
  - apply Ascii.compare_eq_iff in Eab, Ebc. subst.
    assert (E : Ascii.compare c c = Eq) by (unfold Ascii.compare; apply N.compare_refl).
    rewrite E. exact (IH _ _ H1 H2).
  - apply Ascii.compare_eq_iff in Eab. subst. rewrite Ebc. reflexivity.
  - apply Ascii.compare_eq_iff in Ebc. subst. rewrite Eab. reflexivity.
  - rewrite (ascii_compare_lt_trans _ _ _ Eab Ebc). reflexivity.
Qed.

Lemma ltb_trans (s1 s2 s3 : string) :
  String.ltb s1 s2 = true -> String.ltb s2 s3 = true -> String.ltb s1 s3 = true.
Proof.
  unfold String.ltb.
  destruct (String.compare s1 s2) eqn:E12; try discriminate.
  destruct (String.compare s2 s3) eqn:E23; try discriminate.
  rewrite (compare_lt_trans _ _ _ E12 E23). reflexivity.
Qed.

Lemma last_default {A : Type} (l : list A) (a x y : A) :
  last (a :: l) x = last (a :: l) y.
Proof.
  revert a. induction l as [ | b l IH]; intros a; [ reflexivity | ].
  change (last (a :: b :: l) x) with (last (b :: l) x).
  change (last (a :: b :: l) y) with (last (b :: l) y). apply IH.
Qed.

Lemma last_cons_default {A : Type} (l : list A) (z x : A) :
  last (z :: l) x = last l z.
Proof. destruct l as [ | b l]; [ reflexivity | exact (last_default l b x z) ]. Qed.

(** In a strictly ascending list the last element is above all others. *)
Lemma ascending_last (x : string) (l : list string) :
  ascending (x :: l) ->
  forall y, In y (x :: l) -> y = last l x \/ String.ltb y (last l x) = true.
Proof.
  revert x. induction l as [ | z l IH]; intros x H y Hin.
  - cbn in *. destruct Hin as [<- | []]. left. reflexivity.
  - inversion H as [ | a m Hs Hd]; subst.
    inversion Hd as [ | b m' Hxz]; subst.
    rewrite (last_cons_default l z x).
    destruct Hin as [<- | Hin].
    + right. destruct (IH z Hs z (or_introl eq_refl)) as [Hz | Hz].
      * rewrite <- Hz. exact Hxz.
      * exact (ltb_trans _ _ _ Hxz Hz).
    + exact (IH z Hs y Hin).
Qed.

Lemma last_map {A B : Type} (f : A -> B) (l : list A) (x : A) :
  last (map f l) (f x) = f (last l x).
Proof.
  induction l as [ | a l IH]; [ reflexivity | ].
  cbn [map]. destruct l as [ | b l]; [ reflexivity | ].
  change (last (map f (a :: b :: l)) (f x)) with (last (map f (b :: l)) (f x)).
  change (last (a :: b :: l) x) with (last (b :: l) x). exact IH.
Qed.

Lemma last_in_cons {A : Type} (l : list A) (a : A) : In (last l a) (a :: l).
Proof.
  revert a. induction l as [ | b l IH]; intros a; [ left; reflexivity | ].
  right. destruct l as [ | c l]; [ left; reflexivity | ].
  change (last (b :: c :: l) a) with (last (c :: l) a).
  rewrite (last_default l c a b). apply (IH b).
Qed.

Lemma compare_refl (s : string) : String.compare s s = Eq.
Proof.
  induction s as [ | c s IH]; [ reflexivity | ]. cbn.
  assert (E : Ascii.compare c c = Eq) by (unfold Ascii.compare; apply N.compare_refl).
  rewrite E. exact IH.
Qed.

Lemma ascending_nodup (l : list string) : ascending l -> NoDup l.
Proof.
  intros H. apply Sorted_StronglySorted in H.
  2:{ intros a b c. apply ltb_trans. }
  induction H as [ | x l _ IH Hx]; constructor; [ | exact IH ].
  intros Hin. rewrite Forall_forall in Hx. specialize (Hx x Hin).
  unfold String.ltb in Hx. rewrite compare_refl in Hx. discriminate.
Qed.

Lemma nodup_map_inj {A : Type} (f : A -> string) (l : list A) (a b : A) :
  NoDup (map f l) -> In a l -> In b l -> f a = f b -> a = b.
Proof.
  forget_runtime.
  induction l as [ | x l IH]; cbn; [ tauto | ].
  intros Hnd Ha Hb E. inversion Hnd as [ | y ys Hnotin Hnd']; subst.
  destruct Ha as [-> | Ha], Hb as [-> | Hb]; try reflexivity.
  - exfalso. apply Hnotin. rewrite E. apply in_map. exact Hb.
  - exfalso. apply Hnotin. rewrite <- E. apply in_map. exact Ha.
  - exact (IH Hnd' Ha Hb E).
Qed.

(** X11.  The row the daily sensors of Home Assistant read, the last row of
    [/daily], is the row of the latest date: every other row of the
    snapshot has a date strictly below it.  There is such a row whenever
    the snapshot is not empty. *)
Theorem most_recent_day_is_latest (now : float) (fs : option File) (c : Cache)
  (rows : list Summary.t) :
  reachable c ->
  returned (build_daily_summary_from_file now fs c) = Ok rows ->
  match most_recent_day rows with
  | None => rows = []
  | Some r =>
      In r rows /\
      forall r', In r' rows ->
                 r' = r \/ String.ltb (Summary.date r') (Summary.date r) = true
  end.
Proof.
  intros Hc Hrows.
  destruct (build_ok now fs c (reachable_ok c Hc)) as [_ H].
  destruct (H rows Hrows) as [[Hasc _] _]. clear H Hrows.
  destruct rows as [ | r0 rest]; cbn [most_recent_day]; [ reflexivity | ].
  pose proof (last_in_cons rest r0) as Hlast.
  split; [ exact Hlast | ].
  intros r' Hin.
  pose proof (ascending_nodup _ Hasc) as Hnd.
  cbn [map] in Hasc.
  destruct (ascending_last _ _ Hasc (Summary.date r')
              (in_map Summary.date _ _ Hin)) as [E | E];
    rewrite (last_map Summary.date rest r0) in E.
  - left. exact (nodup_map_inj Summary.date _ _ _ Hnd Hin Hlast E).
  - right. exact E.
Qed.

(** ** The records of one day *)

Lemma on_day_key (day : string) (rec : pyval) (b : bool) :
  on_day day rec = Ok b -> b = String.prefix day (timestamp_key rec).
Proof.
  unfold on_day, timestamp_key, get.
  destruct (py_get rec "timestamp") as [v | e]; cbn [bind]; [ | discriminate ].
  unfold py_or. destruct v; cbn [truthy];
    try (destruct (negb _); [ discriminate | intros [= <-]; reflexivity ]);
    try (intros [= <-]; reflexivity).
  - destruct b0; [ discriminate | intros [= <-]; reflexivity ].
  - destruct (String.eqb_spec s ""); cbn [negb]; intros [= <-];
      [ subst s | ]; reflexivity.
  - destruct l; [ intros [= <-]; reflexivity | discriminate ].
  - destruct kvs; [ intros [= <-]; reflexivity | discriminate ].
Qed.


Lemma prefix_empty (day : string) : day <> "" -> String.prefix day "" = false.
Proof. destruct day; [ congruence | reflexivity ]. Qed.

(** A record the day page keeps has a text for a timestamp. *)
Lemma kept_has_timestamp (day : string) (rec : pyval) :
  day <> "" -> on_day day rec = Ok true ->
  py_get rec "timestamp" = Ok (PStr (timestamp_key rec)).
Proof.
  intros Hday H. pose proof (on_day_key _ _ _ H) as Hk.
  unfold on_day in H. unfold timestamp_key, get in *.
  destruct (py_get rec "timestamp") as [v | e]; [ | discriminate ].
  destruct v; try reflexivity;
    rewrite (prefix_empty _ Hday) in Hk; discriminate.
Qed.

(** The loop of [read_records_for_day] keeps, in file order, the records
    whose timestamp starts with the day. *)
Lemma scan_day_filter (day : string) (lines : list string)
  (records : list pyval) :
  scan_day day lines = Ok records ->
  records = filter (fun r => String.prefix day (timestamp_key r))
              (records_of lines) /\
  Forall (fun r => is_ok (on_day day r) = true) (records_of lines).
Proof.
  revert records. induction lines as [ | raw rest IH]; intros records.
  - cbn. intros [= <-]. split; [ reflexivity | constructor ].
  - cbn [scan_day records_of]. destruct (decode_line raw) as [rec | ]; [ | apply IH ].
    destruct (on_day day rec) as [keep | e] eqn:Hk; cbn [bind]; [ | discriminate ].
    destruct (scan_day day rest) as [rs | e]; cbn [bind]; [ | discriminate ].
    intros [= <-]. destruct (IH rs eq_refl) as [-> Hall].
    split.
    + cbn [filter]. rewrite <- (on_day_key _ _ _ Hk). reflexivity.
    + constructor; [ rewrite Hk; reflexivity | exact Hall ].
Qed.


(** X12.  For a day that is not empty, [read_records_for_day] returns the
    records of the log whose timestamp starts with the day: all of them and
    no other, each of them with a text for a timestamp, in ascending order
    of the timestamps, and in file order among records that carry the same
    timestamp. *)
Theorem day_records_sorted (day : string) (f : File) (records : list pyval) :
  day <> "" ->
  read_records_for_day day (Some f) = Ok records ->
  let wanted := filter (fun r => String.prefix day (timestamp_key r))
                  (records_of (readlines (content f))) in
  Permutation records wanted /\
  Sorted (fun a b => String.leb (timestamp_key a) (timestamp_key b) = true)
    records /\
  (forall ts, filter (fun r => String.eqb (timestamp_key r) ts) records
              = filter (fun r => String.eqb (timestamp_key r) ts) wanted) /\
  Forall (fun r => py_get r "timestamp" = Ok (PStr (timestamp_key r)) /\
                   String.prefix day (timestamp_key r) = true) records.
Proof.
  intros Hday. unfold read_records_for_day.
  destruct (String.eqb_spec day ""); [ contradiction | ].
  destruct (scan_day day (readlines (content f))) as [rs | e] eqn:Hs;
    cbn [bind]; [ | discriminate ].
  intros [= <-]. cbn zeta.
  destruct (scan_day_filter _ _ _ Hs) as [Hrs Hall]. rewrite <- Hrs.
  split; [ apply sort_by_perm | ].
  split; [ apply sort_by_sorted | ].
  split; [ intros ts; apply sort_by_stable | ].
  rewrite Forall_forall. intros r Hin.
  apply (Permutation_in _ (sort_by_perm timestamp_key rs)) in Hin.
  rewrite Hrs in Hin. apply filter_In in Hin as [Hin Hp].
  split; [ | exact Hp ].
  rewrite Forall_forall in Hall. specialize (Hall r Hin).
  destruct (on_day day r) as [b | e] eqn:Hb; [ | discriminate ].
  pose proof (on_day_key _ _ _ Hb) as Hk. rewrite Hp in Hk. subst b.
  exact (kept_has_timestamp _ _ Hday Hb).
Qed.


Lemma before_T_prefix (s : string) : String.prefix (before_T s) s = true.
Proof.
  induction s as [ | c s IH]; [ reflexivity | ]. cbn [before_T].
  destruct (Ascii.eqb c "T"); [ reflexivity | ].
  cbn. destruct (Ascii.ascii_dec c c); [ exact IH | contradiction ].
Qed.

Lemma filter_length_le {A : Type} (p q : A -> bool) (l : list A) :
  (forall a, p a = true -> q a = true) ->
  (List.length (filter p l) <= List.length (filter q l))%nat.
Proof.
  intros H. induction l as [ | a l IH]; cbn; [ lia | ].
  destruct (p a) eqn:Hp.
  - rewrite (H a Hp). cbn. lia.
  - destruct (q a); cbn; lia.
Qed.

(** X14.  The page of a day shows at least the records that the day's row
    of [/daily] counts: a record filed under a day has a timestamp that
    starts with the day.  (The page shows more when a timestamp goes on
    after the day with something else than a T.) *)
Theorem day_page_covers_row (day : string) (f : File) (records : list pyval) :
  day <> "" ->
  read_records_for_day day (Some f) = Ok records ->
  count_day day (records_of (readlines (content f)))
  <= Z.of_nat (List.length records).
Proof.
  intros Hday. unfold read_records_for_day.
  destruct (String.eqb_spec day ""); [ contradiction | ].
  destruct (scan_day day (readlines (content f))) as [rs | e] eqn:Hs;
    cbn [bind]; [ | discriminate ].
  intros [= <-].
  rewrite (Permutation_length (sort_by_perm timestamp_key rs)).
  destruct (scan_day_filter _ _ _ Hs) as [-> _].
  unfold count_day. apply inj_le. apply filter_length_le.
  intros r. unfold record_day, timestamp_key, get.
  destruct (py_get r "timestamp") as [[ | | | | s | | ] | e']; try discriminate.
  destruct (String.eqb s ""); [ discriminate | ].
  intros H. apply String.eqb_eq in H. subst day. apply before_T_prefix.
Qed.

(** ** The configuration round trip *)

Lemma rstrip_idem (s : string) : rstrip (rstrip s) = rstrip s.
Proof.
  induction s as [ | c r IH]; [ reflexivity | ].
  cbn [rstrip]. destruct (rstrip r) as [ | c' r'] eqn:E.
  - destruct (isspace c) eqn:Hc; [ reflexivity | ]. cbn. rewrite Hc. reflexivity.
  - cbn [rstrip] in *. rewrite IH. reflexivity.
Qed.

Lemma lstrip_head_kept (s : string) : head_kept (lstrip s) = true.
Proof.
  induction s as [ | c r IH]; [ reflexivity | ]. cbn [lstrip].
  destruct (isspace c) eqn:Hc; [ exact IH | ]. cbn. rewrite Hc. reflexivity.
Qed.

Lemma head_kept_lstrip (s : string) : head_kept s = true -> lstrip s = s.
Proof.
  destruct s as [ | c r]; [ reflexivity | ]. cbn.
  destruct (isspace c); [ discriminate | reflexivity ].
Qed.

Lemma head_kept_rstrip (s : string) :
  head_kept s = true -> head_kept (rstrip s) = true.
Proof.
  destruct s as [ | c r]; [ reflexivity | ]. cbn [head_kept rstrip].
  intros Hc. destruct (rstrip r); [ | exact Hc ].
  destruct (isspace c) eqn:E; [ reflexivity | ]. cbn. rewrite E. reflexivity.
Qed.

Lemma strip_idem (s : string) : strip (strip s) = strip s.
Proof.
  unfold strip.
  rewrite (head_kept_lstrip (rstrip (lstrip s))).
  - apply rstrip_idem.
  - apply head_kept_rstrip, lstrip_head_kept.
Qed.

Lemma rstrip_app_nl (s : string) : rstrip (s ++ nl) = rstrip s.
Proof.
  induction s as [ | c r IH]; [ reflexivity | ].
  cbn [append rstrip]. rewrite IH. reflexivity.
Qed.

Lemma rstrip_app (p t : string) :
  rstrip t <> "" -> rstrip (p ++ t) = p ++ rstrip t.
Proof.
  intros Ht. induction p as [ | c p IH]; [ reflexivity | ].
  cbn [append rstrip]. rewrite IH.
  destruct (p ++ rstrip t) as [ | c' r'] eqn:E; [ | reflexivity ].
  destruct p; cbn in E; [ contradiction | discriminate ].
Qed.

(** A line [KEY=value] as [do_POST] writes it, read back by [read_config]:
    [strip] gives the line without its end, for a key that starts with a
    letter and a value that [strip] leaves alone. *)
Lemma strip_written_line (key value : string) :
  head_kept (key ++ "=") = true -> strip value = value -> value <> "" ->
  strip ((key ++ "=" ++ value) ++ nl) = key ++ "=" ++ value.
Proof.
  intros Hk Hv Hne. unfold strip.
  assert (Hr : rstrip value = value).
  { rewrite <- Hv. unfold strip. apply rstrip_idem. }
  rewrite head_kept_lstrip.
  - rewrite rstrip_app_nl. rewrite <- append_assoc.
    rewrite rstrip_app by (rewrite Hr; exact Hne).
    rewrite Hr. reflexivity.
  - destruct key as [ | c k]; cbn in *; exact Hk.
Qed.

Lemma no_break_append (s1 s2 : string) :
  no_break s1 = true -> no_break s2 = true -> no_break (s1 ++ s2) = true.
Proof.
  intros H1 H2. induction s1 as [ | c r IH]; [ exact H2 | ].
  cbn in *. apply andb_true_iff in H1 as [Hc Hr].
  rewrite Hc, (IH Hr). reflexivity.
Qed.

(** A text without a line break, followed by LF, is one line. *)
Lemma readlines_one_line (s : string) :
  no_break s = true -> readlines (s ++ nl) = [s ++ nl].
Proof.
  induction s as [ | c r IH]; [ reflexivity | ].
  cbn [no_break]. intros H.
  apply andb_true_iff in H as [H Hr]. apply andb_true_iff in H as [Hlf Hcr].
  apply negb_true_iff in Hlf, Hcr.
  specialize (IH Hr). unfold readlines in *.
  change ((String c r) ++ nl) with (String c (r ++ nl)).
  destruct (r ++ nl) as [ | c' r'] eqn:E.
  { destruct r; discriminate. }
  rewrite readlines_from_step, Hlf, Hcr.
  pose proof (readlines_from_shift (String c' r') 1%nat 0%nat) as Hs.
  rewrite IH in Hs.
  destruct (readlines_from 1 (String c' r')) as [ | [l p] ls]; [ discriminate | ].
  cbn in Hs. injection Hs as -> Hls.
  destruct ls; [ reflexivity | discriminate ].
Qed.

Lemma complete_line (s : string) : complete (s ++ nl) = true.
Proof.
  induction s as [ | c r IH]; [ reflexivity | ].
  change ((String c r) ++ nl) with (String c (r ++ nl)).
  cbn [complete]. destruct (r ++ nl) eqn:E; [ destruct r; discriminate | exact IH ].
Qed.

Lemma all_digits_no_break (s : string) : all_digits s = true -> no_break s = true.
Proof.
  induction s as [ | c r IH]; [ reflexivity | ]. cbn [all_digits no_break].
  intros H. apply andb_true_iff in H as [Hc Hr]. rewrite (IH Hr).
  apply andb_true_iff in Hc as [H1 H2].
  apply Nat.leb_le in H1, H2.
  assert (Hlf : Ascii.eqb c LF = false).
  { apply Ascii.eqb_neq. intros ->. cbn in H1. lia. }
  assert (Hcr : Ascii.eqb c CR = false).
  { apply Ascii.eqb_neq. intros ->. cbn in H1. lia. }
  rewrite Hlf, Hcr. reflexivity.
Qed.

Lemma str_field_stripped (data : pyval) (k t : string) :
  str_field data k = Ok t -> strip t = t.
Proof.
  unfold str_field. destruct (py_get data k) as [v | e]; cbn [bind]; [ | discriminate ].
  destruct (py_or v (PStr "")); try discriminate.
  intros [= <-]. apply strip_idem.
Qed.

Lemma targets_line (t : string) (tv : string * string) :
  strip t = t -> t <> "" ->
  config_line tv ("TARGETS=" ++ t ++ nl) = (t, snd tv).
Proof.
  intros Hs Hne. unfold config_line.
  replace ("TARGETS=" ++ t ++ nl) with (("TARGETS" ++ "=" ++ t) ++ nl)
    by (cbn; reflexivity).
  rewrite (strip_written_line "TARGETS" t eq_refl Hs Hne).
  change (String.eqb ("TARGETS" ++ "=" ++ t) "") with false.
  change (split_eq ("TARGETS" ++ "=" ++ t)) with (Some ("TARGETS", t)).
  change (String.eqb (strip "TARGETS") "TARGETS") with true.
  cbv iota beta. rewrite Hs. reflexivity.
Qed.

Lemma interval_line (i : string) (tv : string * string) :
  strip i = i -> i <> "" ->
  config_line tv ("INTERVAL_SECONDS=" ++ i ++ nl) = (fst tv, i).
Proof.
  intros Hs Hne. unfold config_line.
  replace ("INTERVAL_SECONDS=" ++ i ++ nl)
    with (("INTERVAL_SECONDS" ++ "=" ++ i) ++ nl) by (cbn; reflexivity).
  rewrite (strip_written_line "INTERVAL_SECONDS" i eq_refl Hs Hne).
  change (String.eqb ("INTERVAL_SECONDS" ++ "=" ++ i) "") with false.
  change (split_eq ("INTERVAL_SECONDS" ++ "=" ++ i))
    with (Some ("INTERVAL_SECONDS", i)).
  change (String.eqb (strip "INTERVAL_SECONDS") "TARGETS") with false.
  change (String.eqb (strip "INTERVAL_SECONDS") "INTERVAL_SECONDS") with true.
  cbv iota beta. rewrite Hs. reflexivity.
Qed.

Lemma str_or_fallback (a b : string) :
  (if String.eqb a "" then str_or a b else a) = str_or a b.
Proof. unfold str_or. destruct (String.eqb a ""); reflexivity. Qed.

(** What [read_config] makes of the file [do_POST] writes. *)
Lemma read_written_config (env : Env) (t i : string) :
  strip t = t -> no_break t = true -> strip i = i -> no_break i = true ->
  read_config env
    (match config_lines t i with
     | [] => None
     | lines => Some (join lines)
     end)
  = (if String.eqb t "" then str_or (ENV_TARGETS env) (ENV_TARGET_HOST env) else t,
     if String.eqb i "" then str_or (ENV_INTERVAL env) "30" else i).
Proof.
  intros Ht Hbt Hi Hbi. unfold config_lines, read_config.
  destruct (String.eqb_spec t "") as [-> | Hnt];
    destruct (String.eqb_spec i "") as [-> | Hni]; cbn [app join].
  - cbn. rewrite !str_or_fallback. reflexivity.
  - rewrite append_empty_r.
    replace ("INTERVAL_SECONDS=" ++ i ++ nl) with (("INTERVAL_SECONDS=" ++ i) ++ nl)
      by (cbn; reflexivity).
    rewrite readlines_one_line by (apply no_break_append; [ reflexivity | exact Hbi ]).
    cbn [fold_left].
    replace (("INTERVAL_SECONDS=" ++ i) ++ nl) with ("INTERVAL_SECONDS=" ++ i ++ nl)
      by (cbn; reflexivity).
    rewrite (interval_line i _ Hi Hni). cbn [fst snd].
    rewrite str_or_fallback.
    destruct (String.eqb_spec i ""); [ contradiction | reflexivity ].
  - rewrite append_empty_r.
    replace ("TARGETS=" ++ t ++ nl) with (("TARGETS=" ++ t) ++ nl)
      by (cbn; reflexivity).
    rewrite readlines_one_line by (apply no_break_append; [ reflexivity | exact Hbt ]).
    cbn [fold_left].
    replace (("TARGETS=" ++ t) ++ nl) with ("TARGETS=" ++ t ++ nl)
      by (cbn; reflexivity).
    rewrite (targets_line t _ Ht Hnt). cbn [fst snd].
    rewrite str_or_fallback.
    destruct (String.eqb_spec t ""); [ contradiction | reflexivity ].
  - rewrite append_empty_r.
    replace ("TARGETS=" ++ t ++ nl) with (("TARGETS=" ++ t) ++ nl)
      by (cbn; reflexivity).
    rewrite readlines_append by apply complete_line.
    rewrite readlines_one_line by (apply no_break_append; [ reflexivity | exact Hbt ]).
    replace ("INTERVAL_SECONDS=" ++ i ++ nl) with (("INTERVAL_SECONDS=" ++ i) ++ nl)
      by (cbn; reflexivity).
    rewrite readlines_one_line by (apply no_break_append; [ reflexivity | exact Hbi ]).
    cbn [app fold_left].
    replace (("TARGETS=" ++ t) ++ nl) with ("TARGETS=" ++ t ++ nl)
      by (cbn; reflexivity).
    replace (("INTERVAL_SECONDS=" ++ i) ++ nl) with ("INTERVAL_SECONDS=" ++ i ++ nl)
      by (cbn; reflexivity).
    rewrite (targets_line t _ Ht Hnt), (interval_line i _ Hi Hni). cbn [fst snd].
    destruct (String.eqb_spec t ""); [ contradiction | ].
    destruct (String.eqb_spec i ""); [ contradiction | reflexivity ].
Qed.

(** X15.  [POST /config] replaces the configuration, it does not amend it:
    whatever [config.env] held before, the file afterwards holds the posted
    targets and the posted interval and nothing else, and it is removed when
    neither is given.  For targets that fit on one line, the response, and
    every later [read_config], show the posted targets (stripped) and the
    posted interval when it is all digits; a field that is missing, empty
    or, for the interval, not all digits falls back to the environment:
    [TARGETS] or else [TARGET_HOST], [INTERVAL_SECONDS] or else 30. *)
Theorem post_config_round_trip (env : Env) (raw : string) (cache : Cache)
  (cfg : option string) (t i0 : string) :
  str_field (body_of raw) "targets" = Ok t ->
  str_field (body_of raw) "interval_seconds" = Ok i0 ->
  no_break t = true ->
  let i := if isdigit i0 then i0 else EmptyString in
  let shown :=
    (if String.eqb t "" then str_or (ENV_TARGETS env) (ENV_TARGET_HOST env) else t,
     if String.eqb i "" then str_or (ENV_INTERVAL env) "30" else i) in
  exists cfg',
    do_POST env "/config" raw cache cfg
    = Ok (cache, cfg', Configured (fst shown) (snd shown)) /\
    read_config env cfg' = shown /\
    cfg' = match config_lines t i with
           | [] => None
           | lines => Some (join lines)
           end /\
    (cfg' = None <-> t = "" /\ i = "").
Proof.
  intros Ht Hi Hbt i shown.
  assert (Ei : (if negb (String.eqb i0 "") && negb (isdigit i0)
                then EmptyString else i0) = i).
  { unfold i, isdigit. destruct (String.eqb_spec i0 "") as [-> | ]; cbn;
      [ reflexivity | ]. destruct (all_digits i0); reflexivity. }
  assert (Hsi : strip i = i).
  { unfold i. destruct (isdigit i0); [ | reflexivity ].
    exact (str_field_stripped _ _ _ Hi). }
  assert (Hbi : no_break i = true).
  { unfold i, isdigit. destruct (String.eqb i0 ""); cbn; [ reflexivity | ].
    destruct (all_digits i0) eqn:Hd; [ | reflexivity ].
    exact (all_digits_no_break _ Hd). }
  pose proof (read_written_config env t i (str_field_stripped _ _ _ Ht) Hbt Hsi Hbi)
    as Hread.
  exists (match config_lines t i with
          | [] => None
          | lines => Some (join lines)
          end).
  split; [ | split; [ exact Hread | split; [ reflexivity | ] ] ].
  - unfold do_POST. cbn [String.eqb Ascii.eqb Bool.eqb negb].
    rewrite Ht, Hi. cbn [bind]. rewrite Ei, Hread. reflexivity.
  - unfold config_lines.
    destruct (String.eqb_spec t ""), (String.eqb_spec i ""); cbn;
      (split;
       [ intros H; try discriminate; split; assumption
       | intros [H1 H2]; try reflexivity; contradiction ]).
Qed.


Lemma fold_config_app (l1 l2 : list string) (tv : string * string) :
  fold_left config_line (l1 ++ l2) tv
  = fold_left config_line l2 (fold_left config_line l1 tv).
Proof. apply fold_left_app. Qed.

(** X17.  In [config.env] the last assignment wins: a [TARGETS] line after
    any text of complete lines sets the targets and leaves the interval to
    what the text before it gave, and an [INTERVAL_SECONDS] line sets the
    interval and leaves the targets. *)
Theorem config_last_line_wins (env : Env) (text v : string) :
  complete text = true ->
  strip v = v -> v <> "" -> no_break v = true ->
  read_config env (Some (text ++ "TARGETS=" ++ v ++ nl))
  = (v, snd (read_config env (Some text))) /\
  read_config env (Some (text ++ "INTERVAL_SECONDS=" ++ v ++ nl))
  = (fst (read_config env (Some text)), v).
Proof.
  intros Hc Hs Hne Hb. unfold read_config.
  rewrite !(readlines_append text _ Hc).
  replace ("TARGETS=" ++ v ++ nl) with (("TARGETS=" ++ v) ++ nl)
    by (cbn; reflexivity).
  replace ("INTERVAL_SECONDS=" ++ v ++ nl) with (("INTERVAL_SECONDS=" ++ v) ++ nl)
    by (cbn; reflexivity).
  rewrite !readlines_one_line
    by (apply no_break_append; [ reflexivity | exact Hb ]).
  rewrite !fold_config_app. cbn [fold_left].
  replace (("TARGETS=" ++ v) ++ nl) with ("TARGETS=" ++ v ++ nl)
    by (cbn; reflexivity).
  replace (("INTERVAL_SECONDS=" ++ v) ++ nl) with ("INTERVAL_SECONDS=" ++ v ++ nl)
    by (cbn; reflexivity).
  rewrite (targets_line v _ Hs Hne), (interval_line v _ Hs Hne).
  cbn [fst snd].
  destruct (String.eqb_spec v ""); [ contradiction | ].
  split; reflexivity.
Qed.

(** ** An interval set from Home Assistant *)

Lemma all_digits_of_uint (d : Decimal.uint) :
  all_digits (NilEmpty.string_of_uint d) = true.
Proof. induction d; cbn; try reflexivity; exact IHd. Qed.

Lemma no_space_rstrip (s : string) : no_space s = true -> rstrip s = s.
Proof.
  induction s as [ | c r IH]; [ reflexivity | ]. cbn [no_space rstrip].
  intros H. apply andb_true_iff in H as [Hc Hr]. rewrite (IH Hr).
  destruct r; [ | reflexivity ].
  apply negb_true_iff in Hc. rewrite Hc. reflexivity.
Qed.

Lemma no_space_strip (s : string) : no_space s = true -> strip s = s.
Proof.
  intros H. unfold strip.
  rewrite head_kept_lstrip; [ apply no_space_rstrip, H | ].
  destruct s as [ | c r]; [ reflexivity | ]. cbn [no_space head_kept] in *.
  apply andb_true_iff in H as [Hc _]. exact Hc.
Qed.

Lemma digits_no_space (s : string) : all_digits s = true -> no_space s = true.
Proof.
  induction s as [ | c r IH]; [ reflexivity | ]. cbn [all_digits no_space].
  intros H. apply andb_true_iff in H as [Hc Hr]. rewrite (IH Hr).
  apply andb_true_iff in Hc as [H1 H2]. apply Nat.leb_le in H1, H2.
  unfold isspace.
  destruct (Nat.leb_spec 9 (nat_of_ascii c)), (Nat.leb_spec (nat_of_ascii c) 13),
    (Nat.leb_spec 28 (nat_of_ascii c)), (Nat.leb_spec (nat_of_ascii c) 32);
    cbn; try reflexivity; lia.
Qed.

Lemma all_digits_nilzero (d : Decimal.uint) :
  all_digits (NilZero.string_of_uint d) = true.
Proof.
  unfold NilZero.string_of_uint. pose proof (all_digits_of_uint d) as H.
  destruct d; try exact H; reflexivity.
Qed.

Lemma str_of_int_no_space (n : Z) : no_space (str_of_int n) = true.
Proof.
  unfold str_of_int.
  destruct (Z.to_int n) as [d | d]; cbn [NilZero.string_of_int no_space].
  - apply digits_no_space, all_digits_nilzero.
  - rewrite (digits_no_space _ (all_digits_nilzero d)). reflexivity.
Qed.

(** [str(n)] of a positive int is all digits. *)
Lemma str_of_positive (n : Z) : 0 < n -> isdigit (str_of_int n) = true.
Proof.
  destruct n as [ | p | p]; try lia. intros _.
  unfold str_of_int, isdigit. cbn [Z.to_int NilZero.string_of_int].
  unfold NilZero.string_of_uint.
  pose proof (Unsigned.to_uint_nonnil p) as Hn.
  pose proof (all_digits_of_uint (Pos.to_uint p)) as Hd.
  destruct (Pos.to_uint p) eqn:E; try contradiction; rewrite Hd; reflexivity.
Qed.

(** [str(n)] of a negative int starts with the sign. *)
Lemma str_of_negative (n : Z) : n < 0 -> isdigit (str_of_int n) = false.
Proof.
  destruct n as [ | p | p]; try lia. intros _. reflexivity.
Qed.

Lemma assoc_interval_only (t : list (string * pyval)) (v : pyval) :
  (forall x, In x t -> fst x = "targets") ->
  assoc "interval_seconds" (t ++ [("interval_seconds", v)]) = Some v.
Proof.
  intros H. rewrite assoc_app.
  destruct (assoc "interval_seconds" t) as [w | ] eqn:E; [ | reflexivity ].
  apply assoc_in in E. specialize (H _ E). discriminate.
Qed.

(** X18.  An interval set through the Home Assistant service reaches the
    monitor when it is positive: it is posted as decimal digits, which the
    server accepts, stores and shows, whatever the environment and the old
    [config.env] say.  An interval of zero is not posted at all, so that
    the monitor falls back to its environment, and a negative one is posted
    with its sign and dropped by the server without an error. *)
Theorem service_interval (env : Env) (raw : string) (cache : Cache)
  (cfg : option string) (targets : option string) (n : Z) (t : string) :
  body_of raw = async_post_config targets (Some n) ->
  str_field (body_of raw) "targets" = Ok t ->
  no_break t = true ->
  exists cfg' shown,
    do_POST env "/config" raw cache cfg
    = Ok (cache, cfg', Configured shown
                         (if 0 <? n then str_of_int n
                          else str_or (ENV_INTERVAL env) "30")) /\
    (0 < n -> exists text, cfg' = Some text).
Proof.
  intros Hbody Ht Hbt.
  assert (Hi : str_field (body_of raw) "interval_seconds"
               = Ok (if n =? 0 then EmptyString else strip (str_of_int n))).
  { rewrite Hbody. unfold async_post_config, str_field. cbn [py_get bind].
    destruct (Z.eqb_spec n 0) as [-> | Hn].
    - rewrite app_nil_r.
      destruct targets as [s | ]; [ destruct (String.eqb s "") | ]; reflexivity.
    - rewrite assoc_interval_only.
      + unfold py_or. cbn [truthy].
        destruct (String.eqb_spec (str_of_int n) "") as [E | _];
          [ rewrite E | ]; reflexivity.
      + intros x Hx.
        destruct targets as [s | ]; [ destruct (String.eqb s "") | ];
          cbn in Hx; try contradiction.
        destruct Hx as [<- | []]. reflexivity. }
  set (i0 := if n =? 0 then EmptyString else strip (str_of_int n)) in *.
  set (i := if isdigit i0 then i0 else EmptyString).
  assert (Ei : (if negb (String.eqb i0 "") && negb (isdigit i0)
                then EmptyString else i0) = i).
  { unfold i, isdigit. destruct (String.eqb_spec i0 "") as [-> | ]; cbn;
      [ reflexivity | ]. destruct (all_digits i0); reflexivity. }
  assert (Hsi : strip i = i).
  { unfold i. destruct (isdigit i0); [ | reflexivity ].
    exact (str_field_stripped _ _ _ Hi). }
  assert (Hbi : no_break i = true).
  { unfold i, isdigit. destruct (String.eqb i0 ""); cbn; [ reflexivity | ].
    destruct (all_digits i0) eqn:Hd; [ | reflexivity ].
    exact (all_digits_no_break _ Hd). }
  pose proof (read_written_config env t i (str_field_stripped _ _ _ Ht) Hbt Hsi Hbi)
    as Hread.
  assert (Hval : i = if 0 <? n then str_of_int n else EmptyString).
  { unfold i, i0. rewrite (no_space_strip _ (str_of_int_no_space n)).
    destruct (Z.ltb_spec 0 n) as [Hpos | Hneg].
    - destruct (Z.eqb_spec n 0); [ lia | ].
      rewrite (str_of_positive n Hpos). reflexivity.
    - destruct (Z.eqb_spec n 0); [ reflexivity | ].
      rewrite (str_of_negative n); [ reflexivity | lia ]. }
  exists (match config_lines t i with
          | [] => None
          | lines => Some (join lines)
          end).
  exists (if String.eqb t "" then str_or (ENV_TARGETS env) (ENV_TARGET_HOST env)
          else t).
  split.
  - unfold do_POST. cbn [String.eqb Ascii.eqb Bool.eqb negb].
    rewrite Ht, Hi. cbn [bind]. rewrite Ei, Hread.
    rewrite Hval. destruct (0 <? n) eqn:Hpos; [ | reflexivity ].
    apply Z.ltb_lt in Hpos. pose proof (str_of_positive n Hpos) as Hd.
    unfold isdigit in Hd. apply andb_true_iff in Hd as [Hne _].
    apply negb_true_iff in Hne. rewrite Hne. reflexivity.
  - intros Hpos. rewrite Hval. apply Z.ltb_lt in Hpos as Hlt. rewrite Hlt.
    pose proof (str_of_positive n Hpos) as Hd.
    unfold isdigit in Hd. apply andb_true_iff in Hd as [Hne _].
    apply negb_true_iff in Hne.
    unfold config_lines. rewrite Hne.
    destruct (String.eqb t ""); cbn; eexists; reflexivity.
Qed.

(** ** The row of a day is made of the records of that day *)

Lemma merge_record_step (rec : pyval) (daily daily1 : Daily) (day : string) :
  merge_record rec daily = (daily1, None) ->
  match record_day rec with
  | Some k =>
      if String.eqb k day
      then merge_into rec (day_of daily day) = (day_of daily1 day, None)
      else day_of daily1 day = day_of daily day
  | None => day_of daily1 day = day_of daily day
  end.
Proof.
  intros H. destruct (record_day rec) as [k | ] eqn:E.
  - rewrite (merge_record_on_day _ _ _ E) in H. injection H as <- Hs.
    destruct (String.eqb_spec k day) as [-> | Hne].
    + rewrite day_of_store_same.
      destruct (merge_into rec (day_of daily day)); cbn in *; subst; reflexivity.
    + apply day_of_store_other. congruence.
  - pose proof (merge_record_no_day rec daily E) as H1.
    rewrite H in H1. cbn in H1. subst. reflexivity.
Qed.

(** The days do not see each other: what a completed batch leaves for a day
    is what lines 206-244 make of the records of that day alone. *)
Lemma feed_day (records : list pyval) (daily daily' : Daily) (day : string) :
  feed records daily = (daily', None) ->
  merge_all (day_records day records) (day_of daily day)
  = (day_of daily' day, None).
Proof.
  revert daily. induction records as [ | rec rest IH]; intros daily;
    cbn [feed day_records filter].
  - intros [= <-]. reflexivity.
  - destruct (merge_record rec daily) as [daily1 [e | ]] eqn:Hm; [ discriminate | ].
    intros H. specialize (IH daily1 H).
    pose proof (merge_record_step _ _ _ day Hm) as Hs.
    destruct (record_day rec) as [k | ].
    + destruct (String.eqb k day).
      * cbn [merge_all]. rewrite Hs. exact IH.
      * rewrite <- Hs. exact IH.
    + rewrite <- Hs. exact IH.
Qed.

Lemma row_of_summary (daily : Daily) (rows : list Summary.t) (day : string)
  (row : Summary.t) :
  daily_ok daily -> _summaries_from_state daily = Ok rows ->
  row_of day rows = Some row ->
  summarize_day day (day_of daily day) = Ok row.
Proof.
  intros [Hnd Hall] Hrows Hf.
  unfold _summaries_from_state in Hrows.
  destruct (mapM _ daily) as [rows0 | e] eqn:Hm; cbn in Hrows; [ | discriminate ].
  injection Hrows as <-. apply mapM_forall2 in Hm.
  unfold row_of in Hf. apply find_some in Hf as [Hin Hdate].
  apply String.eqb_eq in Hdate.
  apply (Permutation_in _ (sort_by_perm Summary.date rows0)) in Hin.
  destruct (forall2_in_r _ _ _ _ Hm Hin) as ([k d] & Hkd & Hrow).
  cbn in Hrow.
  destruct (summarize_day_fields _ _ _ Hrow) as (Hk & _).
  assert (Ek : k = day) by congruence. rewrite Ek in Hkd, Hrow.
  unfold day_of. rewrite (in_assoc _ _ _ Hnd Hkd). exact Hrow.
Qed.

(** The row of a day in the snapshot of a log read from its first byte. *)
Lemma row_from_day_records (now : float) (stat : File) (rows : list Summary.t)
  (day : string) (row : Summary.t) :
  returned (build_daily_summary_from_file now (Some stat) empty_cache) = Ok rows ->
  row_of day rows = Some row ->
  exists d,
    merge_all (day_records day (records_of (readlines (content stat))))
      (fresh_day day) = (d, None) /\
    summarize_day day d = Ok row.
Proof.
  intros Hrows Hrow.
  destruct (build_from_empty now stat) as (_ & _ & _ & Hret).
  cbn zeta in Hret. rewrite Hrows in Hret.
  pose proof (merge_lines_feed (readlines (content stat)) []) as Hfeed.
  pose proof (merge_lines_ok (readlines (content stat)) []
                (proj1 (proj2 empty_cache_ok))) as Hok.
  destruct (merge_lines (readlines (content stat)) []) as [[daily exc] seen].
  cbn [fst snd] in *. destruct exc as [e | ]; [ discriminate | ].
  exists (day_of daily day). split.
  - exact (feed_day _ _ _ day (eq_sym Hfeed)).
  - exact (row_of_summary _ _ _ _ Hok (eq_sym Hret) Hrow).
Qed.

(** X19.  The days do not see each other.  In the snapshot of a log read
    from its first byte, the row of a day is what [_summaries_from_state]
    renders from a fresh day after the loop body has run on the records
    filed under that day, in file order, and on no other record. *)
Theorem row_depends_on_its_day (now : float) (stat : File)
  (rows : list Summary.t) (day : string) (row : Summary.t) :
  returned (build_daily_summary_from_file now (Some stat) empty_cache) = Ok rows ->
  row_of day rows = Some row ->
  exists d,
    merge_all (day_records day (records_of (readlines (content stat))))
      (fresh_day day) = (d, None) /\
    summarize_day day d = Ok row.
Proof. exact (row_from_day_records now stat rows day row). Qed.

Lemma set_add_in (x y : string) (s : list string) :
  In x (set_add y s) <-> x = y \/ In x s.
Proof.
  forget_runtime. unfold set_add.
  destruct (existsb (String.eqb y) s) eqn:E.
  - apply existsb_exists in E as (z & Hz & Hyz). apply String.eqb_eq in Hyz.
    subst z. split; [ intros H; right; exact H | ].
    intros [-> | H]; assumption.
  - rewrite in_app_iff. cbn. split.
    + intros [H | [H | []]]; [ right; exact H | left; symmetry; exact H ].
    + intros [H | H]; [ right; left; symmetry; exact H | left; exact H ].
Qed.

Lemma sets_frame_sent (v : pyval) (d d' : DayState) :
  add_sent v d = (d', None) ->
  targets d' = targets d /\ public_ips d' = public_ips d.
Proof. unfold add_sent, try_, assign, done. step_frame. Qed.

Lemma sets_frame_received (v : pyval) (d d' : DayState) :
  add_received v d = (d', None) ->
  targets d' = targets d /\ public_ips d' = public_ips d.
Proof. unfold add_received, try_, assign, done. step_frame. Qed.

Lemma sets_frame_loss (v : pyval) (d d' : DayState) :
  add_loss v d = (d', None) ->
  targets d' = targets d /\ public_ips d' = public_ips d.
Proof. unfold add_loss, try_, assign, done, seq. step_frame. Qed.

Lemma sets_frame_rtt (v : pyval) (d d' : DayState) :
  add_rtt v d = (d', None) ->
  targets d' = targets d /\ public_ips d' = public_ips d.
Proof.
  unfold add_rtt, try_, assign, done, seq.
  destruct (rtt_value v) as [[x | ] | e]; [ | | discriminate ].
  - cbn. destruct (below x (rtt_min d)); cbn; destruct (above x _); cbn;
      intros [= <-]; split; reflexivity.
  - intros [= <-]. split; reflexivity.
Qed.

(** What a completed run of lines 206-244 did to the two sets. *)
Lemma merge_into_sets (rec : pyval) (d d' : DayState) :
  merge_into rec d = (d', None) ->
  targets d' = match target_of rec with
               | Some x => set_add x (targets d)
               | None => targets d
               end /\
  public_ips d' = match public_ip_of rec with
                  | Some x => set_add x (public_ips d)
                  | None => public_ips d
                  end.
Proof.
  unfold merge_into. intros H.
  apply seq_ok in H as (d1 & H1 & H).
  apply seq_ok in H as (d2 & H2 & H).
  apply seq_ok in H as (d3 & H3 & H).
  apply seq_ok in H as (d4 & H4 & H).
  apply seq_ok in H as (d5 & H5 & H).
  apply seq_ok in H as (d6 & H6 & H7).
  unfold assign in H1. injection H1 as <-.
  apply sets_frame_sent in H2 as (T2 & P2).
  apply sets_frame_received in H3 as (T3 & P3).
  apply sets_frame_loss in H4 as (T4 & P4).
  apply sets_frame_rtt in H5 as (T5 & P5).
  cbn in T2, P2.
  assert (T : targets d5 = targets d) by congruence.
  assert (P : public_ips d5 = public_ips d) by congruence.
  unfold target_of, public_ip_of. cbn zeta.
  unfold add_target, assign, done in H6. unfold add_public_ip, assign, done in H7.
  destruct (truthy (py_or (get rec "target") (get rec "dst_host")));
    injection H6 as <-;
    destruct (truthy (get rec "public_ip")); injection H7 as <-; cbn;
    rewrite ?T, ?P; split; reflexivity.
Qed.

Lemma merge_all_sets (recs : list pyval) (d d' : DayState) (x : string) :
  merge_all recs d = (d', None) ->
  (In x (targets d') <->
   In x (targets d) \/ exists r, In r recs /\ target_of r = Some x) /\
  (In x (public_ips d') <->
   In x (public_ips d) \/ exists r, In r recs /\ public_ip_of r = Some x).
Proof.
  revert d. induction recs as [ | rec rest IH]; intros d; cbn [merge_all].
  - intros [= <-]. split; (split; [ intros H; left; exact H | ]);
      intros [H | (r & [] & _)]; exact H.
  - destruct (merge_into rec d) as [d1 [e | ]] eqn:Hm; [ discriminate | ].
    intros H. destruct (IH d1 H) as [IT IP].
    destruct (merge_into_sets _ _ _ Hm) as [ET EP].
    split.
    + rewrite IT, ET. destruct (target_of rec) as [y | ] eqn:Ey.
      * rewrite set_add_in. split.
        -- intros [[-> | Hin] | (r & Hr & Hx)].
           ++ right. exists rec. split; [ left; reflexivity | exact Ey ].
           ++ left. exact Hin.
           ++ right. exists r. split; [ right; exact Hr | exact Hx ].
        -- intros [Hin | (r & [<- | Hr] & Hx)].
           ++ left. right. exact Hin.
           ++ left. left. congruence.
           ++ right. exists r. split; assumption.
      * split.
        -- intros [Hin | (r & Hr & Hx)]; [ left; exact Hin | ].
           right. exists r. split; [ right; exact Hr | exact Hx ].
        -- intros [Hin | (r & [<- | Hr] & Hx)]; [ left; exact Hin | congruence | ].
           right. exists r. split; assumption.
    + rewrite IP, EP. destruct (public_ip_of rec) as [y | ] eqn:Ey.
      * rewrite set_add_in. split.
        -- intros [[-> | Hin] | (r & Hr & Hx)].
           ++ right. exists rec. split; [ left; reflexivity | exact Ey ].
           ++ left. exact Hin.
           ++ right. exists r. split; [ right; exact Hr | exact Hx ].
        -- intros [Hin | (r & [<- | Hr] & Hx)].
           ++ left. right. exact Hin.
           ++ left. left. congruence.
           ++ right. exists r. split; assumption.
      * split.
        -- intros [Hin | (r & Hr & Hx)]; [ left; exact Hin | ].
           right. exists r. split; [ right; exact Hr | exact Hx ].
        -- intros [Hin | (r & [<- | Hr] & Hx)]; [ left; exact Hin | congruence | ].
           right. exists r. split; assumption.
Qed.

Lemma sorted_in (x : string) (l : list string) : In x (sorted l) <-> In x l.
Proof.
  forget_runtime. unfold sorted. split; intros H.
  - exact (Permutation_in _ (sort_by_perm (fun s => s) l) H).
  - exact (Permutation_in _ (Permutation_sym (sort_by_perm (fun s => s) l)) H).
Qed.

(** X20.  In the snapshot of a log read from its first byte, the targets of
    a day's row are exactly the targets that the records of that day name
    ([target], or else [dst_host], as text), and its public IPs exactly the
    public IPs they name: none is missing and none comes from another
    day. *)
Theorem row_lists_what_was_seen (now : float) (stat : File)
  (rows : list Summary.t) (day : string) (row : Summary.t) (x : string) :
  returned (build_daily_summary_from_file now (Some stat) empty_cache) = Ok rows ->
  row_of day rows = Some row ->
  let recs := day_records day (records_of (readlines (content stat))) in
  (In x (Summary.targets row) <-> exists r, In r recs /\ target_of r = Some x) /\
  (In x (Summary.public_ips row) <->
   exists r, In r recs /\ public_ip_of r = Some x).
Proof.
  intros Hrows Hrow recs.
  destruct (row_from_day_records now stat rows day row Hrows Hrow)
    as (d & Hd & Hs).
  fold recs in Hd.
  destruct (summarize_day_fields _ _ _ Hs) as (_ & _ & _ & _ & _ & _ & _ & Ht & Hp & _).
  destruct (merge_all_sets recs _ _ x Hd) as [IT IP].
  rewrite Ht, Hp, !sorted_in, IT, IP. cbn [fresh_day targets public_ips].
  split; (split; [ intros [[] | H]; exact H | intros H; right; exact H ]).
Qed.

Lemma count_some_cons {A : Type} (v : option A) (vs : list (option A)) :
  count_some (v :: vs)
  = (match v with Some _ => 1 | None => 0 end) + count_some vs.
Proof.
  forget_runtime. unfold count_some. cbn [filter].
  destruct v; cbn [List.length]; lia.
Qed.

Lemma count_filter_cons {A : Type} (p : A -> bool) (a : A) (l : list A) :
  Z.of_nat (List.length (filter p (a :: l)))
  = (if p a then 1 else 0) + Z.of_nat (List.length (filter p l)).
Proof. forget_runtime. cbn [filter]. destruct (p a); cbn [List.length]; lia. Qed.

(** What a completed run of lines 206-244 added to the counters. *)
Lemma merge_into_adds (rec : pyval) (d d' : DayState) :
  merge_into rec d = (d', None) ->
  loss_sum d' = add_all [loss_of rec] (loss_sum d) /\
  loss_count d' = loss_count d + count_some [loss_of rec] /\
  rtt_sum d' = add_all [rtt_of rec] (rtt_sum d) /\
  rtt_count d' = rtt_count d + count_some [rtt_of rec] /\
  good_probes d' = good_probes d + (if is_bucket Good rec then 1 else 0) /\
  degraded_probes d'
  = degraded_probes d + (if is_bucket Degraded rec then 1 else 0) /\
  down_probes d' = down_probes d + (if is_bucket Down rec then 1 else 0).
Proof.
  intros H. destruct (merge_into_effect _ _ _ H) as (_ & Hl & rtt_val & Hv & Hr).
  unfold loss_of, rtt_of, is_bucket, bucket_of, add_all, count_some.
  cbn zeta. rewrite Hv.
  assert (R : rtt_sum d' = match rtt_val with
                           | Some v => (rtt_sum d + v)%float
                           | None => rtt_sum d
                           end /\
              rtt_count d' = rtt_count d + match rtt_val with
                                           | Some _ => 1
                                           | None => 0
                                           end).
  { destruct rtt_val as [v | ].
    - destruct Hr as (-> & -> & _). split; reflexivity.
    - injection Hr as -> -> _ _. split; [ reflexivity | lia ]. }
  destruct R as [R1 R2].
  destruct (is_number (get rec "loss_pct")).
  - destruct Hl as (f & -> & Ls & Lc & Lb). cbn [fold_left filter List.length].
    rewrite Ls, Lc, R1, R2.
    destruct (num_eqb (get rec "loss_pct") 0);
      [ | destruct (num_eqb (get rec "loss_pct") 100) ];
      injection Lb as -> -> ->; destruct rtt_val; cbn; repeat split; lia.
  - injection Hl as -> -> -> -> ->. cbn [fold_left filter List.length].
    rewrite R1, R2. destruct rtt_val; cbn; repeat split; lia.
Qed.

Lemma merge_all_adds (recs : list pyval) (d d' : DayState) :
  merge_all recs d = (d', None) ->
  loss_sum d' = add_all (map loss_of recs) (loss_sum d) /\
  loss_count d' = loss_count d + count_some (map loss_of recs) /\
  rtt_sum d' = add_all (map rtt_of recs) (rtt_sum d) /\
  rtt_count d' = rtt_count d + count_some (map rtt_of recs) /\
  good_probes d'
  = good_probes d + Z.of_nat (List.length (filter (is_bucket Good) recs)) /\
  degraded_probes d'
  = degraded_probes d
    + Z.of_nat (List.length (filter (is_bucket Degraded) recs)) /\
  down_probes d'
  = down_probes d + Z.of_nat (List.length (filter (is_bucket Down) recs)).
Proof.
  revert d. induction recs as [ | rec rest IH]; intros d; cbn [merge_all].
  - intros [= <-]. cbn. repeat split; lia.
  - destruct (merge_into rec d) as [d1 [e | ]] eqn:Hm; [ discriminate | ].
    intros H.
    destruct (IH d1 H) as (I1 & I2 & I3 & I4 & I5 & I6 & I7).
    destruct (merge_into_adds _ _ _ Hm) as (E1 & E2 & E3 & E4 & E5 & E6 & E7).
    cbn [map].
    rewrite I1, I2, I3, I4, I5, I6, I7, E1, E2, E3, E4, E5, E6, E7.
    rewrite !count_some_cons, !count_filter_cons.
    change (@count_some float []) with 0.
    unfold add_all. cbn [fold_left].
    repeat split; try reflexivity; lia.
Qed.

Lemma summarize_day_averages (day : string) (d : DayState) (row : Summary.t) :
  summarize_day day d = Ok row ->
  Summary.avg_loss_pct row
  = (if 0 <? loss_count d then
       match float_of_int (loss_count d) with
       | Ok n => (loss_sum d / n)%float
       | Raise _ => 0%float
       end
     else 0%float) /\
  Summary.avg_rtt_ms row
  = (if 0 <? rtt_count d then
       match float_of_int (rtt_count d) with
       | Ok n => Some (rtt_sum d / n)%float
       | Raise _ => None
       end
     else None).
Proof.
  unfold summarize_day.
  destruct (if 0 <? total_probes d then _ else _) as [u | ]; [ | discriminate ].
  cbn [bind].
  destruct (0 <? loss_count d);
    [ destruct (float_of_int (loss_count d)) as [nl | ]; [ | discriminate ] | ];
    cbn [bind];
    (destruct (0 <? rtt_count d);
     [ destruct (float_of_int (rtt_count d)) as [nr | ]; [ | discriminate ] | ]);
    cbn [bind]; intros [= <-]; split; reflexivity.
Qed.

(** X21.  In the snapshot of a log read from its first byte, a day's row
    adds up the records of that day and nothing else: the good, degraded
    and down counts are the numbers of its records in each bucket, the
    average loss is the sum of the losses of its records, added in file
    order, over their number, and the average RTT likewise ([None] when no
    record of the day has an RTT). *)
Theorem row_adds_up_its_day (now : float) (stat : File)
  (rows : list Summary.t) (day : string) (row : Summary.t) :
  returned (build_daily_summary_from_file now (Some stat) empty_cache) = Ok rows ->
  row_of day rows = Some row ->
  let recs := day_records day (records_of (readlines (content stat))) in
  let losses := map loss_of recs in
  let rtts := map rtt_of recs in
  Summary.good_probes row = Z.of_nat (List.length (filter (is_bucket Good) recs)) /\
  Summary.degraded_probes row
  = Z.of_nat (List.length (filter (is_bucket Degraded) recs)) /\
  Summary.down_probes row = Z.of_nat (List.length (filter (is_bucket Down) recs)) /\
  Summary.avg_loss_pct row
  = (if 0 <? count_some losses then
       match float_of_int (count_some losses) with
       | Ok n => (add_all losses 0 / n)%float
       | Raise _ => 0%float
       end
     else 0%float) /\
  Summary.avg_rtt_ms row
  = (if 0 <? count_some rtts then
       match float_of_int (count_some rtts) with
       | Ok n => Some (add_all rtts 0 / n)%float
       | Raise _ => None
       end
     else None).
Proof.
  intros Hrows Hrow recs losses rtts.
  destruct (row_from_day_records now stat rows day row Hrows Hrow)
    as (d & Hd & Hs).
  fold recs in Hd.
  destruct (summarize_day_fields _ _ _ Hs) as (_ & _ & Hg & Hdg & Hdn & _).
  destruct (summarize_day_averages _ _ _ Hs) as [Hal Har].
  destruct (merge_all_adds recs _ _ Hd) as (E1 & E2 & E3 & E4 & E5 & E6 & E7).
  cbn [fresh_day loss_sum loss_count rtt_sum rtt_count good_probes
       degraded_probes down_probes] in *.
  fold losses in E1, E2. fold rtts in E3, E4.
  rewrite Hg, Hdg, Hdn, Hal, Har, E1, E2, E3, E4, E5, E6, E7.
  rewrite !Z.add_0_l. repeat split; reflexivity.
Qed.

(** ** A NaN in the log *)

Lemma nan_add_l (x y : float) : NaN x -> NaN (x + y)%float.
Proof.
  forget_runtime. unfold NaN. intros H. rewrite add_spec, H. reflexivity.
Qed.

Lemma nan_add_r (x y : float) : NaN y -> NaN (x + y)%float.
Proof.
  forget_runtime. unfold NaN. intros H. rewrite add_spec, H.
  destruct (Prim2SF x) as [ | [ | ] | | ]; reflexivity.
Qed.

Lemma nan_div_l (x y : float) : NaN x -> NaN (x / y)%float.
Proof.
  forget_runtime. unfold NaN. intros H. rewrite div_spec, H. reflexivity.
Qed.

Lemma nan_neq (x y : float) : NaN x -> (x =? y)%float = false.
Proof.
  forget_runtime. unfold NaN. intros H. rewrite eqb_spec, H. reflexivity.
Qed.

Lemma add_all_nan_start (vs : list (option float)) (start : float) :
  NaN start -> NaN (add_all vs start).
Proof.
  forget_runtime. revert start. induction vs as [ | [f | ] vs IH]; intros start H; cbn.
  - exact H.
  - apply IH, nan_add_l, H.
  - apply IH, H.
Qed.

(** Once a NaN is among the values, the sum is a NaN. *)
Lemma add_all_nan (vs : list (option float)) (start f : float) :
  In (Some f) vs -> NaN f -> NaN (add_all vs start).
Proof.
  forget_runtime. revert start.
  induction vs as [ | v vs IH]; intros start Hin Hf; [ destruct Hin | ].
  destruct Hin as [-> | Hin].
  - change (NaN (add_all vs (start + f)%float)).
    apply add_all_nan_start, nan_add_r, Hf.
  - destruct v as [g | ].
    + change (NaN (add_all vs (start + g)%float)). apply IH; assumption.
    + change (NaN (add_all vs start)). apply IH; assumption.
Qed.

Lemma count_some_pos {A : Type} (vs : list (option A)) (a : A) :
  In (Some a) vs -> 0 < count_some vs.
Proof.
  forget_runtime. induction vs as [ | v vs IH]; [ intros [] | ].
  rewrite count_some_cons. intros [-> | Hin].
  - unfold count_some. lia.
  - specialize (IH Hin). destruct v; lia.
Qed.

Lemma summarize_day_avg_loss (day : string) (d : DayState) (row : Summary.t) :
  0 < loss_count d -> summarize_day day d = Ok row ->
  exists n, float_of_int (loss_count d) = Ok n /\
            Summary.avg_loss_pct row = (loss_sum d / n)%float.
Proof.
  intros Hpos. apply Z.ltb_lt in Hpos. unfold summarize_day. rewrite Hpos.
  destruct (if 0 <? total_probes d then _ else _) as [u | ]; [ | discriminate ].
  cbn [bind].
  destruct (float_of_int (loss_count d)) as [n | ]; [ | discriminate ].
  cbn [bind].
  destruct (if 0 <? rtt_count d then _ else _) as [ar | ]; [ | discriminate ].
  cbn [bind]. intros [= <-]. exists n. split; reflexivity.
Qed.

(** X22.  One record with a NaN for [loss_pct] ([json.loads] reads the
    literal NaN) spoils the day: in the snapshot of a log read from its
    first byte the record counts as degraded, and the average loss of its
    day is a NaN, whatever the other records of the day say. *)
Theorem nan_loss_spoils_the_day (now : float) (stat : File)
  (rows : list Summary.t) (day : string) (row : Summary.t) (r : pyval)
  (f : float) :
  returned (build_daily_summary_from_file now (Some stat) empty_cache) = Ok rows ->
  row_of day rows = Some row ->
  In r (day_records day (records_of (readlines (content stat)))) ->
  get r "loss_pct" = PFloat f -> NaN f ->
  NaN (Summary.avg_loss_pct row) /\ is_bucket Degraded r = true.
Proof.
  intros Hrows Hrow Hin Hloss Hnan.
  destruct (row_from_day_records now stat rows day row Hrows Hrow)
    as (d & Hd & Hs).
  destruct (merge_all_adds _ _ _ Hd) as (E1 & E2 & _).
  cbn [fresh_day loss_sum loss_count] in E1, E2.
  assert (Hof : loss_of r = Some f).
  { unfold loss_of. rewrite Hloss. reflexivity. }
  assert (Hin' : In (Some f)
                   (map loss_of
                      (day_records day (records_of (readlines (content stat)))))).
  { rewrite <- Hof. apply in_map. exact Hin. }
  pose proof (count_some_pos _ _ Hin') as Hpos.
  destruct (summarize_day_avg_loss day d row) as (n & _ & ->);
    [ lia | exact Hs | ].
  split.
  - apply nan_div_l. rewrite E1. exact (add_all_nan _ _ _ Hin' Hnan).
  - unfold is_bucket, bucket_of. cbn zeta. rewrite Hloss.
    cbn [is_number num_eqb]. rewrite !(nan_neq f _ Hnan). reflexivity.
Qed.

(** ** A line written in two parts *)

(** A text without a line break that is not empty is one line. *)
Lemma readlines_no_break (s : string) :
  s <> "" -> no_break s = true -> readlines s = [s].
Proof.
  forget_runtime.
  induction s as [ | c r IH]; [ congruence | ]. intros _.
  cbn [no_break]. intros H.
  apply andb_true_iff in H as [H Hr]. apply andb_true_iff in H as [Hlf Hcr].
  apply negb_true_iff in Hlf, Hcr.
  unfold readlines in *. rewrite readlines_from_step, Hlf, Hcr.
  destruct r as [ | c' r'].
  - reflexivity.
  - assert (Hne : String c' r' <> "") by discriminate.
    specialize (IH Hne Hr).
    pose proof (readlines_from_shift (String c' r') 1%nat 0%nat) as Hs.
    rewrite IH in Hs.
    destruct (readlines_from 1 (String c' r')) as [ | [l p] ls]; [ discriminate | ].
    cbn in Hs. injection Hs as -> Hls.
    destruct ls; [ reflexivity | discriminate ].
Qed.

(** A call on a file that has grown since the call the cache is from. *)
Lemma poll_appended (now : float) (ino : Z) (text chunk : string) (c : Cache)
  (daily : Daily) (seen : list string) (rows : list Summary.t) :
  inode c = Some ino -> position c = String.length text ->
  size c = String.length text -> chunk <> "" ->
  merge_lines (readlines chunk) (daily_state c) = (daily, None, seen) ->
  _summaries_from_state daily = Ok rows ->
  build_daily_summary_from_file now (Some (mkFile ino (text ++ chunk))) c
  = mkOutcome
      (mkCache daily rows (String.length (text ++ chunk)) (Some ino)
         (String.length (text ++ chunk)) (Some now))
      (Ok rows) true seen.
Proof.
  intros Hino Hpos Hsize Hne Hm Hrows.
  cbn [build_daily_summary_from_file].
  set (stat := mkFile ino (text ++ chunk)).
  assert (Hlen : st_size stat = (String.length text + String.length chunk)%nat).
  { unfold st_size, stat. cbn [content]. apply length_append. }
  assert (Hchunk : (0 < String.length chunk)%nat).
  { destruct chunk; [ congruence | cbn; lia ]. }
  assert (Hrot : rotated stat c = false).
  { unfold rotated. apply inode_is_true in Hino. cbn [st_ino stat]. rewrite Hino.
    cbn [negb orb]. apply Nat.ltb_ge. lia. }
  rewrite Hrot. unfold reuse_or_rebuild.
  assert (Hit : cache_hit stat c = false).
  { unfold cache_hit.
    assert (E : (position c =? st_size stat)%nat = false) by (apply Nat.eqb_neq; lia).
    rewrite E, andb_false_r. reflexivity. }
  rewrite Hit, Hpos. unfold stat at 1. cbn [content].
  rewrite drop_append, readlines_at, Hm.
  unfold tell, handle_after_loop. cbn [telling tell_offset].
  rewrite Hrows. rewrite Nat.max_r by lia.
  unfold st_size, stat. cbn [content st_ino]. reflexivity.
Qed.

(** X23.  A line that reaches the file in two parts, with a call of
    [/daily] between the parts, is lost: the call consumes the first part
    as a line of its own (which is not JSON, and is skipped) and stores the
    end of the file, and the next call reads the rest of the line, which is
    not JSON either.  Both calls return the snapshot of before, the
    per-day state is as it was, and the position is the end of the file, so
    that no later call reads the line again, although the file holds it as
    one complete line. *)
Theorem split_line_is_lost (now1 now2 : float) (ino : Z) (text a b : string)
  (c : Cache) (rows : list Summary.t) :
  inode c = Some ino -> position c = String.length text ->
  size c = String.length text ->
  _summaries_from_state (daily_state c) = Ok rows ->
  complete text = true ->
  a <> "" -> no_break a = true -> no_break b = true ->
  decode_line a = None -> decode_line (b ++ nl) = None ->
  let o1 := build_daily_summary_from_file now1
              (Some (mkFile ino (text ++ a))) c in
  let o2 := build_daily_summary_from_file now2
              (Some (mkFile ino ((text ++ a) ++ b ++ nl))) (cache_after o1) in
  returned o1 = Ok rows /\ consumed o1 = [a] /\
  returned o2 = Ok rows /\ consumed o2 = [(b ++ nl)%string] /\
  daily_state (cache_after o2) = daily_state c /\
  position (cache_after o2) = String.length ((text ++ a) ++ b ++ nl) /\
  readlines ((text ++ a) ++ b ++ nl)
  = (readlines text ++ [((a ++ b) ++ nl)%string])%list.
Proof.
  intros Hino Hpos Hsize Hrows Hct Ha Hba Hbb Hda Hdb o1 o2.
  assert (H1 : o1 = mkOutcome
                      (mkCache (daily_state c) rows (String.length (text ++ a))
                         (Some ino) (String.length (text ++ a)) (Some now1))
                      (Ok rows) true [a]).
  { apply poll_appended; try assumption.
    rewrite (readlines_no_break a Ha Hba). cbn [merge_lines]. rewrite Hda.
    reflexivity. }
  assert (Hnl : (b ++ nl)%string <> "") by (destruct b; discriminate).
  assert (H2 : o2 = mkOutcome
                      (mkCache (daily_state c) rows
                         (String.length ((text ++ a) ++ b ++ nl)) (Some ino)
                         (String.length ((text ++ a) ++ b ++ nl)) (Some now2))
                      (Ok rows) true [(b ++ nl)%string]).
  { unfold o2. rewrite H1. cbn [cache_after].
    apply poll_appended; try reflexivity; try assumption.
    cbn [daily_state]. rewrite (readlines_one_line b Hbb). cbn [merge_lines].
    rewrite Hdb. reflexivity. }
  rewrite H1, H2. cbn [returned consumed cache_after daily_state position].
  repeat split.
  rewrite !append_assoc. rewrite (readlines_append text _ Hct).
  f_equal. rewrite <- append_assoc.
  apply readlines_one_line. apply no_break_append; assumption.
Qed.

End Runtime.

(** * The properties on the sample logs *)

(** A record without [loss_pct] gets [internet_up = False], not [None]. *)
Lemma status_without_loss_is_false :
  exists st,
    status_of sample_float
      (PDict [("timestamp", PStr "2024-06-01T00:00:00Z")]) = Ok st
    /\ Status.loss_pct st = PNone
    /\ Status.internet_up st = Some false
    /\ Status.internet_up st <> None.
Proof.
  eexists. split; [ reflexivity | ]. cbn. repeat split. discriminate.
Qed.

Lemma status_internet_up_sample :
  let st45 :=
    Status.mk (PStr "2024-06-02T00:00:00Z") PNone (PInt 45) PNone (Some true) in
  let st100 :=
    Status.mk (PStr "2024-06-01T00:10:00Z") (PStr "Cloudflare") (PInt 100)
      (PFloat 18.1) (Some false) in
  status_of sample_float rec_next_day = Ok st45
  /\ Status.internet_up st45 = Some (45 <? 100)%float
  /\ status_of sample_float rec_loss100 = Ok st100
  /\ Status.internet_up st100 = Some (100 <? 100)%float.
Proof.
  intros st45 st100.
  split; [ reflexivity | ].
  split.
  { refine (proj1 (proj2 (proj2
              (status_internet_up sample_float rec_next_day st45 eq_refl)))
              45%float _ eq_refl).
    discriminate. }
  split; [ reflexivity | ].
  refine (proj1 (proj2 (proj2
            (status_internet_up sample_float rec_loss100 st100 eq_refl)))
            100%float _ eq_refl).
  discriminate.
Defined.

(** The poll of a log whose last line has no terminator consumes that line and
    stores the end of the file, beyond the last newline. *)
Lemma partial_line_is_consumed :
  let o := build_daily_summary_from_file sample_loads sample_float sample_repr
             0%float (Some partial_log) empty_cache in
  consumed o = [(line_loss0 ++ nl)%string; line_partial]
  /\ position (cache_after o) = String.length (content partial_log)
  /\ (String.length (line_loss0 ++ nl) < position (cache_after o))%nat.
Proof. vm_compute. repeat split. repeat constructor. Qed.

Lemma position_after_poll_sample :
  let o := build_daily_summary_from_file sample_loads sample_float sample_repr
             0%float (Some partial_log) empty_cache in
  position (cache_after o) = Nat.max 0 (st_size partial_log)
  /\ (opened o = true ->
      consumed o = map fst (readlines_from 0 (drop 0 (content partial_log)))).
Proof.
  refine (position_after_poll sample_loads sample_float sample_repr 0%float
            partial_log empty_cache _ _).
  vm_compute. reflexivity.
Defined.

(** C3 (what the code does).  [read_recent_records] with [MAX_RECORDS = 1] on
    a log of a valid line followed by a malformed one: the file holds one
    valid record, and the function, which cuts the window of the last line
    before it drops what is not JSON, returns none; with [MAX_RECORDS = 2]
    it returns the record.  On a log whose last line is an integer literal
    of 4301 digits the call raises [ValueError] instead of returning. *)
Lemma recent_records_counts_malformed_lines :
  records_of sample_loads (readlines (content noisy_log)) = [rec_loss0]
  /\ read_recent_records sample_loads sample_crash 1 (Some noisy_log) = Ok []
  /\ read_recent_records sample_loads sample_crash 2 (Some noisy_log)
     = Ok [rec_loss0]
  /\ read_recent_records sample_loads sample_crash 1 (Some long_integer_log)
     = Raise ValueError.
Proof. repeat split; vm_compute; reflexivity. Qed.

(** The window of two lines on the log of three records. *)
Lemma recent_records_window_sample :
  read_recent_records sample_loads sample_crash 2 (Some old_log)
  = Ok [rec_loss50; rec_loss100].
Proof.
  destruct (recent_records_window sample_loads sample_crash 2 old_log)
    as (E & _); [ reflexivity | ].
  rewrite E; [ reflexivity | ].
  repeat constructor.
Defined.

Lemma rotation_discards_cache_sample :
  let old_cache :=
    cache_after (build_daily_summary_from_file sample_loads sample_float
                   sample_repr 0%float (Some old_log) empty_cache) in
  build_daily_summary_from_file sample_loads sample_float sample_repr 1%float
    (Some new_log) old_cache
  = build_daily_summary_from_file sample_loads sample_float sample_repr 1%float
      (Some new_log) empty_cache
  /\ map fst (daily_state
                (cache_after
                   (build_daily_summary_from_file sample_loads sample_float
                      sample_repr 1%float (Some new_log) old_cache)))
     = ["2024-06-02"].
Proof.
  intros old_cache.
  destruct (rotation_discards_cache sample_loads sample_float sample_repr
              1%float new_log old_cache) as (E & D).
  - left. vm_compute. discriminate.
  - split; [ exact E | ]. rewrite D. reflexivity.
Defined.



Lemma incremental_equals_batch_sample :
  let steps := [(0%float, (line_loss0 ++ nl)%string);
                (1%float, (line_loss50 ++ nl ++ line_loss100 ++ nl)%string);
                (2%float, EmptyString)] in
  let final :=
    last (polls sample_loads sample_float sample_repr 11 "" steps empty_cache)
      (mkOutcome empty_cache (Ok []) false []) in
  returned final
  = batch_snapshot sample_float sample_repr
      (records_of sample_loads (readlines (join (map snd steps))))
  /\ returned final = Ok [june_first].
Proof.
  intros steps final.
  assert (H1 : steps <> []) by discriminate.
  assert (H2 : Forall (valid_step sample_loads sample_float) steps).
  { repeat constructor; vm_compute; repeat constructor. }
  assert (H3 : Forall (fun o => is_ok (returned o) = true)
                 (removelast (polls sample_loads sample_float sample_repr 11 ""
                                steps empty_cache))).
  { vm_compute. repeat constructor. }
  split.
  - exact (proj1 (incremental_equals_batch sample_loads sample_float sample_repr
                    11 steps (mkOutcome empty_cache (Ok []) false []) H1 H2 H3)).
  - vm_compute. reflexivity.
Defined.

Lemma loss_classification_sample :
  let daily1 := fst (merge_record sample_float sample_repr rec_loss0 []) in
  let daily2 := fst (merge_record sample_float sample_repr rec_loss50 daily1) in
  total_probes (day_of daily2 "2024-06-01")
  = total_probes (day_of daily1 "2024-06-01") + 1
  /\ (good_probes (day_of daily2 "2024-06-01"),
      degraded_probes (day_of daily2 "2024-06-01"),
      down_probes (day_of daily2 "2024-06-01")) = (1, 1, 0).
Proof.
  intros daily1 daily2.
  assert (Hm : merge_record sample_float sample_repr rec_loss50 daily1
               = (daily2, None)) by (vm_compute; reflexivity).
  destruct (loss_classification sample_float sample_repr rec_loss50 daily1 daily2
              "2024-06-01T00:05:00Z" eq_refl ltac:(discriminate) Hm)
    as (Ht & Hl & _).
  split; [ exact Ht | ].
  destruct (Hl eq_refl) as (f & _ & _ & _ & Hb).
  exact Hb.
Defined.


Lemma out_of_range_loss_sample :
  let daily1 := fst (merge_record sample_float sample_repr rec_loss150 []) in
  let daily2 := fst (merge_record sample_float sample_repr rec_loss_minus5 daily1) in
  degraded_probes (day_of daily1 "2024-06-03") = 0 + 1
  /\ degraded_probes (day_of daily2 "2024-06-03") = 1 + 1
  /\ down_probes (day_of daily2 "2024-06-03") = 0
  /\ loss_count (day_of daily2 "2024-06-03") = 1 + 1
  /\ _summaries_from_state daily2 = Ok [june_third]
  /\ Summary.degraded_probes june_third = 1 + 1
  /\ exists up n,
       float_of_int (1 + 1 - 0) = Ok up /\ float_of_int (1 + 1) = Ok n /\
       Summary.uptime_pct june_third = (100 * up / n)%float.
Proof.
  intros daily1 daily2.
  destruct (out_of_range_loss_is_degraded sample_float sample_repr rec_loss150
              [] "2024-06-03T00:00:00Z" eq_refl ltac:(discriminate) eq_refl
              eq_refl) as (_ & _ & _ & Hd1 & _).
  destruct (out_of_range_loss_is_degraded sample_float sample_repr
              rec_loss_minus5 daily1 "2024-06-03T00:05:00Z" eq_refl
              ltac:(discriminate) eq_refl eq_refl)
    as (_ & _ & Hc2 & Hd2 & _ & Hdn2 & _ & Hrow).
  destruct (Hrow june_third) as (_ & _ & Hdeg & _ & Hup & _);
    [ vm_compute; discriminate | vm_compute; discriminate
    | vm_compute; reflexivity | ].
  split; [ exact Hd1 | ]. split; [ exact Hd2 | ]. split; [ exact Hdn2 | ].
  split; [ exact Hc2 | ]. split; [ vm_compute; reflexivity | ].
  split; [ exact Hdeg | exact Hup ].
Defined.

(** A [loss_pct] of 10 ** 400 is an int above
    100; [float(loss)] raises [OverflowError] on it, after [total_probes]
    was incremented: the loss count and the degraded bucket of the day stay
    at 0, and the loop is left by the exception. *)
Lemma huge_loss_is_not_counted :
  let out := merge_record sample_float sample_repr rec_loss_huge [] in
  is_number (get rec_loss_huge "loss_pct") = true
  /\ outside_0_100 (get rec_loss_huge "loss_pct") = true
  /\ snd out = Some OverflowError
  /\ total_probes (day_of (fst out) "2024-06-03") = 1
  /\ loss_count (day_of (fst out) "2024-06-03") = 0
  /\ degraded_probes (day_of (fst out) "2024-06-03") = 0.
Proof. repeat split; vm_compute; reflexivity. Qed.

(** C5 (what the code does).  A started relay meets a log of three complete
    lines: the turn of [run] hands nothing to the broker, sleeps 2 seconds
    as after a read error, and leaves [_last_size] at 0; so does every
    later turn. *)
Lemma relay_drops_every_line :
  run sample_loads sample_float sample_dumps sample_settings sample_broker
    (Some old_log) started
  = (mkPublisher false 0 (Some 11) false, [], 2%nat)
  /\ run sample_loads sample_float sample_dumps sample_settings sample_broker
       (Some old_log) (mkPublisher false 0 (Some 11) false)
     = (mkPublisher false 0 (Some 11) false, [], 2%nat).
Proof. split; vm_compute; reflexivity. Qed.


(** ** Further properties on the samples *)

Lemma publishes_in_order_sample :
  let r := publishes sample_broker
             [("connectivity/measurements", "a"); ("connectivity/status", "b")]
             started in
  snd r = [Published "connectivity/measurements" "a";
           Published "connectivity/status" "b"]
  /\ client (fst r) = true /\ _last_size (fst r) = 0%nat.
Proof.
  intros r.
  destruct (publishes_in_order sample_broker
              [("connectivity/measurements", "a"); ("connectivity/status", "b")]
              started) as (E & C & S & _).
  - right. split; reflexivity.
  - split; [ exact E | ]. split; [ apply C; discriminate | exact S ].
Defined.

Lemma publishes_without_broker_sample :
  let r := publishes no_paho
             [("connectivity/measurements", "a"); ("connectivity/status", "b")]
             started in
  snd r = [PahoMissing] /\ client (fst r) = false.
Proof.
  intros r.
  destruct (publishes_without_broker no_paho
              [("connectivity/measurements", "a"); ("connectivity/status", "b")]
              started) as (E & C & _).
  - reflexivity.
  - left. reflexivity.
  - split; [ exact E | exact C ].
Defined.

Lemma sensor_against_relay_sample :
  is_on sample_float rec_next_day = Ok (Some true)
  /\ is_on sample_float (PDict [("timestamp", PStr "2024-06-01T00:00:00Z")])
     = Ok None.
Proof.
  split.
  - exact (proj1 (sensor_against_relay sample_float rec_next_day
                    (Status.mk (PStr "2024-06-02T00:00:00Z") PNone (PInt 45)
                       PNone (Some true)) eq_refl)).
  - exact (proj1 (sensor_against_relay sample_float
                    (PDict [("timestamp", PStr "2024-06-01T00:00:00Z")])
                    (Status.mk (PStr "2024-06-01T00:00:00Z") PNone PNone PNone
                       (Some false)) eq_refl)).
Defined.

Lemma every_snapshot_well_formed_sample :
  ascending ["2024-06-01"; "2024-06-02"]
  /\ Forall row_ok [june_first; june_second].
Proof.
  apply (every_snapshot_well_formed sample_loads sample_float sample_repr
           1%float (Some two_day_log)
           (cache_after
              (build_daily_summary_from_file sample_loads sample_float
                 sample_repr 0%float (Some old_log) empty_cache))
           [june_first; june_second]).
  - apply reach_daily, reach_start.
  - vm_compute. reflexivity.
Defined.

(** A record is appended to the log of three while the call reads it: the
    call reads all four lines, stores the size of three and the position
    after four. *)
Lemma position_covers_size_sample :
  let o := build_daily_summary_appended sample_loads sample_float sample_repr
             0%float (Some old_log) (line_next_day ++ nl) empty_cache in
  returned o = Ok [june_first; june_second]
  /\ size (cache_after o) = st_size old_log
  /\ position (cache_after o) = st_size two_day_log
  /\ (size (cache_after o) < position (cache_after o))%nat
  /\ List.length (consumed o) = 4%nat.
Proof.
  intros o.
  destruct (position_covers_size sample_loads sample_float sample_repr 0%float
              old_log (line_next_day ++ nl) empty_cache
              (reach_appended_start _ _ _))
    as (_ & _ & H & _).
  fold o in H.
  assert (Hok : is_ok (returned o) = true) by (vm_compute; reflexivity).
  assert (Hop : opened o = true) by (vm_compute; reflexivity).
  destruct (H Hok Hop) as (S & P & C).
  split; [ vm_compute; reflexivity | ].
  split; [ exact S | ].
  split; [ rewrite P; vm_compute; reflexivity | ].
  split; [ rewrite S, P; vm_compute; repeat constructor | ].
  rewrite C. vm_compute. reflexivity.
Defined.

Lemma snapshot_counts_records_sample :
  Summary.total_probes june_first
  = count_day "2024-06-01"
      (records_of sample_loads (readlines (content two_day_log)))
  /\ row_of "2024-06-03" [june_first; june_second] = None
  /\ count_day "2024-06-03"
       (records_of sample_loads (readlines (content two_day_log))) = 0.
Proof.
  assert (H : returned
                (build_daily_summary_from_file sample_loads sample_float
                   sample_repr 0%float (Some two_day_log) empty_cache)
              = Ok [june_first; june_second]) by (vm_compute; reflexivity).
  split; [ | split; [ reflexivity | ] ].
  - exact (proj1 (proj2 (snapshot_counts_records sample_loads sample_float
                           sample_repr 0%float two_day_log
                           [june_first; june_second] "2024-06-01" H))).
  - exact (snapshot_counts_records sample_loads sample_float sample_repr 0%float
             two_day_log [june_first; june_second] "2024-06-03" H).
Defined.

Lemma failed_read_repeats_sample :
  let c1 := cache_after
              (build_daily_summary_from_file loads_with_number sample_float
                 sample_repr 0%float (Some first_line_log) empty_cache) in
  let o1 := build_daily_summary_from_file loads_with_number sample_float
              sample_repr 1%float (Some grown_poisoned_log) c1 in
  let o2 := build_daily_summary_from_file loads_with_number sample_float
              sample_repr 2%float (Some grown_poisoned_log) (cache_after o1) in
  returned o2 = Raise AttributeError
  /\ total_probes (day_of (daily_state (cache_after o1)) "2024-06-01") = 2
  /\ total_probes (day_of (daily_state (cache_after o2)) "2024-06-01") = 3.
Proof.
  intros c1 o1 o2.
  destruct (failed_read_repeats loads_with_number sample_float sample_repr
              1%float 2%float grown_poisoned_log c1 AttributeError)
    as (R & _ & _ & _ & D).
  - vm_compute. reflexivity.
  - apply Nat.ltb_lt. vm_compute. reflexivity.
  - split; [ exact R | ]. split; [ vm_compute; reflexivity | ].
    fold o1 o2 in D. rewrite (D "2024-06-01"). vm_compute. reflexivity.
Defined.

Lemma most_recent_day_is_latest_sample :
  most_recent_day [june_first; june_second] = Some june_second
  /\ String.ltb (Summary.date june_first) (Summary.date june_second) = true.
Proof.
  split; [ reflexivity | ].
  destruct (most_recent_day_is_latest sample_loads sample_float sample_repr
              0%float (Some two_day_log) empty_cache [june_first; june_second])
    as [_ H].
  - apply reach_start.
  - vm_compute. reflexivity.
  - destruct (H june_first (or_introl eq_refl)) as [E | L];
      [ discriminate E | exact L ].
Defined.

Lemma day_records_sorted_sample :
  read_records_for_day sample_loads "2024-06-01" (Some shuffled_log)
  = Ok [rec_loss0; rec_loss50]
  /\ Permutation [rec_loss0; rec_loss50] [rec_loss50; rec_loss0]
  /\ Forall (fun r => py_get r "timestamp" = Ok (PStr (timestamp_key r)) /\
                      String.prefix "2024-06-01" (timestamp_key r) = true)
       [rec_loss0; rec_loss50].
Proof.
  assert (H : read_records_for_day sample_loads "2024-06-01" (Some shuffled_log)
              = Ok [rec_loss0; rec_loss50]) by (vm_compute; reflexivity).
  split; [ exact H | ].
  destruct (day_records_sorted sample_loads "2024-06-01" shuffled_log
              [rec_loss0; rec_loss50]) as (P & _ & _ & F).
  - discriminate.
  - exact H.
  - split; [ exact P | exact F ].
Defined.


Lemma day_page_covers_row_sample :
  count_day "2024-06-01"
    (records_of sample_loads (readlines (content shuffled_log))) <= 2.
Proof.
  apply (day_page_covers_row sample_loads "2024-06-01" shuffled_log
           [rec_loss0; rec_loss50]).
  - discriminate.
  - vm_compute. reflexivity.
Defined.

Lemma post_config_round_trip_sample :
  do_POST loads_body sample_env "/config" body_plain empty_cache
    (Some ("INTERVAL_SECONDS=5" ++ nl))
  = Ok (empty_cache, Some ("TARGETS=1.1.1.1,9.9.9.9" ++ nl),
        Configured "1.1.1.1,9.9.9.9" "30")
  /\ read_config sample_env (Some ("TARGETS=1.1.1.1,9.9.9.9" ++ nl))
     = ("1.1.1.1,9.9.9.9", "30").
Proof.
  destruct (post_config_round_trip loads_body sample_env body_plain empty_cache
              (Some ("INTERVAL_SECONDS=5" ++ nl)) "1.1.1.1,9.9.9.9" "soon")
    as (cfg' & E & R & F & _).
  - vm_compute. reflexivity.
  - vm_compute. reflexivity.
  - reflexivity.
  - rewrite F in E, R. split; [ exact E | exact R ].
Defined.


Lemma config_last_line_wins_sample :
  read_config sample_env
    (Some ("INTERVAL_SECONDS=5" ++ nl ++ "TARGETS=old" ++ nl
           ++ "TARGETS=9.9.9.9" ++ nl))
  = ("9.9.9.9", "5").
Proof.
  refine (proj1 (config_last_line_wins sample_env
                   ("INTERVAL_SECONDS=5" ++ nl ++ "TARGETS=old" ++ nl)
                   "9.9.9.9" _ _ _ _));
    try discriminate; reflexivity.
Defined.

Lemma service_interval_sample :
  exists cfg' shown,
    do_POST loads_body sample_env "/config" body_service empty_cache None
    = Ok (empty_cache, cfg', Configured shown "45")
    /\ (0 < 45 -> exists text, cfg' = Some text).
Proof.
  refine (service_interval loads_body sample_env body_service empty_cache None
            (Some "1.1.1.1") 45 "1.1.1.1" _ _ _);
    vm_compute; reflexivity.
Defined.


Lemma row_depends_on_its_day_sample :
  day_records "2024-06-01"
    (records_of sample_loads (readlines (content two_day_log)))
  = [rec_loss0; rec_loss50; rec_loss100]
  /\ exists d,
       merge_all sample_float sample_repr
         (day_records "2024-06-01"
            (records_of sample_loads (readlines (content two_day_log))))
         (fresh_day "2024-06-01") = (d, None)
       /\ summarize_day "2024-06-01" d = Ok june_first.
Proof.
  split; [ vm_compute; reflexivity | ].
  apply (row_depends_on_its_day sample_loads sample_float sample_repr 0%float
           two_day_log [june_first; june_second] "2024-06-01" june_first).
  - vm_compute. reflexivity.
  - reflexivity.
Defined.

Lemma row_lists_what_was_seen_sample :
  exists r,
    In r (day_records "2024-06-01"
            (records_of sample_loads (readlines (content two_day_log))))
    /\ target_of sample_repr r = Some "Cloudflare".
Proof.
  refine (proj1 (proj1 (row_lists_what_was_seen sample_loads sample_float
                          sample_repr 0%float two_day_log
                          [june_first; june_second] "2024-06-01" june_first
                          "Cloudflare" _ _)) _).
  - vm_compute. reflexivity.
  - reflexivity.
  - left. reflexivity.
Defined.

Lemma row_adds_up_its_day_sample :
  let recs := day_records "2024-06-01"
                (records_of sample_loads (readlines (content two_day_log))) in
  Summary.good_probes june_first
  = Z.of_nat (List.length (filter (is_bucket Good) recs))
  /\ Summary.degraded_probes june_first
     = Z.of_nat (List.length (filter (is_bucket Degraded) recs))
  /\ Summary.down_probes june_first
     = Z.of_nat (List.length (filter (is_bucket Down) recs))
  /\ map (loss_of sample_float) recs = [Some 0%float; Some 50%float; Some 100%float]
  /\ map (rtt_of sample_float) recs = [Some 12.5%float; None; Some 18.1%float].
Proof.
  intros recs.
  destruct (row_adds_up_its_day sample_loads sample_float sample_repr 0%float
              two_day_log [june_first; june_second] "2024-06-01" june_first)
    as (G & D & W & _).
  - vm_compute. reflexivity.
  - reflexivity.
  - split; [ exact G | ]. split; [ exact D | ]. split; [ exact W | ].
    split; vm_compute; reflexivity.
Defined.


Lemma nan_loss_spoils_the_day_sample :
  NaN (Summary.avg_loss_pct june_first_nan)
  /\ is_bucket Degraded rec_nan = true
  /\ Summary.degraded_probes june_first_nan = 2.
Proof.
  destruct (nan_loss_spoils_the_day loads_with_nan sample_float sample_repr
              0%float nan_log [june_first_nan] "2024-06-01" june_first_nan
              rec_nan nan) as [A B].
  - vm_compute. reflexivity.
  - reflexivity.
  - vm_compute. right. left. reflexivity.
  - reflexivity.
  - vm_compute. reflexivity.
  - split; [ exact A | ]. split; [ exact B | reflexivity ].
Defined.


Lemma split_line_is_lost_sample :
  let c := cache_after
             (build_daily_summary_from_file sample_loads sample_float
                sample_repr 0%float (Some first_line_log) empty_cache) in
  let o1 := build_daily_summary_from_file sample_loads sample_float sample_repr
              1%float (Some (mkFile 11 ((line_loss0 ++ nl) ++ part_one))) c in
  let o2 := build_daily_summary_from_file sample_loads sample_float sample_repr
              2%float
              (Some (mkFile 11 (((line_loss0 ++ nl) ++ part_one)
                                ++ part_two ++ nl)))
              (cache_after o1) in
  (part_one ++ part_two)%string = line_loss50
  /\ returned o2 = Ok [june_first_alone]
  /\ daily_state (cache_after o2) = daily_state c
  /\ readlines (((line_loss0 ++ nl) ++ part_one) ++ part_two ++ nl)
     = [(line_loss0 ++ nl)%string; ((part_one ++ part_two) ++ nl)%string].
Proof.
  intros c o1 o2.
  destruct (split_line_is_lost sample_loads sample_float sample_repr
              1%float 2%float 11 (line_loss0 ++ nl) part_one part_two c
              [june_first_alone])
    as (_ & _ & R & _ & D & _ & L);
    try (vm_compute; reflexivity); try discriminate.
  split; [ vm_compute; reflexivity | ].
  split; [ exact R | ]. split; [ exact D | exact L ].
Defined.
